(** * AI-alignment taxonomy visualizer: graph builder, node resolver, document store

    A shallow embedding of [visualizer/app.py] (the graph builder
    [build_graph_data] and the document store of the Flask application) and of
    [node_details_helper.py] (the resolver [get_node_details] with its nested
    search [find_nested_node] and its own document store), followed by the
    properties of the specification that concern them.

    - Python values are JSON documents: [None], booleans, integers, strings
      (as their UTF-8 bytes), lists, and dicts as association lists in
      insertion order.  Numbers that are not integers are not modelled.
    - Python exceptions are explicit results; [try]/[except] is a handler.
    - The mutable locals of [build_graph_data] ([nodes], [links],
      [node_map]) are threaded as an explicit state.
    - What lies outside the two modules is a parameter: [json.loads], the
      reading of a file in one encoding, the listing of a directory, and the
      [repr] of a list or dict. *)

From Stdlib Require Import List String Ascii ZArith NArith Bool Arith Lia.
From Stdlib Require Decimal DecimalString.
Import ListNotations.
Local Open Scope string_scope.
Local Open Scope list_scope.

Set Implicit Arguments.
Set Warnings "-register-all".

(** ** JSON documents as Python sees them *)

(** What [json.loads] produces.  Numbers are the integral ones ([int]);
    objects are Python dicts, kept in insertion order. *)
Inductive json : Type :=
| JNull
| JBool (b : bool)
| JNum (z : Z)
| JStr (s : string)
| JArr (items : list json)
| JObj (fields : list (string * json)).

(** A [dict] with string keys: association list in insertion order,
    the first binding of a key is the binding. *)
Definition dict (V : Type) := list (string * V).

Fixpoint dict_get {V} (k : string) (d : dict V) : option V :=
  match d with
  | [] => None
  | (k', v) :: d' => if String.eqb k k' then Some v else dict_get k d'
  end.

Definition dict_mem {V} (k : string) (d : dict V) : bool :=
  match dict_get k d with Some _ => true | None => false end.

(** [d[k] = v]: overwrite in place, or append a new key. *)
Fixpoint dict_set {V} (k : string) (v : V) (d : dict V) : dict V :=
  match d with
  | [] => [(k, v)]
  | (k', v') :: d' =>
      if String.eqb k k' then (k', v) :: d' else (k', v') :: dict_set k v d'
  end.

(** [d.get(k, default)] *)
Definition get (d : dict json) (k : string) (default : json) : json :=
  match dict_get k d with Some v => v | None => default end.

(** ** Exceptions *)

Inductive exn : Type :=
| KeyError | TypeError | AttributeError
| UnicodeDecodeError | JSONDecodeError | OSError.

Inductive result (A : Type) : Type :=
| Ok (a : A)
| Raise (e : exn).
Arguments Ok {A} a.
Arguments Raise {A} e.

Definition bind {A B} (m : result A) (f : A -> result B) : result B :=
  match m with
  | Ok a => f a
  | Raise e => Raise e
  end.

Notation "x <- m ;; k" := (bind m (fun x => k))
  (at level 61, m at next level, right associativity).

(** [try: m  except Exception: h] *)
Definition try_except {A} (m : result A) (h : exn -> result A) : result A :=
  match m with
  | Ok a => Ok a
  | Raise e => h e
  end.

(** [for x in l: s = body(s, x)], an exception leaving the loop. *)
Fixpoint foreach {A S} (body : S -> A -> result S) (l : list A) (s : S)
  : result S :=
  match l with
  | [] => Ok s
  | x :: l' => s' <- body s x ;; foreach body l' s'
  end.

(** ** Python operations on JSON values *)

(** [bool(v)] *)
Definition truthy (v : json) : bool :=
  match v with
  | JNull => false
  | JBool b => b
  | JNum z => negb (Z.eqb z 0)
  | JStr s => negb (String.eqb s "")
  | JArr l => match l with [] => false | _ => true end
  | JObj d => match d with [] => false | _ => true end
  end.

(** [v == s] for a string [s]. *)
Definition eq_str (v : json) (s : string) : bool :=
  match v with
  | JStr s' => String.eqb s' s
  | _ => false
  end.

(** Lists and dicts cannot be dict keys or set members. *)
Definition hashable (v : json) : bool :=
  match v with
  | JArr _ | JObj _ => false
  | _ => true
  end.

(** [a == b] on hashable values: [True == 1] and [False == 0] in Python. *)
Definition key_eq (a b : json) : bool :=
  match a, b with
  | JNull, JNull => true
  | JStr s, JStr t => String.eqb s t
  | JNum x, JNum y => Z.eqb x y
  | JBool x, JBool y => Bool.eqb x y
  | JBool x, JNum y | JNum y, JBool x => Z.eqb (if x then 1 else 0)%Z y
  | _, _ => false
  end.

(** [v[k]] for a string [k]: only a dict can be subscripted by a string. *)
Definition subscript (v : json) (k : string) : result json :=
  match v with
  | JObj d => match dict_get k d with Some x => Ok x | None => Raise KeyError end
  | _ => Raise TypeError
  end.

(** Substring test, for [k in s] on strings. *)
Fixpoint is_substring (k s : string) : bool :=
  if String.prefix k s then true
  else match s with
       | EmptyString => false
       | String _ s' => is_substring k s'
       end.

(** [k in v] for a string [k]: key of a dict, element of a list, substring
    of a string; anything else is not iterable. *)
Definition py_in (k : string) (v : json) : result bool :=
  match v with
  | JObj d => Ok (dict_mem k d)
  | JArr l => Ok (existsb (fun x => eq_str x k) l)
  | JStr s => Ok (is_substring k s)
  | _ => Raise TypeError
  end.

(** One-character strings of a string, as iteration yields them. *)
Fixpoint chars (s : string) : list json :=
  match s with
  | EmptyString => []
  | String c s' => JStr (String c EmptyString) :: chars s'
  end.

(** [for x in v]: a list yields its items, a dict its keys, a string its
    characters; [None], booleans and numbers raise. *)
Definition iterate (v : json) : result (list json) :=
  match v with
  | JArr l => Ok l
  | JObj d => Ok (map (fun kv => JStr (fst kv)) d)
  | JStr s => Ok (chars s)
  | _ => Raise TypeError
  end.

(** [v.get(k, default)]: only dicts have [get]. *)
Definition get_attr (v : json) (k : string) (default : json) : result json :=
  match v with
  | JObj d => Ok (get d k default)
  | _ => Raise AttributeError
  end.

(** [v + l] for a list [l]: defined only when [v] is a list. *)
Definition concat_list (v : json) (l : list json) : result (list json) :=
  match v with
  | JArr a => Ok (a ++ l)
  | _ => Raise TypeError
  end.

(** Decimal rendering of [len(...)] and indices in f-strings. *)
Definition decimal (n : nat) : string := DecimalString.NilEmpty.string_of_uint (Nat.to_uint n).

Section Formatting.

(** [str] of a list or dict (Python's [repr] with its quoting rules) is
    left abstract: [build_graph_data] formats parent ids only after they
    were used as dict keys. *)
Variable repr_container : json -> string.

(** [f"{v}"] *)
Definition py_str (v : json) : string :=
  match v with
  | JNull => "None"
  | JBool true => "True"
  | JBool false => "False"
  | JNum z => DecimalString.NilZero.string_of_int (Z.to_int z)
  | JStr s => s
  | _ => repr_container v
  end.

(** [f"{parent_id}-{role}-{len(nodes)}"] *)
Definition synth_id (parent_id : json) (role : string) (n : nat) : json :=
  JStr (py_str parent_id ++ "-" ++ role ++ "-" ++ decimal n).

End Formatting.

(** ** The graph: nodes, links and the builder's state *)

Inductive node_type : Type :=
| T_component_group | T_component | T_subcomponent | T_capability
| T_function | T_specification | T_integration | T_technique
| T_application | T_input | T_output.

Inductive link_type : Type :=
| L_contains | L_has_capability | L_has_function | L_has_specification
| L_has_integration | L_has_technique | L_has_application | L_has_input
| L_has_output.

(** A node dict; [node_parent] is [None] when the key is absent. *)
Record node : Type := {
  node_id : json;
  node_name : json;
  node_type_of : node_type;
  node_description : json;
  node_parent : option json;
  node_level : nat;
  node_expandable : bool;
  node_has_children : bool
}.

Record link : Type := {
  link_source : json;
  link_target : json;
  link_type_of : link_type
}.

(** [node_map]: a dict keyed by node ids, compared with Python's [==]. *)
Definition node_dict := list (json * node).

Definition map_has (k : json) (m : node_dict) : bool :=
  existsb (fun kv => key_eq k (fst kv)) m.

Fixpoint map_put (k : json) (v : node) (m : node_dict) : node_dict :=
  match m with
  | [] => [(k, v)]
  | (k', v') :: m' =>
      if key_eq k k' then (k', v) :: m' else (k', v') :: map_put k v m'
  end.

(** [k in node_map] *)
Definition node_map_mem (k : json) (m : node_dict) : result bool :=
  if hashable k then Ok (map_has k m) else Raise TypeError.

(** [node_map[k] = v] *)
Definition node_map_set (k : json) (v : node) (m : node_dict)
  : result node_dict :=
  if hashable k then Ok (map_put k v m) else Raise TypeError.

(** The three locals [nodes], [links], [node_map] of [build_graph_data]. *)
Record state : Type := {
  nodes : list node;
  links : list link;
  node_map : node_dict
}.

(** [nodes.append(n); node_map[n["id"]] = n; links.append(l)] *)
Definition emit (n : node) (l : link) (st : state) : result state :=
  m <- node_map_set (node_id n) n (node_map st) ;;
  Ok {| nodes := nodes st ++ [n]; links := links st ++ [l]; node_map := m |}.

Definition nonempty {A} (l : list A) : bool :=
  match l with [] => false | _ => true end.

(** [enumerate(l)] *)
Definition enumerate {A} (l : list A) : list (nat * A) :=
  combine (seq 0 (List.length l)) l.

(** The value returned by [build_graph_data]. *)
Record graph : Type := {
  graph_nodes : list node;
  graph_links : list link
}.

(** ** [AIAlignmentVisualizer.build_graph_data] (visualizer/app.py) *)

Section Builder.

Variable repr_container : json -> string.

(** *** Outputs (level 9) *)

(** The id of an output: its own truthy ["id"], else
    [f"{app_id}-output-{output_idx}"]. *)
Definition output_id_of (app_id : json) (output_idx : nat) (o : dict json)
  : json :=
  match dict_get "id" o with
  | Some v => if truthy v then v else synth_id repr_container app_id "output" output_idx
  | None => synth_id repr_container app_id "output" output_idx
  end.

Definition output_node_of (app_id : json) (output_idx : nat) (o : dict json)
  : node :=
  {| node_id := output_id_of app_id output_idx o;
     node_name := get o "name" (JStr ("Output " ++ decimal (output_idx + 1)));
     node_type_of := T_output;
     node_description := get o "description" (JStr "");
     node_parent := Some app_id;
     node_level := 9;
     node_expandable := false;
     node_has_children := false |}.

(** Body of [for output_idx, output_item in enumerate(outputs)]. *)
Definition add_output (app_id : json) (st : state) (entry : nat * json)
  : result state :=
  let (output_idx, output_item) := entry in
  match output_item with
  | JObj o =>
      let output_node := output_node_of app_id output_idx o in
      let output_id := node_id output_node in
      present <- node_map_mem output_id (node_map st) ;;
      if present then Ok st
      else emit output_node
             {| link_source := app_id; link_target := output_id;
                link_type_of := L_has_output |} st
  | _ => Ok st
  end.

(** *** Inputs (level 9) *)

Definition input_node_of (app_id : json) (count : nat) (i : dict json) : node :=
  {| node_id := get i "id" (synth_id repr_container app_id "input" count);
     node_name := get i "name" (JStr "Input");
     node_type_of := T_input;
     node_description := get i "description" (JStr "");
     node_parent := Some app_id;
     node_level := 9;
     node_expandable := false;
     node_has_children := false |}.

(** Body of the second [for input_item in inputs]. *)
Definition add_input (app_id : json) (st : state) (input_item : json)
  : result state :=
  match input_item with
  | JObj i =>
      let input_node := input_node_of app_id (List.length (nodes st)) i in
      emit input_node
        {| link_source := app_id; link_target := node_id input_node;
           link_type_of := L_has_input |} st
  | _ => Ok st
  end.

(** *** Applications (level 8) *)

(** What one input contributes to [nested_outputs]. *)
Definition input_outputs_of (input_item : json) : list json :=
  match input_item with
  | JObj i =>
      if dict_mem "outputs" i then
        match get i "outputs" (JArr []) with
        | JArr l => l
        | JObj d => [JObj d]
        | _ => []
        end
      else []
  | _ => []
  end.

(** First [for input_item in inputs]: the outputs nested in the inputs. *)
Definition nested_outputs_of (inputs : list json) : list json :=
  flat_map input_outputs_of inputs.

(** [output_id in output_ids] on the local set. *)
Definition set_has (k : json) (s : list json) : bool :=
  existsb (key_eq k) s.

(** Body of the loop that fills [unique_outputs] and [output_ids]. *)
Definition unique_step (acc : list json * list json) (out : json)
  : result (list json * list json) :=
  let (unique_outputs, output_ids) := acc in
  match out with
  | JObj o =>
      let output_id := get o "id" JNull in
      if truthy output_id then
        if hashable output_id then
          if set_has output_id output_ids then Ok acc
          else Ok (unique_outputs ++ [out], output_ids ++ [output_id])
        else Raise TypeError
      else Ok (unique_outputs ++ [out], output_ids)
  | _ => Ok acc
  end.

(** "Ensure uniqueness by ID". *)
Definition unique_outputs_of (outputs : list json) : result (list json) :=
  acc <- foreach unique_step outputs ([], []) ;;
  Ok (fst acc).

Definition app_node_of (technique_id app_id : json) (a : dict json)
  (has_app_children : bool) : node :=
  {| node_id := app_id;
     node_name := get a "name" (JStr "Application");
     node_type_of := T_application;
     node_description := get a "description" (JStr "");
     node_parent := Some technique_id;
     node_level := 8;
     node_expandable := has_app_children;
     node_has_children := has_app_children |}.

(** Body of [for app in applications]. *)
Definition add_application (technique_id : json) (st : state) (app : json)
  : result state :=
  match app with
  | JObj a =>
      let app_id := get a "id" (synth_id repr_container technique_id "app" (List.length (nodes st))) in
      let inputs := get a "inputs" (JArr []) in
      let standalone_outputs := get a "outputs" (JArr []) in
      input_items <- iterate inputs ;;
      let nested_outputs := nested_outputs_of input_items in
      outputs <- concat_list standalone_outputs nested_outputs ;;
      outputs <- unique_outputs_of outputs ;;
      let has_app_children := truthy inputs || nonempty outputs in
      st <- emit (app_node_of technique_id app_id a has_app_children)
              {| link_source := technique_id; link_target := app_id;
                 link_type_of := L_has_application |} st ;;
      st <- foreach (add_input app_id) input_items st ;;
      foreach (add_output app_id) (enumerate outputs) st
  | _ => Ok st
  end.

(** *** Techniques (level 7) *)

Definition add_technique (integration_id : json) (st : state) (technique : json)
  : result state :=
  match technique with
  | JObj t =>
      let technique_id :=
        get t "id" (synth_id repr_container integration_id "technique" (List.length (nodes st))) in
      let applications := get t "applications" (JArr []) in
      let has_technique_children := truthy applications in
      st <- emit {| node_id := technique_id;
                    node_name := get t "name" (JStr "Technique");
                    node_type_of := T_technique;
                    node_description := get t "description" (JStr "");
                    node_parent := Some integration_id;
                    node_level := 7;
                    node_expandable := has_technique_children;
                    node_has_children := has_technique_children |}
              {| link_source := integration_id; link_target := technique_id;
                 link_type_of := L_has_technique |} st ;;
      apps <- iterate applications ;;
      foreach (add_application technique_id) apps st
  | _ => Ok st
  end.

(** *** Integration (level 6), a single object under a specification *)

Definition add_integration (spec_id : json) (st : state) (integration : json)
  : result state :=
  match integration with
  | JObj i =>
      if truthy integration then
        let integration_id :=
          get i "id" (synth_id repr_container spec_id "integration" (List.length (nodes st))) in
        let techniques := get i "techniques" (JArr []) in
        let has_integration_children := truthy techniques in
        st <- emit {| node_id := integration_id;
                      node_name := get i "name" (JStr "Integration");
                      node_type_of := T_integration;
                      node_description := get i "description" (JStr "");
                      node_parent := Some spec_id;
                      node_level := 6;
                      node_expandable := has_integration_children;
                      node_has_children := has_integration_children |}
                {| link_source := spec_id; link_target := integration_id;
                   link_type_of := L_has_integration |} st ;;
        techs <- iterate techniques ;;
        foreach (add_technique integration_id) techs st
      else Ok st
  | _ => Ok st
  end.

(** *** Specifications (level 5) *)

Definition add_specification (function_id : json) (st : state) (spec : json)
  : result state :=
  match spec with
  | JObj s =>
      let spec_id := get s "id" (synth_id repr_container function_id "spec" (List.length (nodes st))) in
      let integration := get s "integration" JNull in
      let has_spec_children := truthy integration in
      st <- emit {| node_id := spec_id;
                    node_name := get s "name" (JStr "Specification");
                    node_type_of := T_specification;
                    node_description := get s "description" (JStr "");
                    node_parent := Some function_id;
                    node_level := 5;
                    node_expandable := has_spec_children;
                    node_has_children := has_spec_children |}
              {| link_source := function_id; link_target := spec_id;
                 link_type_of := L_has_specification |} st ;;
      add_integration spec_id st integration
  | _ => Ok st
  end.

(** *** Functions (level 4) *)

Definition add_function (capability_id : json) (st : state) (function : json)
  : result state :=
  match function with
  | JObj f =>
      let function_id :=
        get f "id" (synth_id repr_container capability_id "function" (List.length (nodes st))) in
      let specifications := get f "specifications" (JArr []) in
      let has_function_children := truthy specifications in
      st <- emit {| node_id := function_id;
                    node_name := get f "name" (JStr "Function");
                    node_type_of := T_function;
                    node_description := get f "description" (JStr "");
                    node_parent := Some capability_id;
                    node_level := 4;
                    node_expandable := has_function_children;
                    node_has_children := has_function_children |}
              {| link_source := capability_id; link_target := function_id;
                 link_type_of := L_has_function |} st ;;
      specs <- iterate specifications ;;
      foreach (add_specification function_id) specs st
  | _ => Ok st
  end.

(** *** Capabilities (level 3) *)

Definition add_capability (subcomp_id : json) (st : state) (capability : json)
  : result state :=
  match capability with
  | JObj c =>
      let capability_id :=
        get c "id" (synth_id repr_container subcomp_id "capability" (List.length (nodes st))) in
      let functions := get c "functions" (JArr []) in
      let has_capability_children := truthy functions in
      st <- emit {| node_id := capability_id;
                    node_name := get c "name" (JStr "Capability");
                    node_type_of := T_capability;
                    node_description := get c "description" (JStr "");
                    node_parent := Some subcomp_id;
                    node_level := 3;
                    node_expandable := has_capability_children;
                    node_has_children := has_capability_children |}
              {| link_source := subcomp_id; link_target := capability_id;
                 link_type_of := L_has_capability |} st ;;
      funcs <- iterate functions ;;
      foreach (add_function capability_id) funcs st
  | _ => Ok st
  end.

(** *** Subcomponents (level 2) *)

(** The [capabilities] local: a list, or the ["items"] of a dict, else [[]]. *)
Definition capabilities_of (subcomp : json) : result json :=
  has <- py_in "capabilities" subcomp ;;
  if has then
    caps <- subscript subcomp "capabilities" ;;
    match caps with
    | JArr _ => Ok caps
    | JObj c => if dict_mem "items" c then subscript caps "items" else Ok (JArr [])
    | _ => Ok (JArr [])
    end
  else Ok (JArr []).

(** Body of [for subcomp_id, subcomp in component_subcomponents.items()]. *)
Definition add_subcomponent (component_id : string) (st : state)
  (entry : string * json) : result state :=
  let (subcomp_id, subcomp) := entry in
  capabilities <- capabilities_of subcomp ;;
  let has_children := truthy capabilities in
  subcomp_name <- get_attr subcomp "name" (JStr subcomp_id) ;;
  subcomp_description <- get_attr subcomp "description" (JStr "") ;;
  st <- emit {| node_id := JStr subcomp_id;
                node_name := subcomp_name;
                node_type_of := T_subcomponent;
                node_description := subcomp_description;
                node_parent := Some (JStr component_id);
                node_level := 2;
                node_expandable := has_children;
                node_has_children := has_children |}
          {| link_source := JStr component_id; link_target := JStr subcomp_id;
             link_type_of := L_contains |} st ;;
  caps <- iterate capabilities ;;
  foreach (add_capability (JStr subcomp_id)) caps st.

(** *** Components (level 1) *)

(** [{s_id: s for s_id, s in subcomponents.items()
       if "parent" in s and s["parent"] == component_id}] *)
Definition attached_step (component_id : string) (acc : dict json)
  (entry : string * json) : result (dict json) :=
  let (s_id, s) := entry in
  has <- py_in "parent" s ;;
  if has then
    p <- subscript s "parent" ;;
    if eq_str p component_id then Ok (dict_set s_id s acc) else Ok acc
  else Ok acc.

Definition component_subcomponents_of (component_id : string)
  (subcomponents : dict json) : result (dict json) :=
  foreach (attached_step component_id) subcomponents [].

(** Body of [for component_id, component in components.items()]. *)
Definition add_component (root_data : json) (subcomponents : dict json)
  (st : state) (entry : string * json) : result state :=
  let (component_id, component) := entry in
  component_subcomponents <- component_subcomponents_of component_id subcomponents ;;
  let has_children := nonempty component_subcomponents in
  component_name <- subscript component "name" ;;
  component_description <- get_attr component "description" (JStr "") ;;
  root_id <- subscript root_data "id" ;;
  st <- emit {| node_id := JStr component_id;
                node_name := component_name;
                node_type_of := T_component;
                node_description := component_description;
                node_parent := Some root_id;
                node_level := 1;
                node_expandable := has_children;
                node_has_children := has_children |}
          {| link_source := root_id; link_target := JStr component_id;
             link_type_of := L_contains |} st ;;
  foreach (add_subcomponent component_id) component_subcomponents st.

(** *** The root node and the whole build *)

Definition root_node_of (root_id root_name root_description : json)
  (components : dict json) : node :=
  {| node_id := root_id;
     node_name := root_name;
     node_type_of := T_component_group;
     node_description := root_description;
     node_parent := None;
     node_level := 0;
     node_expandable := true;
     node_has_children := nonempty components |}.

(** [build_graph_data] once the three documents are loaded. *)
Definition build_graph (root_data : json) (components subcomponents : dict json)
  : result graph :=
  root_id <- subscript root_data "id" ;;
  root_name <- subscript root_data "name" ;;
  root_description <- subscript root_data "description" ;;
  let root_node := root_node_of root_id root_name root_description components in
  m <- node_map_set root_id root_node [] ;;
  let st := {| nodes := [root_node]; links := []; node_map := m |} in
  st <- foreach (add_component root_data subcomponents) components st ;;
  Ok {| graph_nodes := nodes st; graph_links := links st |}.

End Builder.

(** ** The resolver: [find_nested_node] and [get_node_details]
       (node_details_helper.py) *)

(** A loop whose body may [return] a value: the first value returned. *)
Fixpoint first_match {A} (body : A -> result (option json)) (l : list A)
  : result (option json) :=
  match l with
  | [] => Ok None
  | x :: l' =>
      r <- body x ;;
      match r with
      | Some v => Ok (Some v)
      | None => first_match body l'
      end
  end.

(** [x.get('id') == node_id] *)
Definition id_is (d : dict json) (node_id : string) : bool :=
  eq_str (get d "id" JNull) node_id.

(** [for io_item in io_list] *)
Definition find_in_io_list (node_id : string) (io_list : json)
  : result (option json) :=
  io_items <- iterate io_list ;;
  first_match
    (fun io_item =>
       match io_item with
       | JObj d => if id_is d node_id then Ok (Some io_item) else Ok None
       | _ => Ok None
       end) io_items.

(** Body of [for app in technique.get('applications', [])]. *)
Definition find_in_app (node_id : string) (app : json) : result (option json) :=
  match app with
  | JObj a =>
      if id_is a node_id then Ok (Some app)
      else first_match (find_in_io_list node_id)
             [get a "inputs" (JArr []); get a "outputs" (JArr [])]
  | _ => Ok None
  end.

Definition find_in_technique (node_id : string) (technique : json)
  : result (option json) :=
  match technique with
  | JObj t =>
      if id_is t node_id then Ok (Some technique)
      else
        apps <- iterate (get t "applications" (JArr [])) ;;
        first_match (find_in_app node_id) apps
  | _ => Ok None
  end.

Definition find_in_spec (node_id : string) (spec : json) : result (option json) :=
  match spec with
  | JObj s =>
      if id_is s node_id then Ok (Some spec)
      else
        let integration := get s "integration" JNull in
        match integration with
        | JObj i =>
            if truthy integration then
              if id_is i node_id then Ok (Some integration)
              else
                techniques <- iterate (get i "techniques" (JArr [])) ;;
                first_match (find_in_technique node_id) techniques
            else Ok None
        | _ => Ok None
        end
  | _ => Ok None
  end.

Definition find_in_function (node_id : string) (function : json)
  : result (option json) :=
  match function with
  | JObj f =>
      if id_is f node_id then Ok (Some function)
      else
        specs <- iterate (get f "specifications" (JArr [])) ;;
        first_match (find_in_spec node_id) specs
  | _ => Ok None
  end.

Definition find_in_capability (node_id : string) (capability : json)
  : result (option json) :=
  match capability with
  | JObj c =>
      if id_is c node_id then Ok (Some capability)
      else
        functions <- iterate (get c "functions" (JArr [])) ;;
        first_match (find_in_function node_id) functions
  | _ => Ok None
  end.

(** Body of [for subcomp_id, subcomp in subcomponents.items()]. *)
Definition find_in_subcomponent (node_id : string) (entry : string * json)
  : result (option json) :=
  match snd entry with
  | JObj sc =>
      if dict_mem "capabilities" sc then
        let capabilities := get sc "capabilities" (JArr []) in
        let capabilities :=
          match capabilities with
          | JObj c => get c "items" (JArr [])
          | _ => capabilities
          end in
        match capabilities with
        | JArr caps => first_match (find_in_capability node_id) caps
        | _ => Ok None
        end
      else Ok None
  | _ => Ok None
  end.

Definition find_nested_node (node_id : string) (subcomponents : dict json)
  : result (option json) :=
  first_match (find_in_subcomponent node_id) subcomponents.

(** [type(v)] as it prints in an f-string. *)
Definition type_repr (v : json) : string :=
  match v with
  | JNull => "<class 'NoneType'>"
  | JBool _ => "<class 'bool'>"
  | JNum _ => "<class 'int'>"
  | JStr _ => "<class 'str'>"
  | JArr _ => "<class 'list'>"
  | JObj _ => "<class 'dict'>"
  end.

(** The error bodies that [get_node_details] returns beside a status. *)
Definition error_body (error_msg node_id name description type : string) : json :=
  JObj [("error", JStr error_msg); ("id", JStr node_id); ("name", JStr name);
        ("description", JStr description); ("type", JStr type)].

Section Resolver.

(** The nested search is a parameter of the body, so that a path that
    returns before the search is one whose result does not depend on it. *)
Variable search : string -> dict json -> result (option json).

(** [get_node_details] once the three documents are loaded. *)
Definition node_details_with (root_data : json) (components subcomponents : dict json)
  (node_id : string) : result (json * nat) :=
  if negb (truthy root_data) then
    Ok (error_body "Could not load root data" node_id "Error Loading Node"
          "Could not load root data" "error", 500)
  else
    is_root <- (if String.eqb node_id "ai-alignment" then Ok true
                else root_id <- subscript root_data "id" ;;
                     Ok (eq_str root_id node_id)) ;;
    if is_root then Ok (root_data, 200)
    else
      match dict_get node_id components with
      | Some component => Ok (component, 200)
      | None =>
          match dict_get node_id subcomponents with
          | Some subcomp_data =>
              match subcomp_data with
              | JObj _ => Ok (subcomp_data, 200)
              | _ =>
                  Ok (error_body
                        ("Error processing subcomponent data: "
                           ++ "Invalid subcomponent data type: "
                           ++ type_repr subcomp_data)
                        node_id "Error Processing Node"
                        "Could not process subcomponent data" "error", 500)
              end
          | None =>
              nested_node <- search node_id subcomponents ;;
              match nested_node with
              | Some found =>
                  if truthy found then Ok (found, 200)
                  else Ok (error_body ("Node not found: " ++ node_id) node_id
                             "Unknown Node" "Node details not found" "unknown", 404)
              | None =>
                  Ok (error_body ("Node not found: " ++ node_id) node_id
                        "Unknown Node" "Node details not found" "unknown", 404)
              end
          end
      end.

End Resolver.

Definition node_details (root_data : json) (components subcomponents : dict json)
  (node_id : string) : result (json * nat) :=
  node_details_with find_nested_node root_data components subcomponents node_id.

(** ** The document store: [load_json_file] and the loaders *)

(** Decoded text: a Python [str] as its code points. *)
Definition text := list N.

(** [str.isspace] for one code point. *)
Definition is_space (c : N) : bool :=
  ((9 <=? c) && (c <=? 13) || (28 <=? c) && (c <=? 32)
   || (c =? 133) || (c =? 160) || (c =? 5760)
   || (8192 <=? c) && (c <=? 8202)
   || (c =? 8232) || (c =? 8233) || (c =? 8239) || (c =? 8287)
   || (c =? 12288))%N.

Fixpoint lstrip (t : text) : text :=
  match t with
  | c :: t' => if is_space c then lstrip t' else t
  | [] => []
  end.

(** [t.strip()] *)
Definition strip (t : text) : text := List.rev (lstrip (List.rev (lstrip t))).

(** [t.startswith(c)] for a one-character [c]. *)
Definition starts_with (c : N) (t : text) : bool :=
  match t with
  | c' :: _ => N.eqb c' c
  | [] => false
  end.

Definition BOM : N := 65279.         (* U+FEFF *)
Definition LBRACE : N := 123.         (* '{' *)
Definition LBRACKET : N := 91.        (* '[' *)

Inductive encoding : Type := utf_8_sig | utf_8 | latin1 | cp1252.

Definition encodings : list encoding := [utf_8_sig; utf_8; latin1; cp1252].

(** A regular file: what [open(path, encoding=enc).read()] gives, the text
    or the exception ([UnicodeDecodeError], or another one). *)
Definition file := encoding -> result text.

(** A path: [None] when [os.path.isfile] is false. *)
Definition path_entry := option file.

(** The id of a file, [os.path.basename(file_path)] with [.json] replaced
    by the empty string: on the base name, every occurrence of [.json] is
    removed, left to right. *)
Fixpoint remove_json (skip : nat) (s : string) : string :=
  match s with
  | EmptyString => EmptyString
  | String c s' =>
      match skip with
      | S k => remove_json k s'
      | O => if String.prefix ".json" s then remove_json 4 s'
             else String c (remove_json 0 s')
      end
  end.

Definition id_of_file (base_name : string) : string := remove_json 0 base_name.

(** [data[k] = x] for a string [k]. *)
Definition set_item (data : json) (k : string) (x : json) : result json :=
  match data with
  | JObj d => Ok (JObj (dict_set k x d))
  | _ => Raise TypeError
  end.

(** The built-in root document. *)
Definition DEFAULT_ROOT_DATA : json :=
  JObj [
    ("id", JStr "ai-alignment");
    ("name", JStr "AI Alignment");
    ("description",
      JStr "Methods to ensure AI systems remain aligned with human values and intentions.");
    ("type", JStr "component_group");
    ("components", JArr [
      JObj [("id", JStr "technical-safeguards");
            ("name", JStr "Technical Safeguards");
            ("description",
              JStr "Engineering approaches to ensure AI systems behave as intended")];
      JObj [("id", JStr "value-learning");
            ("name", JStr "Value Learning");
            ("description",
              JStr "Systems that enable AI to learn and internalize human values")];
      JObj [("id", JStr "interpretability-tools");
            ("name", JStr "Interpretability Tools");
            ("description",
              JStr "Methods to understand AI reasoning and decision-making")];
      JObj [("id", JStr "oversight-mechanisms");
            ("name", JStr "Oversight Mechanisms");
            ("description",
              JStr "Systems for monitoring and evaluating AI behavior")]])
  ].

(** The backing store: the root file and the two directories ([None] when
    [os.path.isdir] is false), each directory as the paths [glob] lists,
    by base name.  Each module resolves the three paths from its own file
    (app.py under the parent of its directory [visualizer], the helper under
    the parent of its own directory), so a store is what one module sees:
    a statement on both modules takes one store for each. *)
Record filesystem : Type := {
  ROOT_JSON_FILE : path_entry;
  COMPONENTS_DIR : option (list (string * path_entry));
  SUBCOMPONENTS_DIR : option (list (string * path_entry))
}.

Section Store.

(** [json.loads]: the parsed document, or [JSONDecodeError]. *)
Variable json_loads : text -> result json.

(** One round of [for encoding in encodings]: [Some data] is
    [return data], [None] is [continue]. *)
Definition try_encoding (f : file) (enc : encoding) : result (option json) :=
  try_except
    (raw <- f enc ;;
     let content := strip raw in
     if negb (nonempty content) then Ok None
     else
       let content : text :=
         if starts_with BOM content then List.tl content else content in
       let content := strip content in
       if negb (starts_with LBRACE content) && negb (starts_with LBRACKET content)
       then Ok None
       else
         try_except (data <- json_loads content ;; Ok (Some data))
           (fun je => match je with
                      | JSONDecodeError => Ok None
                      | _ => Raise je
                      end))
    (fun _ => Ok None).

Fixpoint try_encodings (f : file) (encs : list encoding) : result (option json) :=
  match encs with
  | [] => Ok None
  | enc :: rest =>
      r <- try_encoding f enc ;;
      match r with
      | Some data => Ok (Some data)
      | None => try_encodings f rest
      end
  end.

(** [load_json_file]: the document, or [None]. *)
Definition load_json_file (p : path_entry) : result (option json) :=
  try_except
    (match p with
     | None => Ok None
     | Some f => try_encodings f encodings
     end)
    (fun _ => Ok None).

(** [not data] for what [load_json_file] returned. *)
Definition loaded (data : option json) : bool :=
  match data with
  | Some d => truthy d
  | None => false
  end.

(** [get_root_data], the same in both modules. *)
Definition get_root_data (fs : filesystem) : result json :=
  root_data <- load_json_file (ROOT_JSON_FILE fs) ;;
  match root_data with
  | Some d => if truthy d then Ok d else Ok DEFAULT_ROOT_DATA
  | None => Ok DEFAULT_ROOT_DATA
  end.

(** Body of [for file_path in component_files]. *)
Definition load_component (components : dict json) (entry : string * path_entry)
  : result (dict json) :=
  component_data <- load_json_file (snd entry) ;;
  match component_data with
  | Some d =>
      if truthy d then Ok (dict_set (id_of_file (fst entry)) d components)
      else Ok components
  | None => Ok components
  end.

(** Body of [for file_path in subcomponent_files]: the file name becomes
    the ["id"] of a document that has none. *)
Definition load_subcomponent (subcomponents : dict json)
  (entry : string * path_entry) : result (dict json) :=
  data <- load_json_file (snd entry) ;;
  match data with
  | Some d =>
      if truthy d then
        let subcomponent_id := id_of_file (fst entry) in
        has_id <- py_in "id" d ;;
        d <- (if has_id then Ok d else set_item d "id" (JStr subcomponent_id)) ;;
        Ok (dict_set subcomponent_id d subcomponents)
      else Ok subcomponents
  | None => Ok subcomponents
  end.

End Store.

(** *** The loaders of node_details_helper.py *)

Module Helper.
Section Loaders.

Variable json_loads : text -> result json.

Definition get_components (fs : filesystem) : result (dict json) :=
  match COMPONENTS_DIR fs with
  | None => Ok []
  | Some component_files => foreach (load_component json_loads) component_files []
  end.

Definition get_subcomponents (fs : filesystem) : result (dict json) :=
  match SUBCOMPONENTS_DIR fs with
  | None => Ok []
  | Some subcomponent_files => foreach (load_subcomponent json_loads) subcomponent_files []
  end.

Definition get_node_details (fs : filesystem) (node_id : string)
  : result (json * nat) :=
  root_data <- get_root_data json_loads fs ;;
  components <- get_components fs ;;
  subcomponents <- get_subcomponents fs ;;
  node_details root_data components subcomponents node_id.

End Loaders.
End Helper.

(** *** The loaders of visualizer/app.py, and [build_graph_data] itself *)

Module App.
Section Loaders.

Variable json_loads : text -> result json.
Variable repr_container : json -> string.

(** [for component in DEFAULT_ROOT_DATA["components"]:
       components[component["id"]] = component]; the ids of the built-in
    components are strings. *)
Definition default_component (components : dict json) (component : json)
  : result (dict json) :=
  component_id <- subscript component "id" ;;
  match component_id with
  | JStr k => Ok (dict_set k component components)
  | _ => Raise TypeError
  end.

Definition get_components (fs : filesystem) : result (dict json) :=
  try_except
    (match COMPONENTS_DIR fs with
     | None =>
         defaults <- subscript DEFAULT_ROOT_DATA "components" ;;
         defaults <- iterate defaults ;;
         foreach default_component defaults []
     | Some component_files => foreach (load_component json_loads) component_files []
     end)
    (fun _ => Ok []).

Definition get_subcomponents (fs : filesystem) : result (dict json) :=
  try_except
    (match SUBCOMPONENTS_DIR fs with
     | None => Ok []
     | Some subcomponent_files => foreach (load_subcomponent json_loads) subcomponent_files []
     end)
    (fun _ => Ok []).

Definition build_graph_data (fs : filesystem) : result graph :=
  root_data <- get_root_data json_loads fs ;;
  components <- get_components fs ;;
  subcomponents <- get_subcomponents fs ;;
  build_graph repr_container root_data components subcomponents.

End Loaders.
End App.

(** ** [AIAlignmentVisualizer.hierarchy_path] (visualizer/app.py) *)

(** [a == b] on JSON values: scalars as dict keys compare, lists element
    by element, dicts key by key whatever the order. *)
Fixpoint py_eq (a b : json) : bool :=
  match a, b with
  | JArr xs, JArr ys =>
      (fix all_eq (xs ys : list json) : bool :=
         match xs, ys with
         | [], [] => true
         | x :: xs', y :: ys' => py_eq x y && all_eq xs' ys'
         | _, _ => false
         end) xs ys
  | JObj d, JObj e =>
      Nat.eqb (List.length d) (List.length e) &&
      (fix all_in (d : list (string * json)) : bool :=
         match d with
         | [] => true
         | (k, v) :: d' =>
             match dict_get k e with
             | Some w => py_eq v w
             | None => false
             end && all_in d'
         end) d
  | JArr _, _ | _, JArr _ | JObj _, _ | _, JObj _ => false
  | _, _ => key_eq a b
  end.

(** [for node in graph_data["nodes"]: if node["id"] == x: ...; break] *)
Definition find_node (x : json) (ns : list node) : option node :=
  find (fun n => py_eq (node_id n) x) ns.

(** An entry of the path: [{"id": ..., "name": ..., "type": ...}]. *)
Record path_item : Type := {
  item_id : json;
  item_name : json;
  item_type : node_type
}.

Definition item_of (n : node) : path_item :=
  {| item_id := node_id n; item_name := node_name n; item_type := node_type_of n |}.

(** [while "parent" in current_node]: the loop has no bound of its own, the
    fuel counts its rounds ([None] when it runs out). *)
Fixpoint walk_up (fuel : nat) (ns : list node) (current_node : node)
  (path : list path_item) : option (list path_item) :=
  match fuel with
  | O => None
  | S fuel' =>
      match node_parent current_node with
      | None => Some path
      | Some parent_id =>
          match find_node parent_id ns with
          | Some parent_node =>
              walk_up fuel' ns parent_node (item_of parent_node :: path)
          | None => Some path
          end
      end
  end.

(** What the route answers: [{"path": path}], or
    [{"error": "Node not found"}] with status 404. *)
Inductive path_response : Type :=
| Path (path : list path_item)
| Node_not_found.

(** [hierarchy_path] on the graph that [build_graph_data] returned. *)
Definition hierarchy_path_in (fuel : nat) (graph_data : graph) (node_id : string)
  : option path_response :=
  match find_node (JStr node_id) (graph_nodes graph_data) with
  | None => Some Node_not_found
  | Some target_node =>
      match walk_up fuel (graph_nodes graph_data) target_node [item_of target_node] with
      | Some path => Some (Path path)
      | None => None
      end
  end.

(** ** The routes of [AIAlignmentVisualizer] (visualizer/app.py) *)

(** One entry of [health_status["components"]] or ["subcomponents"]:
    [{"id": ..., "status": ..., "file": ...}], with ["error": str(e)] beside
    the status ["error"]. *)
Inductive file_status : Type :=
| status_loaded
| status_failed
| status_error (e : exn).

Record file_report : Type := {
  report_id : string;
  report_status : file_status;
  report_file : string
}.

(** The messages appended to [health_status["errors"]], by their format
    strings. *)
Inductive health_error : Type :=
| Root_failed                                   (* Failed to load root data from {ROOT_JSON_FILE} *)
| Components_dir_missing                        (* Components directory not found: {COMPONENTS_DIR} *)
| Component_failed (file_path : string)         (* Failed to load component: {file_path} *)
| Component_error (file_path : string) (e : exn)  (* Error loading component {file_path}: {str(e)} *)
| Subcomponents_dir_missing                     (* Subcomponents directory not found: {SUBCOMPONENTS_DIR} *)
| Subcomponent_failed (file_path : string)      (* Failed to load subcomponent: {file_path} *)
| Subcomponent_error (file_path : string) (e : exn). (* Error loading subcomponent {file_path}: {str(e)} *)

Record health_status : Type := {
  health_state : string;                        (* "status" *)
  health_root_data : bool;                      (* "root_data" *)
  health_components : list file_report;         (* "components" *)
  health_subcomponents : list file_report;      (* "subcomponents" *)
  health_errors : list health_error             (* "errors" *)
}.

(** What [health_check] answers: the status document and the HTTP status,
    or, from the outer handler, [{"status": "error", "error": str(e)}]
    with status 500. *)
Inductive health_response : Type :=
| Health (h : health_status) (status_code : nat)
| Health_exception (e : exn).

(** What [graph] answers: the node and link lists with status 200, or,
    from its handler, [{"error": str(e), "nodes": [], "links": []}] with
    status 500. *)
Record graph_answer : Type := {
  answer_error : option string;
  answer_nodes : list node;
  answer_links : list link;
  answer_status : nat
}.

Module Routes.
Section Routes.

Variable json_loads : text -> result json.
Variable repr_container : json -> string.
(** [str(e)] for an exception. *)
Variable str_exn : exn -> string.

(** [hierarchy_path]: an exception of [build_graph_data] is not caught
    here. *)
Definition hierarchy_path (fuel : nat) (fs : filesystem) (node_id : string)
  : result (option path_response) :=
  graph_data <- App.build_graph_data json_loads repr_container fs ;;
  Ok (hierarchy_path_in fuel graph_data node_id).

(** [node_details]: the body and the status. *)
Definition node_details (fs : filesystem) (node_id : string) : json * nat :=
  match Helper.get_node_details json_loads fs node_id with
  | Ok (result, status_code) => (result, status_code)
  | Raise e =>
      (error_body
         ("Error getting node details for " ++ node_id ++ ": " ++ str_exn e)
         node_id "Error Loading Node" "Could not load node details" "error",
       500)
  end.

(** [root_details] *)
Definition root_details (fs : filesystem) : json * nat :=
  match Helper.get_node_details json_loads fs "ai-alignment" with
  | Ok (node_data, status_code) => (node_data, status_code)
  | Raise e =>
      (JObj [("error", JStr "Server error processing root node");
             ("details", JStr (str_exn e))], 500)
  end.

(** Body of [for file_path in component_files] (and of the loop over the
    subcomponent files): the report of the file, and the error message of
    a file that did not load. *)
Definition check_file (failed : string -> health_error)
  (raised : string -> exn -> health_error)
  (acc : list file_report * list health_error) (entry : string * path_entry)
  : list file_report * list health_error :=
  let (reports, errors) := acc in
  let file_path := fst entry in
  let component_id := id_of_file file_path in
  match load_json_file json_loads (snd entry) with
  | Ok data =>
      if loaded data then
        (reports ++ [{| report_id := component_id;
                        report_status := status_loaded;
                        report_file := file_path |}], errors)
      else
        (reports ++ [{| report_id := component_id;
                        report_status := status_failed;
                        report_file := file_path |}],
         errors ++ [failed file_path])
  | Raise e =>
      (reports ++ [{| report_id := component_id;
                      report_status := status_error e;
                      report_file := file_path |}],
       errors ++ [raised file_path e])
  end.

(** [health_check] *)
Definition health_check (fs : filesystem) : health_response :=
  match get_root_data json_loads fs with
  | Raise e => Health_exception e
  | Ok root_data =>
      let root_ok := truthy root_data in
      let errors := if root_ok then [] else [Root_failed] in
      let (components, errors) :=
        match COMPONENTS_DIR fs with
        | Some component_files =>
            fold_left (check_file Component_failed Component_error)
              component_files ([], errors)
        | None => ([], errors ++ [Components_dir_missing])
        end in
      let (subcomponents, errors) :=
        match SUBCOMPONENTS_DIR fs with
        | Some subcomponent_files =>
            fold_left (check_file Subcomponent_failed Subcomponent_error)
              subcomponent_files ([], errors)
        | None => ([], errors ++ [Subcomponents_dir_missing])
        end in
      if nonempty errors then
        Health {| health_state := "error";
                  health_root_data := root_ok;
                  health_components := components;
                  health_subcomponents := subcomponents;
                  health_errors := errors |} 500
      else
        Health {| health_state := "ok";
                  health_root_data := root_ok;
                  health_components := components;
                  health_subcomponents := subcomponents;
                  health_errors := errors |} 200
  end.

(** [graph] *)
Definition graph (fs : filesystem) : graph_answer :=
  match App.build_graph_data json_loads repr_container fs with
  | Ok graph_data =>
      {| answer_error := None;
         answer_nodes := graph_nodes graph_data;
         answer_links := graph_links graph_data;
         answer_status := 200 |}
  | Raise e =>
      {| answer_error := Some (str_exn e);
         answer_nodes := [];
         answer_links := [];
         answer_status := 500 |}
  end.

End Routes.
End Routes.

(** * Specification vocabulary *)

(** ** Runs of emissions *)

(** What every [nodes.append] of the builder after the root's satisfies. *)
Record emission (st : state) (n : node) (l : link) (st' : state) : Prop := {
  em_nodes : nodes st' = nodes st ++ [n];
  em_links : links st' = links st ++ [l];
  em_map : node_map st' = map_put (node_id n) n (node_map st);
  em_hashable : hashable (node_id n) = true;
  em_parent : exists p, node_parent n = Some p /\ link_source l = p
                        /\ In p (map node_id (nodes st));
  em_target : link_target l = node_id n;
  em_flags : node_has_children n = node_expandable n;
  em_link : link_type_of l = L_has_output <-> node_type_of n = T_output;
  em_output : node_type_of n = T_output ->
              map_has (node_id n) (node_map st) = false
}.

Inductive run : state -> state -> Prop :=
| run_done (st : state) : run st st
| run_emit (st st1 st2 : state) (n : node) (l : link) :
    emission st n l st1 -> run st1 st2 -> run st st2.

(** [p] is the id of a node already in the list. *)
Definition has_node (p : json) (st : state) : Prop :=
  In p (map node_id (nodes st)).

(** The state after the root node was appended. *)
Definition root_state (root_node : node) : state :=
  {| nodes := [root_node]; links := [];
     node_map := map_put (node_id root_node) root_node [] |}.

(** ** Invariants of the node list and of the link list *)

(** Every node but the first names as its parent the id of an earlier node. *)
Definition parents_resolve (ns : list node) : Prop :=
  forall i n, nth_error ns i = Some n -> 0 < i ->
    exists p j m, node_parent n = Some p /\ j < i /\
                  nth_error ns j = Some m /\ node_id m = p.

(** Every node id is a key of [node_map]. *)
Definition indexed (st : state) : Prop :=
  forall n, In n (nodes st) -> map_has (node_id n) (node_map st) = true.

(** Two ids differ, also as Python compares dict keys. *)
Definition distinct_ids (a b : json) : Prop :=
  key_eq a b = false /\ a <> b.

(** An output node never repeats the id of a node before it. *)
Definition outputs_fresh (ns : list node) : Prop :=
  forall i j ni nj, i < j -> nth_error ns i = Some ni -> nth_error ns j = Some nj ->
    node_type_of nj = T_output -> distinct_ids (node_id ni) (node_id nj).

(** The links follow the nodes after the first one by one: link [k] points
    at node [k + 1] from its parent, and is a [has_output] link exactly when
    that node is an output. *)
Definition link_matches (l : link) (n : node) : Prop :=
  link_target l = node_id n /\ node_parent n = Some (link_source l) /\
  (link_type_of l = L_has_output <-> node_type_of n = T_output).

(** No [has_output] link repeats the target of a link before it. *)
Definition output_links_fresh (ls : list link) : Prop :=
  forall a b la lb, a < b -> nth_error ls a = Some la -> nth_error ls b = Some lb ->
    link_type_of lb = L_has_output ->
    distinct_ids (link_target la) (link_target lb).

(** ** Deduplication of outputs, as specified *)

(** The ["id"] of an output entry as the deduplication reads it. *)
Definition output_key (out : json) : json :=
  match out with
  | JObj o => get o "id" JNull
  | _ => JNull
  end.

Definition is_object (v : json) : bool :=
  match v with
  | JObj _ => true
  | _ => false
  end.

(** Deduplication by id as the specification words it: an entry (an object)
    is kept when it has no id, or when no entry before it carries the same
    id, so that the first occurrence of each id stays. *)
Fixpoint first_occurrences (earlier outs : list json) : list json :=
  match outs with
  | [] => []
  | out :: rest =>
      let repeated :=
        existsb (fun e => key_eq (output_key out) (output_key e)) earlier in
      let keep :=
        is_object out && (negb (truthy (output_key out)) || negb repeated) in
      (if keep then [out] else []) ++ first_occurrences (earlier ++ [out]) rest
  end.

Definition dedup_by_id (outs : list json) : list json :=
  first_occurrences [] outs.

(** The local set [output_ids] holds the truthy ids met so far. *)
Definition ids_seen (earlier ids : list json) : Prop :=
  forall k, truthy k = true ->
    set_has k ids = existsb (fun e => key_eq k (output_key e)) earlier.

(** An output node comes from the entry of that index. *)
Definition output_from (repr_container : json -> string) (app_id : json)
  (entries : list (nat * json)) (n : node) : Prop :=
  exists output_idx o,
    In (output_idx, JObj o) entries /\
    n = output_node_of repr_container app_id output_idx o.

(** ** Well-formed documents *)

(** An ["id"], when there is one, can be a dict key. *)
Definition id_ok (d : dict json) : bool :=
  match dict_get "id" d with
  | Some v => hashable v
  | None => true
  end.

Definition is_iterable (v : json) : bool :=
  match iterate v with
  | Ok _ => true
  | Raise _ => false
  end.

Definition items_of (v : json) : list json :=
  match iterate v with
  | Ok l => l
  | Raise _ => []
  end.

Definition input_ok (v : json) : bool :=
  match v with
  | JObj i => id_ok i
  | _ => true
  end.

(** A non-empty id of an output can be a dict key. *)
Definition output_ok (v : json) : bool :=
  match v with
  | JObj o => negb (truthy (get o "id" JNull)) || hashable (get o "id" JNull)
  | _ => true
  end.

Definition application_ok (v : json) : bool :=
  match v with
  | JObj a =>
      id_ok a
      && is_iterable (get a "inputs" (JArr []))
      && forallb input_ok (items_of (get a "inputs" (JArr [])))
      && match get a "outputs" (JArr []) with
         | JArr standalone =>
             forallb output_ok
               (standalone
                  ++ nested_outputs_of (items_of (get a "inputs" (JArr []))))
         | _ => false
         end
  | _ => true
  end.

Definition technique_ok (v : json) : bool :=
  match v with
  | JObj t =>
      id_ok t
      && is_iterable (get t "applications" (JArr []))
      && forallb application_ok (items_of (get t "applications" (JArr [])))
  | _ => true
  end.

Definition integration_ok (v : json) : bool :=
  match v with
  | JObj i =>
      negb (truthy v)
      || (id_ok i
          && is_iterable (get i "techniques" (JArr []))
          && forallb technique_ok (items_of (get i "techniques" (JArr []))))
  | _ => true
  end.

Definition specification_ok (v : json) : bool :=
  match v with
  | JObj s => id_ok s && integration_ok (get s "integration" JNull)
  | _ => true
  end.

Definition function_ok (v : json) : bool :=
  match v with
  | JObj f =>
      id_ok f
      && is_iterable (get f "specifications" (JArr []))
      && forallb specification_ok (items_of (get f "specifications" (JArr [])))
  | _ => true
  end.

Definition capability_ok (v : json) : bool :=
  match v with
  | JObj c =>
      id_ok c
      && is_iterable (get c "functions" (JArr []))
      && forallb function_ok (items_of (get c "functions" (JArr [])))
  | _ => true
  end.

(** A subcomponent document is an object whose capabilities can be walked. *)
Definition subcomponent_ok (v : json) : bool :=
  match v with
  | JObj _ =>
      match capabilities_of v with
      | Ok capabilities =>
          is_iterable capabilities && forallb capability_ok (items_of capabilities)
      | Raise _ => false
      end
  | _ => false
  end.

(** A component document is an object with a ["name"]. *)
Definition component_ok (v : json) : bool :=
  match v with
  | JObj c => dict_mem "name" c
  | _ => false
  end.

(** A root document is an object with ["id"], ["name"] and ["description"],
    its id a possible dict key. *)
Definition root_ok (v : json) : bool :=
  match v with
  | JObj r =>
      dict_mem "id" r && id_ok r && dict_mem "name" r && dict_mem "description" r
  | _ => false
  end.

(** The documents on which the build completes. *)
Definition documents_ok (root_data : json) (components subcomponents : dict json)
  : bool :=
  root_ok root_data
  && forallb (fun entry => component_ok (snd entry)) components
  && forallb (fun entry => subcomponent_ok (snd entry)) subcomponents.

(** ** Failure of a load *)

(** The text handed to [json.loads]. *)
Definition cleaned (raw : text) : text :=
  let content := strip raw in
  strip (if starts_with BOM content then List.tl content else content).

(** One encoding yields no document: the file cannot be read or decoded
    with it, or its content is empty, or does not start as JSON, or is
    rejected by [json.loads]. *)
Inductive encoding_fails (json_loads : text -> result json) (f : file)
  (enc : encoding) : Prop :=
| unreadable (e : exn) :
    f enc = Raise e -> encoding_fails json_loads f enc
| empty_content (raw : text) :
    f enc = Ok raw -> strip raw = [] -> encoding_fails json_loads f enc
| not_json (raw : text) :
    f enc = Ok raw ->
    starts_with LBRACE (cleaned raw) = false ->
    starts_with LBRACKET (cleaned raw) = false ->
    encoding_fails json_loads f enc
| invalid_json (raw : text) (e : exn) :
    f enc = Ok raw -> json_loads (cleaned raw) = Raise e ->
    encoding_fails json_loads f enc.

(** The root document fails to load: the file is missing, or no encoding
    yields a document. *)
Inductive load_fails (json_loads : text -> result json) : path_entry -> Prop :=
| missing_file : load_fails json_loads None
| no_encoding_yields (f : file) :
    (forall enc, In enc encodings -> encoding_fails json_loads f enc) ->
    load_fails json_loads (Some f).

(** ** Example documents *)

(** A [repr] for lists and dicts; the examples never format one. *)
Definition repr_unused (_ : json) : string := "".

Definition out (i : string) : json := JObj [("id", JStr i)].

(** An application with outputs [[{id: o1}]] and one input whose nested
    outputs are [[{id: o1}, {id: o2}]]. *)
Definition example_app : json :=
  JObj [("id", JStr "app-1");
        ("outputs", JArr [out "o1"]);
        ("inputs", JArr [JObj [("id", JStr "in-1");
                               ("outputs", JArr [out "o1"; out "o2"])]])].

(** A later, unrelated application that declares [o1] again, and an output
    without id. *)
Definition example_app_later : json :=
  JObj [("id", JStr "app-2");
        ("outputs", JArr [out "o1"; JObj [("name", JStr "anonymous")]])].

Definition example_subcomponent : json :=
  JObj [("parent", JStr "comp");
        ("capabilities", JArr [
           JObj [("id", JStr "cap");
                 ("functions", JArr [
                    JObj [("id", JStr "fun");
                          ("specifications", JArr [
                             JObj [("id", JStr "spec");
                                   ("integration",
                                     JObj [("id", JStr "integ");
                                           ("techniques", JArr [
                                              JObj [("id", JStr "tech");
                                                    ("applications",
                                                      JArr [example_app;
                                                            example_app_later])]])])]])]])]])].

Definition example_components : dict json :=
  [("comp", JObj [("name", JStr "Component")])].

Definition example_subcomponents : dict json :=
  [("sub", example_subcomponent)].

Definition no_graph : graph := {| graph_nodes := []; graph_links := [] |}.

Definition graph_of (r : result graph) : graph :=
  match r with
  | Ok g => g
  | Raise _ => no_graph
  end.

Definition example_graph : graph :=
  Eval vm_compute in
    graph_of (build_graph repr_unused DEFAULT_ROOT_DATA example_components
                example_subcomponents).

(** The graph of the default root alone: no component, no subcomponent. *)
Definition root_only_graph : graph :=
  Eval vm_compute in graph_of (build_graph repr_unused DEFAULT_ROOT_DATA [] []).

Definition empty_state : state := {| nodes := []; links := []; node_map := [] |}.

Definition state_of (r : result state) : state :=
  match r with
  | Ok st => st
  | Raise _ => empty_state
  end.

Definition example_app_fields : dict json :=
  match example_app with
  | JObj a => a
  | _ => []
  end.

(** The state after [example_app] alone was added under a technique ["tech"]. *)
Definition example_app_state : state :=
  Eval vm_compute in
    state_of (add_application repr_unused (JStr "tech") empty_state example_app).

Definition clash_components : dict json :=
  [("shared", JObj [("name", JStr "A component")])].

Definition clash_subcomponents : dict json :=
  [("shared", JObj [("name", JStr "A subcomponent"); ("id", JStr "shared")])].

(** A subcomponent ["sub"] whose capability carries the id ["sub"] too. *)
Definition shadowing_subcomponents : dict json :=
  [("sub", JObj [("id", JStr "sub");
                 ("capabilities", JArr [JObj [("id", JStr "other")]])]);
   ("zzz", JObj [("id", JStr "zzz");
                 ("capabilities", JArr [JObj [("id", JStr "sub");
                                              ("name", JStr "deeper")]])])].

(** A store with no root file and no directories. *)
Definition empty_store : filesystem :=
  {| ROOT_JSON_FILE := None; COMPONENTS_DIR := None; SUBCOMPONENTS_DIR := None |}.

(** A parser that rejects everything. *)
Definition json_loads_nothing (_ : text) : result json := Raise JSONDecodeError.

(** A root file of blanks only, in every encoding. *)
Definition blank_root_store : filesystem :=
  {| ROOT_JSON_FILE := Some (fun _ => Ok [32; 10]%N);
     COMPONENTS_DIR := None; SUBCOMPONENTS_DIR := None |}.

(** Two subcomponent files: [{"a":1}] and [[1]]. *)
Definition text_object : text := [123; 34; 97; 34; 58; 49; 125]%N.
Definition text_array : text := [91; 49; 93]%N.

Definition two_files_store : filesystem :=
  {| ROOT_JSON_FILE := None;
     COMPONENTS_DIR := None;
     SUBCOMPONENTS_DIR :=
       Some [("good.json", Some (fun _ => Ok text_object));
             ("list.json", Some (fun _ => Ok text_array))] |}.

Definition good_file_store : filesystem :=
  {| ROOT_JSON_FILE := None;
     COMPONENTS_DIR := None;
     SUBCOMPONENTS_DIR := Some [("good.json", Some (fun _ => Ok text_object))] |}.

Fixpoint text_eqb (a b : text) : bool :=
  match a, b with
  | [], [] => true
  | x :: a', y :: b' => N.eqb x y && text_eqb a' b'
  | _, _ => false
  end.

(** A parser that knows the two files. *)
Definition json_loads_two (t : text) : result json :=
  if text_eqb t text_object then Ok (JObj [("a", JNum 1)])
  else if text_eqb t text_array then Ok (JArr [JNum 1])
  else Raise JSONDecodeError.

(** A components mapping whose only document has no ["name"]. *)
Definition nameless_components : dict json :=
  [("c1", JObj [("description", JStr "no name")])].

(** ** The claims that do not hold as stated *)

(** C4 as the specification states it: the root is expandable exactly when
    there are components. *)
Definition root_expandable_iff_components (repr_container : json -> string)
  (root_data : json) (components subcomponents : dict json) : Prop :=
  forall g root_node,
    build_graph repr_container root_data components subcomponents = Ok g ->
    hd_error (graph_nodes g) = Some root_node ->
    (node_expandable root_node = true <-> components <> []).

(** C5 as the specification states it: the two flags agree on every node. *)
Definition flags_agree_on_all_nodes (repr_container : json -> string)
  (root_data : json) (components subcomponents : dict json) : Prop :=
  forall g n,
    build_graph repr_container root_data components subcomponents = Ok g ->
    In n (graph_nodes g) ->
    node_has_children n = node_expandable n.

(** C6 as the specification states it: the build returns a node and edge
    list on every input. *)
Definition build_never_aborts (repr_container : json -> string)
  (root_data : json) (components subcomponents : dict json) : Prop :=
  exists g, build_graph repr_container root_data components subcomponents = Ok g.

(** C7 as the specification states it: a key of the subcomponents mapping
    resolves to that subcomponent document. *)
Definition subcomponent_key_resolves_to_it (root_data : json)
  (components subcomponents : dict json) (node_id : string) : Prop :=
  forall subcomp,
    dict_get node_id subcomponents = Some subcomp ->
    node_details root_data components subcomponents node_id = Ok (subcomp, 200).

(** ** The shape of a built graph *)

(** The level that [build_graph_data] gives to the nodes of a type. *)
Definition depth_of (t : node_type) : nat :=
  match t with
  | T_component_group => 0
  | T_component => 1
  | T_subcomponent => 2
  | T_capability => 3
  | T_function => 4
  | T_specification => 5
  | T_integration => 6
  | T_technique => 7
  | T_application => 8
  | T_input => 9
  | T_output => 9
  end.

(** The type of the link that is appended with a node of a type. *)
Definition link_type_for (t : node_type) : link_type :=
  match t with
  | T_component_group => L_contains
  | T_component => L_contains
  | T_subcomponent => L_contains
  | T_capability => L_has_capability
  | T_function => L_has_function
  | T_specification => L_has_specification
  | T_integration => L_has_integration
  | T_technique => L_has_technique
  | T_application => L_has_application
  | T_input => L_has_input
  | T_output => L_has_output
  end.

(** What is local to one node and the link appended with it. *)
Record node_facts (n : node) (l : link) : Prop := {
  nf_level : node_level n = depth_of (node_type_of n);
  nf_type : node_type_of n <> T_component_group;
  nf_link : link_type_of l = link_type_for (node_type_of n);
  nf_target : link_target l = node_id n;
  nf_parent : node_parent n = Some (link_source l);
  nf_leaf : node_level n = 9 ->
            node_expandable n = false /\ node_has_children n = false;
  nf_hashable : hashable (node_id n) = true
}.

(** A node of that id and level is in the list already. *)
Definition parent_at (p : json) (lvl : nat) (st : state) : Prop :=
  exists m, In m (nodes st) /\ node_id m = p /\ node_level m = lvl.

(** The state after [nodes.append(n); node_map[n["id"]] = n; links.append(l)]. *)
Definition push (n : node) (l : link) (st : state) : state :=
  {| nodes := nodes st ++ [n]; links := links st ++ [l];
     node_map := map_put (node_id n) n (node_map st) |}.

(** A sequence of appends, each of a node of level [k] at least whose
    parent, one level up, is in the list already. *)
Inductive emits (k : nat) : state -> state -> Prop :=
| emits_done (st : state) : emits k st st
| emits_step (st st' : state) (n : node) (l : link) :
    node_facts n l ->
    k <= node_level n ->
    (exists lvl, parent_at (link_source l) lvl st /\ node_level n = S lvl) ->
    emits k (push n l st) st' ->
    emits k st st'.

(** Every node but the first has, before it, a node with the id it names as
    its parent and the level just above its own. *)
Definition parents_one_level_up (ns : list node) : Prop :=
  forall i n, nth_error ns i = Some n -> 0 < i ->
    exists j m, j < i /\ nth_error ns j = Some m /\
                node_parent n = Some (node_id m) /\
                node_level n = S (node_level m).

(** There is one link per node after the first: link [k] goes from the
    parent of node [k + 1] to that node, with the type of link of its type. *)
Definition links_mirror_nodes (ns : list node) (ls : list link) : Prop :=
  List.length ns = S (List.length ls) /\
  forall k l n, nth_error ls k = Some l -> nth_error ns (S k) = Some n ->
    node_parent n = Some (link_source l) /\
    link_target l = node_id n /\
    link_type_of l = link_type_for (node_type_of n).

Definition type_eqb (a b : node_type) : bool :=
  Nat.eqb (depth_of a) (depth_of b) &&
  match a, b with
  | T_input, T_output | T_output, T_input => false
  | _, _ => true
  end.

(** The nodes of a type, in the order of the list, and their ids. *)
Definition nodes_of_type (t : node_type) (ns : list node) : list node :=
  filter (fun n => type_eqb (node_type_of n) t) ns.

Definition ids_of_type (t : node_type) (ns : list node) : list json :=
  map node_id (nodes_of_type t ns).

(** What a component node shows: its id, its parent and whether it can be
    expanded; and what a subcomponent node shows of its place. *)
Definition summary (n : node) : json * option json * bool :=
  (node_id n, node_parent n, node_expandable n).

Definition id_and_parent (n : node) : json * option json :=
  (node_id n, node_parent n).

(** The keys of a dict, in order. *)
Definition keys {V} (d : dict V) : list string := map fst d.

(** The keys of the subcomponents attached to a component ([[]] when the
    selection raises). *)
Definition attached_keys (component_id : string) (subcomponents : dict json)
  : list string :=
  match component_subcomponents_of component_id subcomponents with
  | Ok attached => keys attached
  | Raise _ => []
  end.

(** The subcomponent document names that component as its parent. *)
Definition names_parent (v : json) (component_id : string) : Prop :=
  exists p, subscript v "parent" = Ok p /\ eq_str p component_id = true.

(** What the components and the subcomponents show, by the documents. *)
Definition component_summary (root_id : json) (subcomponents : dict json)
  (entry : string * json) : json * option json * bool :=
  (JStr (fst entry), Some root_id,
   nonempty (attached_keys (fst entry) subcomponents)).

Definition subcomponent_places (subcomponents : dict json)
  (entry : string * json) : list (json * option json) :=
  map (fun k => (JStr k, Some (JStr (fst entry))))
    (attached_keys (fst entry) subcomponents).

(** Every link joins two nodes of the list, the source before the target. *)
Definition links_join_nodes (ns : list node) (ls : list link) : Prop :=
  forall l, In l ls ->
    exists i j m n, i < j /\ nth_error ns i = Some m /\ nth_error ns j = Some n /\
                    link_source l = node_id m /\ link_target l = node_id n.

(** ** Paths through the hierarchy *)

(** A list of nodes in which each node is the parent of the next: the next
    node's [parent] equals its id. *)
Inductive chain : list node -> Prop :=
| chain_one (n : node) : chain [n]
| chain_cons (m n : node) (rest : list node) (p : json) :
    node_parent n = Some p -> py_eq (node_id m) p = true ->
    chain (n :: rest) -> chain (m :: n :: rest).

(** No node has that id. *)
Definition no_node_with (wanted : string) (ns : list node) : Prop :=
  forall n, In n ns -> py_eq (node_id n) (JStr wanted) = false.

(** ** What the resolver finds *)

(** An object whose [id] is the requested one. *)
Definition has_id (wanted : string) (v : json) : Prop :=
  exists d, v = JObj d /\ id_is d wanted = true.

(** [f] is [v] or occurs inside it, as the value of a key or as the element
    of a list, at any depth. *)
Inductive part_of (f : json) : json -> Prop :=
| part_here : part_of f f
| part_item (l : list json) (x : json) :
    In x l -> part_of f x -> part_of f (JArr l)
| part_field (d : dict json) (k : string) (x : json) :
    dict_get k d = Some x -> part_of f x -> part_of f (JObj d).

(** The two error bodies of [get_node_details] and the one of its caller. *)
Definition not_found_body (wanted : string) : json :=
  error_body ("Node not found: " ++ wanted) wanted "Unknown Node"
    "Node details not found" "unknown".

Definition root_not_loaded_body (wanted : string) : json :=
  error_body "Could not load root data" wanted "Error Loading Node"
    "Could not load root data" "error".

(** What a level of the search returns: an object with the requested id,
    inside the document searched. *)
Definition found_in (wanted : string) (f v : json) : Prop :=
  has_id wanted f /\ part_of f v.

(** ** What the loaders keep *)

(** The document a listed file contributes: the one [load_json_file]
    returns, if it is not empty. *)
Definition file_document (json_loads : text -> result json)
  (entry : string * path_entry) : option json :=
  match load_json_file json_loads (snd entry) with
  | Ok (Some d) => if truthy d then Some d else None
  | _ => None
  end.

(** The document of the last listed file with that id that contributes
    one. *)
Definition last_document (json_loads : text -> result json) (k : string)
  (files : list (string * path_entry)) : option json :=
  fold_left
    (fun acc entry =>
       if String.eqb k (id_of_file (fst entry)) then
         match file_document json_loads entry with
         | Some d => Some d
         | None => acc
         end
       else acc)
    files None.

(** The built-in components, keyed by their ids. *)
Definition default_components : dict json :=
  [("technical-safeguards",
    JObj [("id", JStr "technical-safeguards");
          ("name", JStr "Technical Safeguards");
          ("description",
            JStr "Engineering approaches to ensure AI systems behave as intended")]);
   ("value-learning",
    JObj [("id", JStr "value-learning");
          ("name", JStr "Value Learning");
          ("description",
            JStr "Systems that enable AI to learn and internalize human values")]);
   ("interpretability-tools",
    JObj [("id", JStr "interpretability-tools");
          ("name", JStr "Interpretability Tools");
          ("description",
            JStr "Methods to understand AI reasoning and decision-making")]);
   ("oversight-mechanisms",
    JObj [("id", JStr "oversight-mechanisms");
          ("name", JStr "Oversight Mechanisms");
          ("description",
            JStr "Systems for monitoring and evaluating AI behavior")])].

(** Every listed file loads a non-empty document. *)
Definition all_load (json_loads : text -> result json)
  (files : list (string * path_entry)) : Prop :=
  forall entry, In entry files -> file_document json_loads entry <> None.

(** A subcomponent file [["id"]], and a parser that knows it. *)
Definition text_id_array : text := [91; 34; 105; 100; 34; 93]%N.

Definition id_array_store : filesystem :=
  {| ROOT_JSON_FILE := None;
     COMPONENTS_DIR := None;
     SUBCOMPONENTS_DIR := Some [("list.json", Some (fun _ => Ok text_id_array))] |}.

Definition json_loads_id_array (t : text) : result json :=
  if text_eqb t text_id_array then Ok (JArr [JStr "id"])
  else Raise JSONDecodeError.

(** Two component files of the same id ["c"]: [{"a":1}], then [[1]]. *)
Definition same_id_store : filesystem :=
  {| ROOT_JSON_FILE := None;
     COMPONENTS_DIR :=
       Some [("c.json", Some (fun _ => Ok text_object));
             ("c.json.json", Some (fun _ => Ok text_array))];
     SUBCOMPONENTS_DIR := None |}.

(** One encoding yields a document: the file decodes with it to a text
    that is not blank, starts as JSON once cleaned, and parses. *)
Definition encoding_yields (json_loads : text -> result json) (f : file)
  (enc : encoding) (d : json) : Prop :=
  exists raw,
    f enc = Ok raw /\ strip raw <> [] /\
    starts_with LBRACE (cleaned raw) || starts_with LBRACKET (cleaned raw) = true /\
    json_loads (cleaned raw) = Ok d.

(** The first encoding of the list that yields a document yields [d]. *)
Definition first_yield (json_loads : text -> result json) (f : file)
  (encs : list encoding) (d : json) : Prop :=
  exists earlier enc later,
    encs = earlier ++ enc :: later /\
    (forall e, In e earlier -> encoding_fails json_loads f e) /\
    encoding_yields json_loads f enc d.

(** A file that is [{"a":1}] in every encoding but the first, where it
    cannot be decoded. *)
Definition second_encoding_file : file :=
  fun enc => match enc with
             | utf_8_sig => Raise UnicodeDecodeError
             | _ => Ok text_object
             end.

(** A store with one component, [{"name":"C"}] in [comp.json], and one
    subcomponent of it, [{"name":"S","parent":"comp"}] in [sub.json]; and
    a parser that knows the two texts. *)
Definition text_component : text :=
  [123; 34; 110; 97; 109; 101; 34; 58; 34; 67; 34; 125]%N.

Definition text_subcomponent : text :=
  [123; 34; 110; 97; 109; 101; 34; 58; 34; 83; 34; 44;
   34; 112; 97; 114; 101; 110; 116; 34; 58; 34; 99; 111; 109; 112; 34; 125]%N.

Definition small_store : filesystem :=
  {| ROOT_JSON_FILE := None;
     COMPONENTS_DIR := Some [("comp.json", Some (fun _ => Ok text_component))];
     SUBCOMPONENTS_DIR := Some [("sub.json", Some (fun _ => Ok text_subcomponent))] |}.

Definition json_loads_small (t : text) : result json :=
  if text_eqb t text_component then Ok (JObj [("name", JStr "C")])
  else if text_eqb t text_subcomponent
       then Ok (JObj [("name", JStr "S"); ("parent", JStr "comp")])
       else Raise JSONDecodeError.

Definition small_graph : graph :=
  Eval vm_compute in
    graph_of (App.build_graph_data json_loads_small repr_unused small_store).

(** The graph of the store that has nothing. *)
Definition default_graph : graph :=
  Eval vm_compute in
    graph_of (App.build_graph_data json_loads_nothing repr_unused empty_store).

(** No character of [p] is [c]. *)
Fixpoint avoids (c : ascii) (p : string) : bool :=
  match p with
  | EmptyString => true
  | String a p' => negb (Ascii.eqb a c) && avoids c p'
  end.

(** ** What the health check reports *)

(** The report of a file that raised nothing. *)
Definition report_of (json_loads : text -> result json)
  (entry : string * path_entry) : file_report :=
  {| report_id := id_of_file (fst entry);
     report_status := match file_document json_loads entry with
                      | Some _ => status_loaded
                      | None => status_failed
                      end;
     report_file := fst entry |}.

(** The messages of the files that did not load. *)
Definition file_errors (json_loads : text -> result json)
  (failed : string -> health_error) (files : list (string * path_entry))
  : list health_error :=
  flat_map (fun entry => match file_document json_loads entry with
                         | Some _ => []
                         | None => [failed (fst entry)]
                         end) files.

(** The body that [root_details] answers with when something raised. *)
Definition root_error_body (details : string) : json :=
  JObj [("error", JStr "Server error processing root node");
        ("details", JStr details)].

(** The reports of a directory and the messages it adds. *)
Definition directory_check (json_loads : text -> result json)
  (d : option (list (string * path_entry)))
  (missing : health_error) (failed : string -> health_error)
  : list file_report * list health_error :=
  match d with
  | Some files => (map (report_of json_loads) files,
                   file_errors json_loads failed files)
  | None => ([], [missing])
  end.

(** ** The claims and their amendments, continued *)

(** C2's example as the specification states it: an application with
    outputs [[{id: o1}]] and one input whose nested outputs are
    [[{id: o1}, {id: o2}]] adds exactly the two output nodes [o1] and [o2],
    wherever it is built. *)
Definition two_outputs_always (repr_container : json -> string) : Prop :=
  forall technique_id a i oa ob oc st st',
    get a "outputs" (JArr []) = JArr [JObj oa] ->
    get a "inputs" (JArr []) = JArr [JObj i] ->
    dict_get "outputs" i = Some (JArr [JObj ob; JObj oc]) ->
    dict_get "id" oa = Some (JStr "o1") ->
    dict_get "id" ob = Some (JStr "o1") ->
    dict_get "id" oc = Some (JStr "o2") ->
    add_application repr_container technique_id st (JObj a) = Ok st' ->
    ids_of_type T_output (skipn (List.length (nodes st)) (nodes st'))
      = [JStr "o1"; JStr "o2"].

(** The application of the example, with [o1] as its own id. *)
Definition example_app_o1_fields : dict json :=
  [("id", JStr "o1");
   ("outputs", JArr [out "o1"]);
   ("inputs", JArr [JObj [("id", JStr "in-1");
                          ("outputs", JArr [out "o1"; out "o2"])]])].

Definition example_app_o1_state : state :=
  Eval vm_compute in
    state_of (add_application repr_unused (JStr "tech") empty_state
                (JObj example_app_o1_fields)).

(** The body [get_node_details] answers with, beside status 500, for a
    subcomponent key whose document is not an object. *)
Definition subcomponent_error_body (wanted : string) (subcomp_data : json) : json :=
  error_body
    ("Error processing subcomponent data: "
       ++ "Invalid subcomponent data type: " ++ type_repr subcomp_data)
    wanted "Error Processing Node" "Could not process subcomponent data" "error".

(** A root document without ["id"]. *)
Definition root_without_id : json := JObj [("name", JStr "No id")].

(** The store of the helper when its directories list what those of
    app.py list in [small_store], beside a root file of its own. *)
Definition small_store_of_helper : filesystem :=
  {| ROOT_JSON_FILE := Some (fun _ => Ok [32; 10]%N);
     COMPONENTS_DIR := COMPONENTS_DIR small_store;
     SUBCOMPONENTS_DIR := SUBCOMPONENTS_DIR small_store |}.

(** What [graph] answers for the result of the build. *)
Definition graph_answer_of (str_exn : exn -> string) (r : result graph)
  : graph_answer :=
  match r with
  | Ok g =>
      {| answer_error := None;
         answer_nodes := graph_nodes g;
         answer_links := graph_links g;
         answer_status := 200 |}
  | Raise e =>
      {| answer_error := Some (str_exn e);
         answer_nodes := [];
         answer_links := [];
         answer_status := 500 |}
  end.

(** * Properties *)

(** ** Basic facts on keys, the error monad and loops *)

Lemma key_eq_refl (k : json) : hashable k = true -> key_eq k k = true.
Proof.
  destruct k as [ | b | z | s | l | d ]; simpl; intros H; try discriminate.
  - reflexivity.
  - now destruct b.
  - apply Z.eqb_refl.
  - apply String.eqb_refl.
Qed.

(** Case analysis on two or three keys, booleans included. *)
Ltac key_cases :=
  cbv beta iota delta [key_eq truthy]; try discriminate; try reflexivity;
  rewrite ?Z.eqb_eq, ?String.eqb_eq, ?Bool.eqb_true_iff; intros; subst;
  repeat match goal with x : bool |- _ => destruct x end;
  try reflexivity; try discriminate; try lia.

Lemma key_eq_trans (a b c : json) :
  key_eq a b = true -> key_eq b c = true -> key_eq a c = true.
Proof. destruct a, b, c; key_cases. Qed.

Lemma key_eq_truthy (a b : json) :
  key_eq a b = true -> truthy a = truthy b.
Proof. destruct a, b; key_cases. Qed.

Lemma key_eq_sym (a b : json) : key_eq a b = key_eq b a.
Proof.
  destruct a, b; cbv beta iota delta [key_eq]; try reflexivity;
    try apply Z.eqb_sym; try apply String.eqb_sym.
  now destruct b, b0.
Qed.

Lemma map_has_put_same (k : json) (v : node) (m : node_dict) :
  hashable k = true -> map_has k (map_put k v m) = true.
Proof.
  intros Hk. induction m as [ | [k' v'] m IH ]; simpl.
  - now rewrite (key_eq_refl k Hk).
  - destruct (key_eq k k') eqn:E; simpl; rewrite E; simpl; auto.
Qed.

Lemma map_has_put_other (k k' : json) (v : node) (m : node_dict) :
  map_has k m = true -> map_has k (map_put k' v m) = true.
Proof.
  induction m as [ | [k0 v0] m IH ]; simpl; [ discriminate | ].
  intros H. destruct (key_eq k' k0); simpl.
  - exact H.
  - apply orb_true_iff in H. apply orb_true_iff.
    destruct H as [H | H]; [ now left | right; now apply IH ].
Qed.

Lemma map_has_trans (k k' : json) (m : node_dict) :
  key_eq k' k = true -> map_has k m = true -> map_has k' m = true.
Proof.
  unfold map_has. intros Hk H. apply existsb_exists in H.
  destruct H as (x & Hx & Hkx). apply existsb_exists. exists x.
  split; [ exact Hx | ]. eapply key_eq_trans; eauto.
Qed.

Lemma bind_ok {A B} (m : result A) (f : A -> result B) (b : B) :
  bind m f = Ok b -> exists a, m = Ok a /\ f a = Ok b.
Proof. destruct m as [a | e]; simpl; [ eauto | discriminate ]. Qed.

(** Splits a successful sequence of binds into its successful steps. *)
Ltac ok_inv H :=
  match type of H with
  | bind _ _ = Ok _ =>
      let a := fresh "a" in
      let E := fresh "E" in
      apply bind_ok in H; destruct H as (a & E & H)
  | Ok _ = Ok _ => injection H as H
  | Raise _ = Ok _ => discriminate H
  end.

Lemma emit_ok (n : node) (l : link) (st st' : state) :
  emit n l st = Ok st' ->
  hashable (node_id n) = true /\
  st' = {| nodes := nodes st ++ [n]; links := links st ++ [l];
           node_map := map_put (node_id n) n (node_map st) |}.
Proof.
  unfold emit, node_map_set. destruct (hashable (node_id n)); simpl;
    intros H; [ | discriminate ].
  injection H as H. now subst.
Qed.

(** ** The builder as a sequence of emissions *)

Create HintDb graph.
#[local] Hint Constructors run : graph.

Lemma run_trans (a b c : state) : run a b -> run b c -> run a c.
Proof. induction 1; eauto with graph. Qed.

Lemma run_one (st st' : state) (n : node) (l : link) :
  emission st n l st' -> run st st'.
Proof. eauto with graph. Qed.

Lemma run_has_node (p : json) (a b : state) :
  run a b -> has_node p a -> has_node p b.
Proof.
  unfold has_node. induction 1 as [ | st st1 st2 n l Hem _ IH ]; auto.
  intros H. apply IH. rewrite (em_nodes Hem), map_app, in_app_iff. now left.
Qed.

Lemma emission_has_node (st st' : state) (n : node) (l : link) :
  emission st n l st' -> has_node (node_id n) st'.
Proof.
  intros Hem. unfold has_node.
  rewrite (em_nodes Hem), map_app, in_app_iff. right. simpl. now left.
Qed.

Lemma foreach_run {A} (p : json) (body : state -> A -> result state) :
  (forall st x st', has_node p st -> body st x = Ok st' -> run st st') ->
  forall l st st', has_node p st -> foreach body l st = Ok st' -> run st st'.
Proof.
  intros Hbody. induction l as [ | x l IH ]; simpl; intros st st' Hp H.
  - injection H as H. subst. constructor.
  - ok_inv H. pose proof (Hbody _ _ _ Hp E) as R.
    eapply run_trans; [ exact R | ].
    eapply IH; [ | exact H ]. eapply run_has_node; eauto.
Qed.

(** An [emit] of a node whose parent is present and whose two flags agree
    is an emission, unless it is an output (those are checked separately). *)
Lemma emit_emission (n : node) (l : link) (st st' : state) (p : json) :
  emit n l st = Ok st' ->
  node_parent n = Some p -> link_source l = p -> has_node p st ->
  link_target l = node_id n ->
  node_has_children n = node_expandable n ->
  (link_type_of l = L_has_output <-> node_type_of n = T_output) ->
  (node_type_of n = T_output -> map_has (node_id n) (node_map st) = false) ->
  emission st n l st'.
Proof.
  intros H Hp Hs Hin Ht Hf Hl Ho. apply emit_ok in H. destruct H as [Hh ->].
  constructor; simpl; auto. exists p. auto.
Qed.

Section BuilderRuns.

Variable repr_container : json -> string.

(** A fragment that is skipped leaves the state as it is. *)
Ltac skipped H := injection H as H; subst; constructor.

(** A plain [emit] of a node that is not an output. *)
Ltac emitted E :=
  eapply emit_emission; [ exact E | reflexivity | reflexivity | assumption
                        | reflexivity | reflexivity
                        | split; discriminate | discriminate ].

Lemma add_output_run (app_id : json) (st st' : state) (entry : nat * json) :
  has_node app_id st ->
  add_output repr_container app_id st entry = Ok st' -> run st st'.
Proof.
  intros Hp H. destruct entry as [output_idx output_item].
  destruct output_item; simpl in H; try solve [ skipped H ].
  ok_inv H. unfold node_map_mem in E.
  destruct (hashable _); [ | discriminate ]. injection E as E.
  destruct a; [ skipped H | ].
  eapply run_one.
  eapply emit_emission; [ exact H | reflexivity | reflexivity | assumption
                        | reflexivity | reflexivity | split; reflexivity | ].
  intros _. exact E.
Qed.

Lemma add_input_run (app_id : json) (st st' : state) (input_item : json) :
  has_node app_id st ->
  add_input repr_container app_id st input_item = Ok st' -> run st st'.
Proof.
  intros Hp H. destruct input_item; simpl in H; try solve [ skipped H ].
  eapply run_one. emitted H.
Qed.

Lemma add_application_run (technique_id : json) (st st' : state) (app : json) :
  has_node technique_id st ->
  add_application repr_container technique_id st app = Ok st' -> run st st'.
Proof.
  intros Hp H. destruct app; simpl in H; try solve [ skipped H ].
  ok_inv H. rename a into input_items, E into Ei.
  ok_inv H. rename a into outputs, E into Eo.
  ok_inv H. rename a into unique, E into Eu.
  ok_inv H. rename a into st1, E into E1.
  ok_inv H. rename a into st2, E into E2.
  assert (Em : emission st _ _ st1) by emitted E1.
  pose proof (emission_has_node Em) as Hin. simpl in Hin.
  eapply run_trans; [ eapply run_one; exact Em | ].
  eapply run_trans.
  - eapply foreach_run; [ | exact Hin | exact E2 ].
    intros; eapply add_input_run; eauto.
  - eapply foreach_run; [ | | exact H ].
    + intros; eapply add_output_run; eauto.
    + eapply run_has_node; [ | exact Hin ].
      eapply foreach_run; [ | exact Hin | exact E2 ].
      intros; eapply add_input_run; eauto.
Qed.

(** The pattern of the five middle levels: emit the node, then loop over
    its children with the new id as their parent. *)
Ltac emit_then_loop H child_run :=
  let st1 := fresh "st1" in
  let E1 := fresh "E1" in
  let items := fresh "items" in
  let Ei := fresh "Ei" in
  let Em := fresh "Em" in
  let Hin := fresh "Hin" in
  ok_inv H; rename a into st1, E into E1;
  ok_inv H; rename a into items, E into Ei;
  assert (Em : emission _ _ _ st1) by emitted E1;
  pose proof (emission_has_node Em) as Hin; simpl in Hin;
  eapply run_trans; [ eapply run_one; exact Em | ];
  eapply foreach_run; [ | exact Hin | exact H ];
  intros; eapply child_run; eauto.

Lemma add_technique_run (integration_id : json) (st st' : state) (technique : json) :
  has_node integration_id st ->
  add_technique repr_container integration_id st technique = Ok st' -> run st st'.
Proof.
  intros Hp H. destruct technique; simpl in H; try solve [ skipped H ].
  emit_then_loop H add_application_run.
Qed.

Lemma add_integration_run (spec_id : json) (st st' : state) (integration : json) :
  has_node spec_id st ->
  add_integration repr_container spec_id st integration = Ok st' -> run st st'.
Proof.
  intros Hp H. destruct integration; simpl in H; try solve [ skipped H ].
  destruct fields; [ skipped H | ].
  emit_then_loop H add_technique_run.
Qed.

Lemma add_specification_run (function_id : json) (st st' : state) (spec : json) :
  has_node function_id st ->
  add_specification repr_container function_id st spec = Ok st' -> run st st'.
Proof.
  intros Hp H. destruct spec; simpl in H; try solve [ skipped H ].
  ok_inv H. rename a into st1, E into E1.
  assert (Em : emission st _ _ st1) by emitted E1.
  pose proof (emission_has_node Em) as Hin. simpl in Hin.
  eapply run_trans; [ eapply run_one; exact Em | ].
  eapply add_integration_run; eauto.
Qed.

Lemma add_function_run (capability_id : json) (st st' : state) (function : json) :
  has_node capability_id st ->
  add_function repr_container capability_id st function = Ok st' -> run st st'.
Proof.
  intros Hp H. destruct function; simpl in H; try solve [ skipped H ].
  emit_then_loop H add_specification_run.
Qed.

Lemma add_capability_run (subcomp_id : json) (st st' : state) (capability : json) :
  has_node subcomp_id st ->
  add_capability repr_container subcomp_id st capability = Ok st' -> run st st'.
Proof.
  intros Hp H. destruct capability; simpl in H; try solve [ skipped H ].
  emit_then_loop H add_function_run.
Qed.

Lemma add_subcomponent_run (component_id : string) (st st' : state)
  (entry : string * json) :
  has_node (JStr component_id) st ->
  add_subcomponent repr_container component_id st entry = Ok st' -> run st st'.
Proof.
  intros Hp H. destruct entry as [subcomp_id subcomp]. unfold add_subcomponent in H.
  ok_inv H. rename a into capabilities, E into Ec.
  ok_inv H. rename a into subcomp_name, E into En.
  ok_inv H. rename a into subcomp_description, E into Ed.
  emit_then_loop H add_capability_run.
Qed.

Lemma add_component_run (root_data root_id : json) (subcomponents : dict json)
  (st st' : state) (entry : string * json) :
  subscript root_data "id" = Ok root_id ->
  has_node root_id st ->
  add_component repr_container root_data subcomponents st entry = Ok st' ->
  run st st'.
Proof.
  intros Hr Hp H. destruct entry as [component_id component].
  unfold add_component in H. rewrite Hr in H.
  ok_inv H. rename a into component_subcomponents, E into Ec.
  ok_inv H. rename a into component_name, E into En.
  ok_inv H. rename a into component_description, E into Ed.
  ok_inv H. injection E as <-.
  ok_inv H. rename a into st1, E into E1.
  assert (Em : emission st _ _ st1) by emitted E1.
  pose proof (emission_has_node Em) as Hin. simpl in Hin.
  eapply run_trans; [ eapply run_one; exact Em | ].
  eapply foreach_run; [ | exact Hin | exact H ].
  intros; eapply add_subcomponent_run; eauto.
Qed.

(** A successful build is the root node followed by a run of emissions. *)
Lemma build_graph_run (root_data : json) (components subcomponents : dict json)
  (g : graph) :
  build_graph repr_container root_data components subcomponents = Ok g ->
  exists root_id root_name root_description st,
    subscript root_data "id" = Ok root_id /\
    subscript root_data "name" = Ok root_name /\
    subscript root_data "description" = Ok root_description /\
    hashable root_id = true /\
    run (root_state (root_node_of root_id root_name root_description components)) st /\
    g = {| graph_nodes := nodes st; graph_links := links st |}.
Proof.
  unfold build_graph. intros H.
  ok_inv H. rename a into root_id, E into Ei.
  ok_inv H. rename a into root_name, E into En.
  ok_inv H. rename a into root_description, E into Ed.
  ok_inv H. rename a into m, E into Em.
  ok_inv H. rename a into st, E into Es.
  injection H as H.
  unfold node_map_set in Em. simpl in Em.
  destruct (hashable root_id) eqn:Hh; [ | discriminate ]. injection Em as Em.
  exists root_id, root_name, root_description, st.
  repeat split; auto. subst m.
  eapply foreach_run; [ | | exact Es ].
  - intros; eapply add_component_run; eauto.
  - unfold has_node. simpl. now left.
Qed.

End BuilderRuns.

(** ** Invariants of a run of emissions *)

Lemma nth_error_snoc {A} (l : list A) (x y : A) (i : nat) :
  nth_error (l ++ [x]) i = Some y ->
  (i < List.length l /\ nth_error l i = Some y) \/ (i = List.length l /\ y = x).
Proof.
  intros H. destruct (Nat.lt_ge_cases i (List.length l)) as [Hlt | Hge].
  - left. split; [ exact Hlt | ]. now rewrite nth_error_app1 in H.
  - right. rewrite nth_error_app2 in H by exact Hge.
    destruct (i - List.length l) as [ | k ] eqn:Ek; simpl in H.
    + injection H as H. split; [ lia | now subst ].
    + destruct k; discriminate.
Qed.

Lemma run_parents_resolve (a b : state) :
  run a b -> parents_resolve (nodes a) -> parents_resolve (nodes b).
Proof.
  induction 1 as [ | st st1 st2 n l Hem _ IH ]; auto.
  intros Hinv. apply IH. rewrite (em_nodes Hem).
  intros i x Hx Hi. apply nth_error_snoc in Hx.
  destruct Hx as [[Hlt Hx] | [-> ->]].
  - destruct (Hinv i x Hx Hi) as (p & j & m & Hp & Hj & Hm & Hid).
    exists p, j, m. repeat split; auto.
    rewrite nth_error_app1; [ exact Hm | lia ].
  - destruct (em_parent Hem) as (p & Hp & _ & Hin).
    apply in_map_iff in Hin. destruct Hin as (m & Hid & Hm).
    apply In_nth_error in Hm. destruct Hm as [j Hj].
    assert (j < List.length (nodes st))
      by (apply nth_error_Some; congruence).
    exists p, j, m. repeat split; auto.
    rewrite nth_error_app1; auto.
Qed.

Lemma run_nodes_extend (a b : state) :
  run a b -> exists added, nodes b = nodes a ++ added.
Proof.
  induction 1 as [ st | st st1 st2 n l Hem _ [added IH] ].
  - exists []. now rewrite app_nil_r.
  - exists (n :: added). rewrite IH, (em_nodes Hem), <- app_assoc. reflexivity.
Qed.

Lemma emission_indexed (st st' : state) (n : node) (l : link) :
  emission st n l st' -> indexed st -> indexed st'.
Proof.
  intros Hem Hinv x Hx. rewrite (em_nodes Hem) in Hx. rewrite (em_map Hem).
  apply in_app_iff in Hx. destruct Hx as [Hx | [<- | []]].
  - apply map_has_put_other. now apply Hinv.
  - apply map_has_put_same. exact (em_hashable Hem).
Qed.

Lemma run_outputs_fresh (a b : state) :
  run a b -> indexed a -> outputs_fresh (nodes a) ->
  indexed b /\ outputs_fresh (nodes b).
Proof.
  induction 1 as [ | st st1 st2 n l Hem _ IH ]; auto.
  intros Hidx Hinv. apply IH; [ eapply emission_indexed; eauto | ].
  rewrite (em_nodes Hem). intros i j ni nj Hij Hi Hj Hout.
  apply nth_error_snoc in Hj. destruct Hj as [[Hlt Hj] | [-> ->]].
  - rewrite nth_error_app1 in Hi by lia. eauto.
  - rewrite nth_error_app1 in Hi by lia.
    apply nth_error_In in Hi. apply Hidx in Hi.
    pose proof (em_output Hem Hout) as Hnew.
    split; [ | congruence ].
    destruct (key_eq (node_id ni) (node_id n)) eqn:E; [ | reflexivity ].
    rewrite key_eq_sym in E.
    rewrite (map_has_trans _ _ _ E Hi) in Hnew. discriminate.
Qed.

Lemma run_links_match (a b : state) :
  run a b -> Forall2 link_matches (links a) (List.tl (nodes a)) ->
  nodes a <> [] ->
  Forall2 link_matches (links b) (List.tl (nodes b)).
Proof.
  induction 1 as [ | st st1 st2 n l Hem _ IH ]; auto.
  intros Hinv Hne. apply IH.
  - rewrite (em_nodes Hem), (em_links Hem).
    destruct (nodes st) as [ | r ns ]; [ congruence | ]. simpl in *.
    apply Forall2_app; [ exact Hinv | ].
    constructor; [ | constructor ].
    destruct (em_parent Hem) as (p & Hp & Hs & _).
    split; [ exact (em_target Hem) | ].
    split; [ congruence | exact (em_link Hem) ].
  - rewrite (em_nodes Hem). destruct (nodes st); discriminate.
Qed.

(** After the first node the two flags agree. *)
Lemma run_flags (a b : state) :
  run a b ->
  Forall (fun n => node_has_children n = node_expandable n) (List.tl (nodes a)) ->
  nodes a <> [] ->
  Forall (fun n => node_has_children n = node_expandable n) (List.tl (nodes b)).
Proof.
  induction 1 as [ | st st1 st2 n l Hem _ IH ]; auto.
  intros Hinv Hne. apply IH.
  - rewrite (em_nodes Hem).
    destruct (nodes st) as [ | r ns ]; [ congruence | ]. simpl in *.
    apply Forall_app. split; [ exact Hinv | ].
    constructor; [ exact (em_flags Hem) | constructor ].
  - rewrite (em_nodes Hem). destruct (nodes st); discriminate.
Qed.

Lemma Forall2_nth_error_l {A B} (R : A -> B -> Prop) (l1 : list A) (l2 : list B) :
  Forall2 R l1 l2 ->
  forall i x, nth_error l1 i = Some x -> exists y, nth_error l2 i = Some y /\ R x y.
Proof.
  induction 1 as [ | a b l1 l2 Hab _ IH ]; intros [ | i ] x Hx; simpl in *;
    try discriminate.
  - injection Hx as <-. eauto.
  - eauto.
Qed.

Lemma links_fresh_of_nodes (ns : list node) (ls : list link) :
  Forall2 link_matches ls (List.tl ns) -> outputs_fresh ns -> output_links_fresh ls.
Proof.
  intros Hm Hf a b la lb Hab Ha Hb Hout.
  destruct (Forall2_nth_error_l Hm _ Ha) as (na & Hna & Hta & _ & _).
  destruct (Forall2_nth_error_l Hm _ Hb) as (nb & Hnb & Htb & _ & Hty).
  rewrite Hta, Htb. destruct ns as [ | r ns ].
  - destruct a; discriminate.
  - simpl in Hna, Hnb.
    apply (Hf (S a) (S b) na nb); simpl; auto; [ lia | now apply Hty ].
Qed.

Section GraphTheorems.

Variable repr_container : json -> string.
Variables (root_data : json) (components subcomponents : dict json).
Variable g : graph.
Hypothesis built :
  build_graph repr_container root_data components subcomponents = Ok g.

(** The node list of a built graph: the root node, then a run of emissions. *)
Lemma built_nodes :
  exists root_id root_name root_description st,
    subscript root_data "id" = Ok root_id /\
    hashable root_id = true /\
    run (root_state (root_node_of root_id root_name root_description components)) st /\
    graph_nodes g = nodes st /\ graph_links g = links st /\
    exists rest,
      nodes st = root_node_of root_id root_name root_description components :: rest.
Proof.
  destruct (build_graph_run _ _ _ _ built)
    as (root_id & root_name & root_description & st & Hi & _ & _ & Hh & Hrun & ->).
  exists root_id, root_name, root_description, st. repeat split; auto.
  destruct (run_nodes_extend Hrun) as [added Hadd]. exists added. exact Hadd.
Qed.

Lemma built_parents_resolve : parents_resolve (graph_nodes g).
Proof.
  destruct built_nodes as (i & n & d & st & _ & _ & Hrun & -> & _ & _).
  apply (run_parents_resolve Hrun).
  intros [ | [ | k ] ] x Hx Hk; simpl in *; try lia; discriminate.
Qed.

Lemma built_outputs_fresh :
  outputs_fresh (graph_nodes g) /\ output_links_fresh (graph_links g).
Proof.
  destruct built_nodes as (i & n & d & st & _ & Hh & Hrun & -> & -> & _).
  assert (Hf : outputs_fresh (nodes st)).
  { apply (run_outputs_fresh Hrun).
    - intros x [<- | []]. simpl. now rewrite (key_eq_refl i Hh).
    - intros a b ni nj Hab _ Hb. destruct b as [ | b ]; [ lia | ].
      simpl in Hb. destruct b; discriminate. }
  split; [ exact Hf | ].
  apply links_fresh_of_nodes with (ns := nodes st); [ | exact Hf ].
  apply (run_links_match Hrun); simpl; [ constructor | discriminate ].
Qed.

Lemma built_flags :
  exists root_node rest,
    graph_nodes g = root_node :: rest /\
    node_parent root_node = None /\
    node_type_of root_node = T_component_group /\
    node_level root_node = 0 /\
    node_expandable root_node = true /\
    node_has_children root_node = nonempty components /\
    Forall (fun n => node_has_children n = node_expandable n) rest.
Proof.
  destruct built_nodes as (i & n & d & st & _ & _ & Hrun & -> & _ & rest & Hrest).
  exists (root_node_of i n d components), rest. rewrite Hrest.
  repeat split; auto.
  pose proof (run_flags Hrun) as Hf. rewrite Hrest in Hf. simpl in Hf.
  apply Hf; [ constructor | discriminate ].
Qed.

End GraphTheorems.

(** ** Deduplication of an application's outputs *)

Lemma set_has_trans (k k' : json) (s : list json) :
  key_eq k' k = true -> set_has k s = true -> set_has k' s = true.
Proof.
  unfold set_has. intros Hk H. apply existsb_exists in H.
  destruct H as (x & Hx & Hkx). apply existsb_exists. exists x.
  split; [ exact Hx | ]. eapply key_eq_trans; eauto.
Qed.

Lemma ids_seen_skip (earlier ids : list json) (out : json) :
  ids_seen earlier ids -> truthy (output_key out) = false ->
  ids_seen (earlier ++ [out]) ids.
Proof.
  intros Hinv Hf k Hk. rewrite existsb_app, <- (Hinv k Hk). simpl.
  destruct (key_eq k (output_key out)) eqn:E.
  - apply key_eq_truthy in E. congruence.
  - now rewrite !orb_false_r.
Qed.

Lemma unique_step_refines (outs : list json) :
  forall earlier unique ids acc,
    ids_seen earlier ids ->
    foreach unique_step outs (unique, ids) = Ok acc ->
    fst acc = unique ++ first_occurrences earlier outs.
Proof.
  induction outs as [ | out outs IH ]; simpl; intros earlier unique ids acc Hinv H.
  - injection H as <-. simpl. now rewrite app_nil_r.
  - ok_inv H. destruct out as [ | b | z | s | l | o ]; simpl in E;
      try (injection E as <-; simpl;
           apply (IH (earlier ++ [_]) unique ids acc); [ | exact H ];
           now apply ids_seen_skip).
    simpl. destruct (truthy (get o "id" JNull)) eqn:Ht; simpl.
    + destruct (hashable (get o "id" JNull)) eqn:Hh; [ | discriminate ].
      rewrite <- (Hinv _ Ht).
      destruct (set_has (get o "id" JNull) ids) eqn:Hs; injection E as <-; simpl.
      * apply (IH (earlier ++ [JObj o]) unique ids acc); [ | exact H ].
        intros k Hk. rewrite existsb_app, <- (Hinv k Hk). simpl.
        rewrite orb_false_r.
        destruct (key_eq k (get o "id" JNull)) eqn:Ek.
        -- rewrite (set_has_trans _ _ _ Ek Hs). reflexivity.
        -- now rewrite orb_false_r.
      * rewrite (IH (earlier ++ [JObj o]) _ _ acc) with (2 := H).
        -- now rewrite <- app_assoc.
        -- intros k Hk. unfold set_has. rewrite !existsb_app.
           fold (set_has k ids). rewrite (Hinv k Hk). reflexivity.
    + injection E as <-.
      rewrite (IH (earlier ++ [JObj o]) _ _ acc) with (2 := H).
      * now rewrite <- app_assoc.
      * apply ids_seen_skip; auto.
Qed.

(** The code's deduplication computes the specification's. *)
Lemma unique_outputs_refines (outs unique : list json) :
  unique_outputs_of outs = Ok unique -> unique = dedup_by_id outs.
Proof.
  unfold unique_outputs_of. intros H. ok_inv H. injection H as <-.
  apply (unique_step_refines outs (earlier := [])) in E; [ exact E | ].
  intros k _. reflexivity.
Qed.

(** ** The nodes one application contributes *)

Lemma enumerate_from_nth {A} (l : list A) :
  forall s i x, In (i, x) (combine (seq s (List.length l)) l) ->
    s <= i /\ nth_error l (i - s) = Some x.
Proof.
  induction l as [ | y l IH ]; simpl; intros s i x H; [ contradiction | ].
  destruct H as [H | H].
  - injection H as <- <-. rewrite Nat.sub_diag. auto.
  - apply IH in H. destruct H as [Hle Hn]. split; [ lia | ].
    replace (i - s) with (S (i - S s)) by lia. exact Hn.
Qed.

Lemma enumerate_nth {A} (l : list A) (i : nat) (x : A) :
  In (i, x) (enumerate l) -> nth_error l i = Some x.
Proof.
  intros H. apply enumerate_from_nth in H. destruct H as [_ H].
  now rewrite Nat.sub_0_r in H.
Qed.

Section ApplicationNodes.

Variable repr_container : json -> string.

Lemma add_inputs_nodes (app_id : json) (items : list json) :
  forall st st',
    foreach (add_input repr_container app_id) items st = Ok st' ->
    exists added,
      nodes st' = nodes st ++ added /\
      Forall (fun n => node_type_of n = T_input) added.
Proof.
  induction items as [ | item items IH ]; simpl; intros st st' H.
  - injection H as <-. exists []. now rewrite app_nil_r.
  - ok_inv H. apply IH in H. destruct H as (added & -> & Hall).
    destruct item; simpl in E; try (injection E as <-; eauto).
    apply emit_ok in E. destruct E as [_ ->]. simpl.
    eexists (_ :: added). rewrite <- app_assoc. split; [ reflexivity | ].
    constructor; [ reflexivity | exact Hall ].
Qed.

Lemma add_outputs_nodes (app_id : json) (entries : list (nat * json)) :
  forall st st',
    foreach (add_output repr_container app_id) entries st = Ok st' ->
    exists added,
      nodes st' = nodes st ++ added /\
      Forall (output_from repr_container app_id entries) added.
Proof.
  induction entries as [ | [output_idx item] entries IH ]; simpl; intros st st' H.
  - injection H as <-. exists []. now rewrite app_nil_r.
  - ok_inv H. apply IH in H. destruct H as (added & -> & Hall).
    assert (Hweak : Forall (output_from repr_container app_id ((output_idx, item) :: entries)) added).
    { eapply Forall_impl; [ | exact Hall ].
      intros n (i & o & Hin & ->). exists i, o. split; [ now right | reflexivity ]. }
    destruct item; simpl in E; try (injection E as <-; eauto).
    ok_inv E. destruct a0.
    + injection E as <-. eauto.
    + apply emit_ok in E. destruct E as [_ ->]. simpl.
      eexists (_ :: added). rewrite <- app_assoc. split; [ reflexivity | ].
      constructor; [ | exact Hweak ].
      eexists _, _. split; [ now left | reflexivity ].
Qed.

(** The nodes an application adds: its own node, one node per input
    object, then output nodes that all come from the deduplicated
    concatenation of its own outputs and the outputs nested in its inputs. *)
Lemma add_application_nodes (technique_id : json) (a : dict json) (st st' : state) :
  add_application repr_container technique_id st (JObj a) = Ok st' ->
  exists input_items standalone has_app_children input_nodes output_nodes,
    iterate (get a "inputs" (JArr [])) = Ok input_items /\
    get a "outputs" (JArr []) = JArr standalone /\
    nodes st' =
      nodes st ++
      app_node_of technique_id
        (get a "id" (synth_id repr_container technique_id "app"
                       (List.length (nodes st))))
        a has_app_children
      :: input_nodes ++ output_nodes /\
    Forall (fun n => node_type_of n = T_input) input_nodes /\
    Forall (fun n =>
              node_type_of n = T_output /\
              exists output_idx o,
                nth_error (dedup_by_id (standalone ++ nested_outputs_of input_items))
                  output_idx = Some (JObj o) /\
                n = output_node_of repr_container
                      (get a "id" (synth_id repr_container technique_id "app"
                                     (List.length (nodes st))))
                      output_idx o)
      output_nodes.
Proof.
  intros H. simpl in H.
  ok_inv H. rename a0 into input_items, E into Ei.
  ok_inv H. rename a0 into outputs, E into Eo.
  ok_inv H. rename a0 into unique, E into Eu.
  ok_inv H. rename a0 into st1, E into E1.
  ok_inv H. rename a0 into st2, E into E2.
  destruct (get a "outputs" (JArr [])) as [ | | | | standalone | ] eqn:Es;
    try discriminate.
  injection Eo as <-.
  apply unique_outputs_refines in Eu. subst unique.
  apply emit_ok in E1. destruct E1 as [_ ->].
  apply add_inputs_nodes in E2. destruct E2 as (input_nodes & Hn2 & Hin).
  apply add_outputs_nodes in H. destruct H as (output_nodes & Hn3 & Hout).
  exists input_items, standalone. eexists. exists input_nodes, output_nodes.
  split; [ exact Ei | ]. split; [ reflexivity | ].
  split; [ | split; [ exact Hin | ] ].
  - rewrite Hn3, Hn2. simpl. rewrite <- !app_assoc. reflexivity.
  - eapply Forall_impl; [ | exact Hout ].
    intros n (i & o & Hio & ->). split; [ reflexivity | ].
    exists i, o. split; [ now apply enumerate_nth | reflexivity ].
Qed.

End ApplicationNodes.

Lemma map_has_put_false (k k' : json) (v : node) (m : node_dict) :
  map_has k m = false -> key_eq k k' = false -> map_has k (map_put k' v m) = false.
Proof.
  intros Hm Hk. induction m as [ | [k0 v0] m IH ]; simpl in *.
  - now rewrite Hk.
  - apply orb_false_iff in Hm. destruct Hm as [H0 Hm].
    destruct (key_eq k' k0); simpl; rewrite H0; simpl; auto.
Qed.

(** A key that differs from the keys put into a dict is still absent. *)
Ltac fresh_key :=
  repeat (apply map_has_put_false; [ | assumption || reflexivity ]); assumption.

Section ExampleOutputs.
Variable repr_container : json -> string.

(** The application of the specification's example, in any state of the
    build where [o1] and [o2] are not taken: outputs [[{id: o1}]], one input
    whose nested outputs are [[{id: o1}, {id: o2}]]. *)
Lemma example_outputs (technique_id : json) (a i oa ob oc : dict json) (st : state) :
  let app_id := get a "id" (synth_id repr_container technique_id "app" (List.length (nodes st))) in
  let input_id := get i "id" (synth_id repr_container app_id "input" (S (List.length (nodes st)))) in
  get a "outputs" (JArr []) = JArr [JObj oa] ->
  get a "inputs" (JArr []) = JArr [JObj i] ->
  dict_get "outputs" i = Some (JArr [JObj ob; JObj oc]) ->
  dict_get "id" oa = Some (JStr "o1") ->
  dict_get "id" ob = Some (JStr "o1") ->
  dict_get "id" oc = Some (JStr "o2") ->
  hashable app_id = true -> hashable input_id = true ->
  (forall k, In k [JStr "o1"; JStr "o2"] ->
     map_has k (node_map st) = false /\ key_eq k app_id = false /\ key_eq k input_id = false) ->
  exists st',
    add_application repr_container technique_id st (JObj a) = Ok st' /\
    nodes st' = nodes st ++
      [app_node_of technique_id app_id a true;
       input_node_of repr_container app_id (S (List.length (nodes st))) i;
       output_node_of repr_container app_id 0 oa;
       output_node_of repr_container app_id 1 oc] /\
    node_id (output_node_of repr_container app_id 0 oa) = JStr "o1" /\
    node_id (output_node_of repr_container app_id 1 oc) = JStr "o2".
Proof.
  intros app_id input_id Ho Hi Hn Ha Hb Hc Hha Hhi Hfresh.
  destruct (Hfresh (JStr "o1")) as (F1 & F1a & F1i); [ simpl; auto | ].
  destruct (Hfresh (JStr "o2")) as (F2 & F2a & F2i); [ simpl; auto | ].
  assert (I1 : node_id (output_node_of repr_container app_id 0 oa) = JStr "o1")
    by (simpl; unfold output_id_of; now rewrite Ha).
  assert (I2 : node_id (output_node_of repr_container app_id 1 oc) = JStr "o2")
    by (simpl; unfold output_id_of; now rewrite Hc).
  assert (N : nested_outputs_of [JObj i] = [JObj ob; JObj oc]).
  { unfold nested_outputs_of, input_outputs_of, dict_mem, get. simpl.
    now rewrite Hn. }
  assert (U : unique_outputs_of [JObj oa; JObj ob; JObj oc] = Ok [JObj oa; JObj oc]).
  { assert (Ga : get oa "id" JNull = JStr "o1") by (unfold get; now rewrite Ha).
    assert (Gb : get ob "id" JNull = JStr "o1") by (unfold get; now rewrite Hb).
    assert (Gc : get oc "id" JNull = JStr "o2") by (unfold get; now rewrite Hc).
    unfold unique_outputs_of. simpl. rewrite Ga. simpl. rewrite Gb. simpl.
    rewrite Gc. reflexivity. }
  unfold add_application. fold app_id. rewrite Ho, Hi.
  cbn [iterate bind concat_list]. rewrite N. cbn [app]. rewrite U.
  cbn [bind truthy nonempty orb].
  unfold emit at 1, node_map_set. cbn [node_id app_node_of]. rewrite Hha.
  cbn [bind foreach add_input nodes]. rewrite length_app, Nat.add_1_r. cbn [List.length].
  unfold emit at 1, node_map_set. cbn [node_id input_node_of]. fold input_id. rewrite Hhi.
  cbn [bind enumerate List.length seq combine foreach add_output node_map].
  rewrite I1. unfold node_map_mem at 1. cbn [hashable bind].
  match goal with
  | |- context [map_has ?k ?m] =>
      replace (map_has k m) with false by (symmetry; fresh_key)
  end.
  unfold emit at 1, node_map_set. rewrite I1.
  cbn [hashable bind node_map].
  rewrite I2. unfold node_map_mem at 1. cbn [hashable bind].
  match goal with
  | |- context [map_has ?k ?m] =>
      replace (map_has k m) with false by (symmetry; fresh_key)
  end.
  unfold emit at 1, node_map_set. rewrite I2.
  cbn [hashable bind node_map nodes].
  eexists. split; [ reflexivity | ]. cbn [nodes].
  rewrite <- !app_assoc. auto.
Qed.
End ExampleOutputs.

(** ** The build completes on well-formed documents *)

Lemma foreach_total {A S} (body : S -> A -> result S) (l : list A) :
  (forall x, In x l -> forall s, exists s', body s x = Ok s') ->
  forall s, exists s', foreach body l s = Ok s'.
Proof.
  induction l as [ | x l IH ]; simpl; intros H s; eauto.
  destruct (H x (or_introl eq_refl) s) as [s1 ->]. simpl.
  apply IH. intros; apply H; now right.
Qed.

Lemma emit_total (n : node) (l : link) (st : state) :
  hashable (node_id n) = true -> exists st', emit n l st = Ok st'.
Proof. intros H. unfold emit, node_map_set. rewrite H. simpl. eauto. Qed.

Lemma id_ok_hashable (d : dict json) (default : string) :
  id_ok d = true -> hashable (get d "id" (JStr default)) = true.
Proof. unfold id_ok, get. now destruct (dict_get "id" d). Qed.

Lemma iterable_items (v : json) :
  is_iterable v = true -> iterate v = Ok (items_of v).
Proof. unfold is_iterable, items_of. now destruct (iterate v). Qed.

Lemma unique_outputs_total (outs : list json) :
  forallb output_ok outs = true ->
  exists unique, unique_outputs_of outs = Ok unique.
Proof.
  intros H. unfold unique_outputs_of.
  destruct (foreach_total unique_step outs) with (s := (@nil json, @nil json))
    as [acc ->]; [ | simpl; eauto ].
  intros x Hx [unique ids]. rewrite forallb_forall in H. specialize (H x Hx).
  destruct x; simpl; eauto. simpl in H.
  destruct (truthy (get fields "id" JNull)); simpl in *; eauto.
  rewrite H. destruct (set_has _ ids); eauto.
Qed.

Section Totality.

Variable repr_container : json -> string.

(** Splits a conjunction of checks into its parts. *)
Ltac checks H :=
  repeat match type of H with
         | _ && _ = true =>
             let H' := fresh "Hk" in
             apply andb_true_iff in H; destruct H as [H H']
         end.

(** Runs one [emit] of the goal, given that the id can be a key. *)
Ltac emits Hid :=
  match goal with
  | |- exists st', bind (emit ?n ?l ?st) _ = Ok st' =>
      let st1 := fresh "st1" in
      let E := fresh "E" in
      destruct (emit_total n l st) as [st1 E];
      [ simpl; unfold synth_id; apply id_ok_hashable; exact Hid
      | rewrite E; cbn [bind] ]
  end.

Lemma add_output_total (app_id : json) (entry : nat * json) (st : state) :
  hashable app_id = true -> output_ok (snd entry) = true ->
  exists st', add_output repr_container app_id st entry = Ok st'.
Proof.
  destruct entry as [output_idx v]. intros Ha H.
  destruct v; simpl; eauto. simpl in H.
  assert (Hh : hashable (output_id_of repr_container app_id output_idx fields) = true).
  { unfold output_id_of, get in *. destruct (dict_get "id" fields) as [v | ];
      [ | reflexivity ].
    destruct (truthy v); simpl in H; [ exact H | reflexivity ]. }
  unfold node_map_mem. rewrite Hh. simpl.
  destruct (map_has _ _); eauto. apply emit_total. exact Hh.
Qed.

Lemma add_input_total (app_id : json) (v : json) (st : state) :
  input_ok v = true ->
  exists st', add_input repr_container app_id st v = Ok st'.
Proof.
  intros H. destruct v; simpl; eauto. apply emit_total. simpl.
  unfold synth_id. now apply id_ok_hashable.
Qed.

Lemma enumerate_snd {A} (l : list A) (entry : nat * A) :
  In entry (enumerate l) -> In (snd entry) l.
Proof.
  destruct entry as [i x]. intros H. apply enumerate_nth in H.
  simpl. eapply nth_error_In; eauto.
Qed.

Lemma dedup_keeps_ok (outs : list json) :
  forallb output_ok outs = true -> forallb output_ok (dedup_by_id outs) = true.
Proof.
  unfold dedup_by_id. generalize (@nil json) as earlier.
  induction outs as [ | out outs IH ]; simpl; intros earlier H; auto.
  apply andb_true_iff in H. destruct H as [Ho H].
  rewrite forallb_app, IH by exact H.
  destruct (is_object out && _); simpl; now rewrite ?Ho.
Qed.

Lemma add_application_total (technique_id : json) (v : json) (st : state) :
  application_ok v = true ->
  exists st', add_application repr_container technique_id st v = Ok st'.
Proof.
  intros H. destruct v; simpl; eauto. simpl in H. checks H.
  destruct (get fields "outputs" (JArr [])) as [ | | | | standalone | ] eqn:Eo;
    try discriminate.
  rewrite (iterable_items _ Hk1). cbn [bind concat_list].
  destruct (unique_outputs_total _ Hk) as [unique Eu]. rewrite Eu. cbn [bind].
  pose proof (dedup_keeps_ok _ Hk) as Hu.
  rewrite <- (unique_outputs_refines _ Eu) in Hu.
  emits H.
  destruct (foreach_total
              (add_input repr_container
                 (get fields "id"
                    (synth_id repr_container technique_id "app"
                       (List.length (nodes st)))))
              (items_of (get fields "inputs" (JArr [])))) with (s := st1)
    as [st2 ->].
  { intros x Hx s. apply add_input_total.
    rewrite forallb_forall in Hk0. now apply Hk0. }
  cbn [bind]. apply foreach_total. intros entry Hin s.
  apply add_output_total.
  - unfold synth_id. now apply id_ok_hashable.
  - rewrite forallb_forall in Hu. apply Hu. now apply enumerate_snd.
Qed.

(** The middle levels: emit, then loop over the children. *)
Ltac emit_and_loop H Hiter Hall child_total :=
  emits H; rewrite (iterable_items _ Hiter); cbn [bind];
  apply foreach_total; intros x Hx s; apply child_total;
  rewrite forallb_forall in Hall; now apply Hall.

Lemma add_technique_total (integration_id : json) (v : json) (st : state) :
  technique_ok v = true ->
  exists st', add_technique repr_container integration_id st v = Ok st'.
Proof.
  intros H. destruct v; simpl; eauto. simpl in H. checks H.
  emit_and_loop H Hk0 Hk add_application_total.
Qed.

Lemma add_integration_total (spec_id : json) (v : json) (st : state) :
  integration_ok v = true ->
  exists st', add_integration repr_container spec_id st v = Ok st'.
Proof.
  intros H. destruct v; simpl; eauto. destruct fields as [ | kv fields ]; eauto.
  simpl in H. checks H.
  emit_and_loop H Hk0 Hk add_technique_total.
Qed.

Lemma add_specification_total (function_id : json) (v : json) (st : state) :
  specification_ok v = true ->
  exists st', add_specification repr_container function_id st v = Ok st'.
Proof.
  intros H. destruct v; simpl; eauto. simpl in H. checks H.
  emits H. now apply add_integration_total.
Qed.

Lemma add_function_total (capability_id : json) (v : json) (st : state) :
  function_ok v = true ->
  exists st', add_function repr_container capability_id st v = Ok st'.
Proof.
  intros H. destruct v; simpl; eauto. simpl in H. checks H.
  emit_and_loop H Hk0 Hk add_specification_total.
Qed.

Lemma add_capability_total (subcomp_id : json) (v : json) (st : state) :
  capability_ok v = true ->
  exists st', add_capability repr_container subcomp_id st v = Ok st'.
Proof.
  intros H. destruct v; simpl; eauto. simpl in H. checks H.
  emit_and_loop H Hk0 Hk add_function_total.
Qed.

Lemma add_subcomponent_total (component_id : string) (entry : string * json)
  (st : state) :
  subcomponent_ok (snd entry) = true ->
  exists st', add_subcomponent repr_container component_id st entry = Ok st'.
Proof.
  destruct entry as [subcomp_id subcomp]. simpl. intros H.
  destruct subcomp; try discriminate. simpl in H. unfold add_subcomponent.
  destruct (capabilities_of (JObj fields)) as [capabilities | e] eqn:Ec;
    [ | discriminate ].
  checks H. cbn [bind get_attr].
  try match goal with
      | |- exists st', bind (emit ?n ?l ?st) _ = Ok st' =>
          destruct (emit_total n l st eq_refl) as [st1 ->]
      end.
  cbn [bind]. rewrite (iterable_items _ H). cbn [bind].
  apply foreach_total. intros x Hx s. apply add_capability_total.
  rewrite forallb_forall in Hk. now apply Hk.
Qed.

Lemma dict_set_ok (P : json -> bool) (k : string) (v : json) (d : dict json) :
  P v = true -> forallb (fun entry => P (snd entry)) d = true ->
  forallb (fun entry => P (snd entry)) (dict_set k v d) = true.
Proof.
  intros Hv. induction d as [ | [k' v'] d IH ]; simpl; intros H.
  - now rewrite Hv.
  - apply andb_true_iff in H. destruct H as [H1 H2].
    destruct (String.eqb k k'); simpl; rewrite ?Hv, ?H1, ?H2; auto.
Qed.

Lemma component_subcomponents_total (component_id : string)
  (subcomponents : dict json) :
  forallb (fun entry => subcomponent_ok (snd entry)) subcomponents = true ->
  exists attached,
    component_subcomponents_of component_id subcomponents = Ok attached /\
    forallb (fun entry => subcomponent_ok (snd entry)) attached = true.
Proof.
  unfold component_subcomponents_of.
  assert (Hgen : forall acc,
             forallb (fun entry => subcomponent_ok (snd entry)) acc = true ->
             forallb (fun entry => subcomponent_ok (snd entry)) subcomponents = true ->
             exists attached,
               foreach (attached_step component_id) subcomponents acc = Ok attached /\
               forallb (fun entry => subcomponent_ok (snd entry)) attached = true).
  { induction subcomponents as [ | [s_id s] rest IH ]; simpl; intros acc Hacc H; eauto.
    apply andb_true_iff in H. destruct H as [Hs H].
    destruct s; try discriminate. simpl.
    unfold dict_mem. destruct (dict_get "parent" fields) as [p | ] eqn:Ep; simpl.
    - destruct (eq_str p component_id); apply IH; auto.
      now apply dict_set_ok.
    - now apply IH. }
  intros H. now apply Hgen.
Qed.

Lemma add_component_total (root_data : json) (subcomponents : dict json)
  (entry : string * json) (st : state) :
  root_ok root_data = true ->
  component_ok (snd entry) = true ->
  forallb (fun e => subcomponent_ok (snd e)) subcomponents = true ->
  exists st', add_component repr_container root_data subcomponents st entry = Ok st'.
Proof.
  destruct entry as [component_id component]. simpl. intros Hr Hc Hs.
  destruct component; try discriminate. simpl in Hc.
  destruct root_data; try discriminate. simpl in Hr. checks Hr.
  unfold add_component.
  destruct (component_subcomponents_total component_id _ Hs) as (attached & -> & Ha).
  cbn [bind subscript get_attr]. unfold dict_mem in *.
  destruct (dict_get "name" fields); [ | discriminate ].
  destruct (dict_get "id" fields0) as [root_id | ]; [ | discriminate ].
  cbn [bind].
  try match goal with
      | |- exists st', bind (emit ?n ?l ?st) _ = Ok st' =>
          destruct (emit_total n l st eq_refl) as [st1 ->]
      end.
  cbn [bind]. apply foreach_total. intros x Hx s. apply add_subcomponent_total.
  rewrite forallb_forall in Ha. now apply Ha.
Qed.

(** On well-formed documents [build_graph_data] returns a graph. *)
Lemma build_graph_total (root_data : json) (components subcomponents : dict json) :
  documents_ok root_data components subcomponents = true ->
  exists g, build_graph repr_container root_data components subcomponents = Ok g.
Proof.
  unfold documents_ok. intros H. checks H.
  assert (Hr := H). destruct root_data; try discriminate. simpl in H. checks H.
  unfold build_graph. cbn [subscript]. unfold dict_mem, id_ok in *.
  destruct (dict_get "id" fields) as [root_id | ]; [ | discriminate ].
  destruct (dict_get "name" fields) as [root_name | ]; [ | discriminate ].
  destruct (dict_get "description" fields) as [root_description | ];
    [ | discriminate ].
  cbn [bind]. unfold node_map_set. cbn [node_id root_node_of]. rewrite Hk3.
  cbn [bind].
  match goal with
  | |- exists g, bind (foreach ?body ?l ?init) _ = Ok g =>
      destruct (foreach_total body l) with (s := init) as [st ->]
  end; [ | simpl; eauto ].
  intros x Hx s. apply add_component_total; auto.
  rewrite forallb_forall in Hk0. now apply Hk0.
Qed.

End Totality.

Example example_documents_ok :
  documents_ok DEFAULT_ROOT_DATA example_components example_subcomponents = true.
Proof. reflexivity. Qed.

(** [build_graph_data] is [build_graph] on the documents that the three
    loaders of app.py return. *)
Lemma build_graph_data_loaded (json_loads : text -> result json)
  (repr_container : json -> string) (fs : filesystem) (g : graph) :
  App.build_graph_data json_loads repr_container fs = Ok g ->
  exists root_data components subcomponents,
    get_root_data json_loads fs = Ok root_data /\
    App.get_components json_loads fs = Ok components /\
    App.get_subcomponents json_loads fs = Ok subcomponents /\
    build_graph repr_container root_data components subcomponents = Ok g.
Proof.
  unfold App.build_graph_data. intros H.
  ok_inv H. ok_inv H. ok_inv H. eauto 8.
Qed.

Example example_graph_ids :
  map node_id (graph_nodes example_graph) =
  map JStr ["ai-alignment"; "comp"; "sub"; "cap"; "fun"; "spec"; "integ"; "tech";
            "app-1"; "in-1"; "o1"; "o2"; "app-2"; "app-2-output-1"].
Proof. reflexivity. Qed.

(** ** The claims on the graph builder *)

(** C1: in the node list that [build_graph_data] returns, the first node is
    the root and has no parent; every other node carries a parent, and that
    parent is the id of a node that occurs earlier in the list. *)
Theorem parent_is_earlier_node (repr_container : json -> string)
  (root_data : json) (components subcomponents : dict json) (g : graph) :
  build_graph repr_container root_data components subcomponents = Ok g ->
  (exists root_node rest,
      graph_nodes g = root_node :: rest /\ node_parent root_node = None) /\
  parents_resolve (graph_nodes g).
Proof.
  intros H. split.
  - destruct (built_flags _ _ _ _ H) as (r & rest & Hg & Hp & _). eauto.
  - exact (built_parents_resolve _ _ _ _ H).
Qed.

Lemma parent_is_earlier_node_witness :
  build_graph repr_unused DEFAULT_ROOT_DATA example_components
    example_subcomponents = Ok example_graph /\
  parents_resolve (graph_nodes example_graph).
Proof.
  assert (H : build_graph repr_unused DEFAULT_ROOT_DATA example_components
                example_subcomponents = Ok example_graph) by reflexivity.
  split; [ exact H | exact (proj2 (parent_is_earlier_node _ _ _ _ H)) ].
Defined.

(** C3: an output whose id is already a key of [node_map] adds neither a
    node nor a link (the state is returned as it was); in a built graph an
    output node never repeats the id of a node before it, so no two output
    nodes share an id, and no [has_output] link repeats the target of a
    link before it.  Ids differ as values and as Python compares keys. *)
Theorem output_ids_are_global (repr_container : json -> string)
  (root_data : json) (components subcomponents : dict json) (g : graph) :
  build_graph repr_container root_data components subcomponents = Ok g ->
  (forall app_id st output_idx o,
      map_has (output_id_of repr_container app_id output_idx o) (node_map st) = true ->
      add_output repr_container app_id st (output_idx, JObj o) = Ok st) /\
  outputs_fresh (graph_nodes g) /\
  output_links_fresh (graph_links g) /\
  (forall i j ni nj,
      i <> j -> nth_error (graph_nodes g) i = Some ni ->
      nth_error (graph_nodes g) j = Some nj ->
      node_type_of ni = T_output -> node_type_of nj = T_output ->
      distinct_ids (node_id ni) (node_id nj)).
Proof.
  intros H. destruct (built_outputs_fresh _ _ _ _ H) as [Hn Hl].
  split; [ | split; [ exact Hn | split; [ exact Hl | ] ] ].
  - intros app_id st output_idx o Hin. simpl. unfold node_map_mem.
    destruct (hashable _) eqn:Hh.
    + simpl. now rewrite Hin.
    + unfold map_has in Hin. apply existsb_exists in Hin.
      destruct Hin as (kv & _ & Hk).
      destruct (output_id_of repr_container app_id output_idx o);
        simpl in *; discriminate.
  - intros i j ni nj Hij Hi Hj Hti Htj.
    destruct (Nat.lt_ge_cases i j) as [Hlt | Hge].
    + apply (Hn i j ni nj); auto.
    + destruct (Hn j i nj ni) as [Hk Hne]; auto; [ lia | ].
      split; [ now rewrite key_eq_sym | congruence ].
Qed.

Lemma output_ids_are_global_witness :
  build_graph repr_unused DEFAULT_ROOT_DATA example_components
    example_subcomponents = Ok example_graph /\
  outputs_fresh (graph_nodes example_graph) /\
  output_links_fresh (graph_links example_graph).
Proof.
  assert (H : build_graph repr_unused DEFAULT_ROOT_DATA example_components
                example_subcomponents = Ok example_graph) by reflexivity.
  destruct (output_ids_are_global _ _ _ _ H) as (_ & Hn & Hl & _).
  split; [ exact H | split; [ exact Hn | exact Hl ] ].
Defined.

Example dedup_by_id_example :
  dedup_by_id [out "o1"; JObj [("name", JStr "n1")]; JNum 7; out "o1"; out "o2";
               JObj [("name", JStr "n1")]; out "o2"] =
  [out "o1"; JObj [("name", JStr "n1")]; out "o2"; JObj [("name", JStr "n1")]].
Proof. reflexivity. Qed.

(** The application of the example with [o1] as its own id: its node takes
    the id, and the only output node it gets is [o2]. *)
Lemma two_outputs_counterexample : ~ two_outputs_always repr_unused.
Proof.
  intros Hclaim.
  specialize (Hclaim (JStr "tech") example_app_o1_fields
                [("id", JStr "in-1"); ("outputs", JArr [out "o1"; out "o2"])]
                [("id", JStr "o1")] [("id", JStr "o1")] [("id", JStr "o2")]
                empty_state example_app_o1_state
                eq_refl eq_refl eq_refl eq_refl eq_refl eq_refl eq_refl).
  vm_compute in Hclaim. discriminate Hclaim.
Qed.

(** C2, amended: the output nodes that the builder emits for an
    application all come from the concatenation of the application's own
    [outputs] array and the outputs nested in its input fragments,
    deduplicated by id (the first occurrence of each non-empty id is kept,
    entries without an id are all kept); and an application with outputs
    [[{id: o1}]] and one input whose nested outputs are
    [[{id: o1}, {id: o2}]] gets exactly the two output nodes [o1] and [o2],
    once each, when its own id and its input's id can be dict keys and
    neither [o1] nor [o2] is the id of a node emitted before, the
    application's and the input's included. *)
Theorem application_outputs_deduplicated (repr_container : json -> string) :
  (forall technique_id a st st',
      add_application repr_container technique_id st (JObj a) = Ok st' ->
      exists input_items standalone has_app_children input_nodes output_nodes,
        iterate (get a "inputs" (JArr [])) = Ok input_items /\
        get a "outputs" (JArr []) = JArr standalone /\
        unique_outputs_of (standalone ++ nested_outputs_of input_items) =
          Ok (dedup_by_id (standalone ++ nested_outputs_of input_items)) /\
        nodes st' =
          nodes st ++
          app_node_of technique_id
            (get a "id" (synth_id repr_container technique_id "app"
                           (List.length (nodes st))))
            a has_app_children
          :: input_nodes ++ output_nodes /\
        Forall (fun n => node_type_of n = T_input) input_nodes /\
        Forall (fun n =>
                  node_type_of n = T_output /\
                  exists output_idx o,
                    nth_error
                      (dedup_by_id (standalone ++ nested_outputs_of input_items))
                      output_idx = Some (JObj o) /\
                    n = output_node_of repr_container
                          (get a "id" (synth_id repr_container technique_id "app"
                                         (List.length (nodes st))))
                          output_idx o)
          output_nodes) /\
  (forall technique_id a i oa ob oc st,
      let app_id :=
        get a "id" (synth_id repr_container technique_id "app"
                      (List.length (nodes st))) in
      let input_id :=
        get i "id" (synth_id repr_container app_id "input"
                      (S (List.length (nodes st)))) in
      get a "outputs" (JArr []) = JArr [JObj oa] ->
      get a "inputs" (JArr []) = JArr [JObj i] ->
      dict_get "outputs" i = Some (JArr [JObj ob; JObj oc]) ->
      dict_get "id" oa = Some (JStr "o1") ->
      dict_get "id" ob = Some (JStr "o1") ->
      dict_get "id" oc = Some (JStr "o2") ->
      hashable app_id = true -> hashable input_id = true ->
      (forall k, In k [JStr "o1"; JStr "o2"] ->
         map_has k (node_map st) = false /\
         key_eq k app_id = false /\ key_eq k input_id = false) ->
      exists st',
        add_application repr_container technique_id st (JObj a) = Ok st' /\
        nodes st' = nodes st ++
          [app_node_of technique_id app_id a true;
           input_node_of repr_container app_id (S (List.length (nodes st))) i;
           output_node_of repr_container app_id 0 oa;
           output_node_of repr_container app_id 1 oc] /\
        node_id (output_node_of repr_container app_id 0 oa) = JStr "o1" /\
        node_id (output_node_of repr_container app_id 1 oc) = JStr "o2").
Proof.
  split.
  - intros technique_id a st st' H.
    destruct (add_application_nodes _ _ _ _ H)
      as (input_items & standalone & has & input_nodes & output_nodes
          & Hi & Ho & Hn & Hin & Hout).
    exists input_items, standalone, has, input_nodes, output_nodes.
    repeat split; auto.
    simpl in H. rewrite Hi, Ho in H. simpl in H.
    destruct (unique_outputs_of _) as [unique | e] eqn:Eu; [ | discriminate ].
    now rewrite (unique_outputs_refines _ Eu).
  - intros. eapply example_outputs; eauto.
Qed.

Lemma application_outputs_deduplicated_witness :
  add_application repr_unused (JStr "tech") empty_state example_app
    = Ok example_app_state /\
  map node_id (nodes example_app_state) =
    [JStr "app-1"; JStr "in-1"; JStr "o1"; JStr "o2"].
Proof.
  assert (H : add_application repr_unused (JStr "tech") empty_state example_app
              = Ok example_app_state) by reflexivity.
  split; [ exact H | ].
  destruct (application_outputs_deduplicated repr_unused) as [Hfrom Hexample].
  destruct (Hfrom _ _ _ _ H) as (_ & _ & _ & _ & _ & _ & _ & _ & _ & _ & _).
  destruct (Hexample (JStr "tech") example_app_fields
              [("id", JStr "in-1"); ("outputs", JArr [out "o1"; out "o2"])]
              [("id", JStr "o1")] [("id", JStr "o1")] [("id", JStr "o2")]
              empty_state)
    as (st' & Hst & Hnodes & _);
    [ reflexivity | reflexivity | reflexivity | reflexivity | reflexivity
    | reflexivity | reflexivity | reflexivity | | ].
  - intros k [<- | [<- | []]]; repeat split; reflexivity.
  - change (JObj example_app_fields) with example_app in Hst.
    rewrite H in Hst. injection Hst as <-. rewrite Hnodes. reflexivity.
Defined.

Lemma nonempty_true {A} (l : list A) : nonempty l = true <-> l <> [].
Proof. destruct l; simpl; split; intros; congruence. Qed.

(** With no component at all the root node is expandable all the same. *)
Lemma root_expandable_counterexample :
  ~ root_expandable_iff_components repr_unused DEFAULT_ROOT_DATA [] [].
Proof.
  intros Hclaim.
  destruct (Hclaim root_only_graph
              (root_node_of (JStr "ai-alignment") (JStr "AI Alignment")
                 (JStr "Methods to ensure AI systems remain aligned with human values and intentions.")
                 []) eq_refl eq_refl) as [Hne _].
  now apply Hne.
Qed.

(** C4, amended: the root node is always emitted with [expandable] true,
    whatever the components mapping; it is its [has_children] that is true
    exactly when the components mapping is non-empty. *)
Theorem root_expandable_always (repr_container : json -> string)
  (root_data : json) (components subcomponents : dict json) (g : graph) :
  build_graph repr_container root_data components subcomponents = Ok g ->
  exists root_node rest,
    graph_nodes g = root_node :: rest /\
    node_level root_node = 0 /\
    node_expandable root_node = true /\
    (node_has_children root_node = true <-> components <> []).
Proof.
  intros H.
  destruct (built_flags _ _ _ _ H) as (r & rest & Hg & _ & _ & Hl & He & Hc & _).
  exists r, rest. repeat split; auto; rewrite Hc; apply nonempty_true.
Qed.

Lemma root_expandable_always_witness :
  build_graph repr_unused DEFAULT_ROOT_DATA [] [] = Ok root_only_graph /\
  exists root_node rest,
    graph_nodes root_only_graph = root_node :: rest /\
    node_expandable root_node = true.
Proof.
  assert (H : build_graph repr_unused DEFAULT_ROOT_DATA [] [] = Ok root_only_graph)
    by reflexivity.
  split; [ exact H | ].
  destruct (root_expandable_always _ _ _ _ H) as (r & rest & Hg & _ & He & _).
  exists r, rest. split; [ exact Hg | exact He ].
Defined.

(** With no component the root node has [has_children] false and
    [expandable] true. *)
Lemma flags_agree_counterexample :
  ~ flags_agree_on_all_nodes repr_unused DEFAULT_ROOT_DATA [] [].
Proof.
  intros Hclaim.
  specialize (Hclaim root_only_graph
                (root_node_of (JStr "ai-alignment") (JStr "AI Alignment")
                   (JStr "Methods to ensure AI systems remain aligned with human values and intentions.")
                   []) eq_refl).
  simpl in Hclaim. discriminate Hclaim. now left.
Qed.

(** C5, amended: on every node after the root [has_children] equals
    [expandable]; on the root node [expandable] is true and [has_children]
    tells whether there are components, so the two agree exactly when the
    components mapping is non-empty. *)
Theorem flags_agree_below_root (repr_container : json -> string)
  (root_data : json) (components subcomponents : dict json) (g : graph) :
  build_graph repr_container root_data components subcomponents = Ok g ->
  exists root_node rest,
    graph_nodes g = root_node :: rest /\
    Forall (fun n => node_has_children n = node_expandable n) rest /\
    node_expandable root_node = true /\
    node_has_children root_node = nonempty components /\
    (node_has_children root_node = node_expandable root_node <-> components <> []).
Proof.
  intros H.
  destruct (built_flags _ _ _ _ H) as (r & rest & Hg & _ & _ & _ & He & Hc & Hall).
  exists r, rest. repeat split; auto; rewrite Hc, He; apply nonempty_true.
Qed.

Lemma flags_agree_below_root_witness :
  build_graph repr_unused DEFAULT_ROOT_DATA example_components
    example_subcomponents = Ok example_graph /\
  Forall (fun n => node_has_children n = node_expandable n)
    (List.tl (graph_nodes example_graph)).
Proof.
  assert (H : build_graph repr_unused DEFAULT_ROOT_DATA example_components
                example_subcomponents = Ok example_graph) by reflexivity.
  split; [ exact H | ].
  destruct (flags_agree_below_root _ _ _ _ H) as (r & rest & Hg & Hall & _).
  rewrite Hg. exact Hall.
Defined.

(** ** The claims on the resolver *)

(** A components file and a subcomponents file of the same name: the id
    resolves to the component document. *)
Lemma subcomponent_key_counterexample :
  ~ subcomponent_key_resolves_to_it DEFAULT_ROOT_DATA clash_components
      clash_subcomponents "shared".
Proof.
  intros Hclaim. specialize (Hclaim _ eq_refl). discriminate Hclaim.
Qed.

(** C7, amended: when the root document is not empty and has an id, a node
    id that is a key of the subcomponents mapping, whose document there is
    an object, and that is neither ["ai-alignment"], nor the root
    document's id, nor a key of the components mapping, resolves to that
    subcomponent document verbatim with status 200, whatever the nested
    search would do (it is not consulted).  An id that is also a
    component's resolves to the component; a subcomponent document that is
    not an object gives, with status 500, the error body that names the
    type of the document.  When the root document cannot give its id (it
    has none, or is not an object), an id other than ["ai-alignment"]
    raises before any mapping is looked at. *)
Theorem subcomponent_before_nested_search
  (search : string -> dict json -> result (option json))
  (root_data : json) (components subcomponents : dict json) (node_id : string) :
  truthy root_data = true ->
  node_id <> "ai-alignment" ->
  (forall root_id,
      subscript root_data "id" = Ok root_id ->
      eq_str root_id node_id = false ->
      (forall fields,
          dict_get node_id components = None ->
          dict_get node_id subcomponents = Some (JObj fields) ->
          node_details_with search root_data components subcomponents node_id
            = Ok (JObj fields, 200)) /\
      (forall component,
          dict_get node_id components = Some component ->
          node_details_with search root_data components subcomponents node_id
            = Ok (component, 200)) /\
      (forall subcomp_data,
          dict_get node_id components = None ->
          dict_get node_id subcomponents = Some subcomp_data ->
          is_object subcomp_data = false ->
          node_details_with search root_data components subcomponents node_id
            = Ok (subcomponent_error_body node_id subcomp_data, 500))) /\
  (forall e,
      subscript root_data "id" = Raise e ->
      node_details_with search root_data components subcomponents node_id
        = Raise e).
Proof.
  intros Ht Hne. apply String.eqb_neq in Hne.
  unfold node_details_with. rewrite Ht, Hne. simpl. split.
  - intros root_id Hid Hroot. rewrite Hid. simpl. rewrite Hroot.
    split; [ | split ].
    + intros fields Hc Hs. now rewrite Hc, Hs.
    + intros component Hc. now rewrite Hc.
    + intros subcomp_data Hc Hs Hobj. rewrite Hc, Hs.
      destruct subcomp_data; try discriminate; reflexivity.
  - intros e He. now rewrite He.
Qed.

Lemma subcomponent_before_nested_search_witness :
  find_nested_node "sub" shadowing_subcomponents
    = Ok (Some (JObj [("id", JStr "sub"); ("name", JStr "deeper")])) /\
  node_details DEFAULT_ROOT_DATA [] shadowing_subcomponents "sub"
    = Ok (JObj [("id", JStr "sub");
                ("capabilities", JArr [JObj [("id", JStr "other")]])], 200) /\
  node_details root_without_id [] shadowing_subcomponents "sub" = Raise KeyError.
Proof.
  split; [ reflexivity | ].
  assert (Hne : "sub" <> "ai-alignment") by discriminate.
  split.
  - destruct (@subcomponent_before_nested_search find_nested_node
                DEFAULT_ROOT_DATA [] shadowing_subcomponents "sub" eq_refl Hne)
      as (Hid & _).
    destruct (Hid (JStr "ai-alignment") eq_refl eq_refl) as (Hsub & _ & _).
    exact (Hsub _ eq_refl eq_refl).
  - destruct (@subcomponent_before_nested_search find_nested_node
                root_without_id [] shadowing_subcomponents "sub" eq_refl Hne)
      as (_ & Hraise).
    exact (Hraise KeyError eq_refl).
Defined.

(** C10: there is a document set whose built graph has an output node,
    declared with an explicit id only inside an input's [outputs], that
    the resolver reports as not found with status 404; the nested search
    looks at the application's own [inputs] and [outputs] only. *)
Theorem nested_output_node_not_resolvable (repr_container : json -> string) :
  exists root_data components subcomponents g n,
    build_graph repr_container root_data components subcomponents = Ok g /\
    In n (graph_nodes g) /\
    node_type_of n = T_output /\
    node_id n = JStr "o2" /\
    find_nested_node "o2" subcomponents = Ok None /\
    node_details root_data components subcomponents "o2"
      = Ok (error_body "Node not found: o2" "o2" "Unknown Node"
              "Node details not found" "unknown", 404).
Proof.
  exists DEFAULT_ROOT_DATA, example_components, example_subcomponents,
    example_graph,
    (output_node_of repr_unused (JStr "app-1") 1 [("id", JStr "o2")]).
  split; [ vm_compute; reflexivity | ].
  split; [ vm_compute; repeat (first [ left; reflexivity | right ]) | ].
  repeat split; vm_compute; reflexivity.
Qed.

(** ** The claims on the document store *)

Section StoreFacts.

Variable json_loads : text -> result json.

Lemma try_encoding_total (f : file) (enc : encoding) :
  exists r, try_encoding json_loads f enc = Ok r.
Proof.
  unfold try_encoding. destruct (bind _ _) as [r | e]; simpl; eauto.
Qed.

Lemma try_encoding_fails (f : file) (enc : encoding) :
  encoding_fails json_loads f enc -> try_encoding json_loads f enc = Ok None.
Proof.
  intros H. unfold try_encoding.
  destruct H as [ e Hr | raw Hr He | raw Hr Hb Hk | raw e Hr Hj ];
    rewrite Hr; simpl; auto.
  - now rewrite He.
  - fold (cleaned raw). rewrite Hb, Hk. simpl.
    now destruct (nonempty (strip raw)).
  - fold (cleaned raw). rewrite Hj.
    destruct (nonempty (strip raw)); simpl; auto.
    destruct (negb _ && negb _); simpl; auto.
    now destruct e.
Qed.

Lemma try_encodings_fail (f : file) (encs : list encoding) :
  (forall enc, In enc encs -> encoding_fails json_loads f enc) ->
  try_encodings json_loads f encs = Ok None.
Proof.
  induction encs as [ | enc encs IH ]; simpl; intros H; auto.
  rewrite try_encoding_fails by (apply H; now left). simpl.
  apply IH. intros; apply H; now right.
Qed.

Lemma load_json_file_total (p : path_entry) :
  exists r, load_json_file json_loads p = Ok r.
Proof.
  unfold load_json_file. destruct (match p with None => _ | Some f => _ end);
    simpl; eauto.
Qed.

Lemma load_fails_none (p : path_entry) :
  load_fails json_loads p -> load_json_file json_loads p = Ok None.
Proof.
  intros [ | f H ]; unfold load_json_file; [ reflexivity | ].
  now rewrite (try_encodings_fail _ H).
Qed.

(** A file that does not load is skipped by both directory loops. *)
Lemma load_subcomponent_skips (subcomponents : dict json)
  (entry : string * path_entry) :
  load_fails json_loads (snd entry) ->
  load_subcomponent json_loads subcomponents entry = Ok subcomponents.
Proof.
  intros H. unfold load_subcomponent. now rewrite (load_fails_none H).
Qed.

End StoreFacts.

(** C8: when the root document fails to load (the file is missing, or no
    encoding yields valid JSON, empty content included, or the document
    loaded is empty), [get_root_data] returns the built-in default root
    document, whose id is ["ai-alignment"] and whose [components] list has
    exactly 4 entries; and [get_root_data] never raises. *)
Theorem root_falls_back_to_default (json_loads : text -> result json)
  (fs : filesystem) :
  (load_fails json_loads (ROOT_JSON_FILE fs) ->
   get_root_data json_loads fs = Ok DEFAULT_ROOT_DATA) /\
  (forall d,
      load_json_file json_loads (ROOT_JSON_FILE fs) = Ok (Some d) ->
      truthy d = false ->
      get_root_data json_loads fs = Ok DEFAULT_ROOT_DATA) /\
  subscript DEFAULT_ROOT_DATA "id" = Ok (JStr "ai-alignment") /\
  (exists components,
      subscript DEFAULT_ROOT_DATA "components" = Ok (JArr components) /\
      List.length components = 4) /\
  (exists root_data, get_root_data json_loads fs = Ok root_data).
Proof.
  repeat split.
  - intros H. unfold get_root_data. now rewrite (load_fails_none H).
  - intros d Hd Ht. unfold get_root_data. rewrite Hd. simpl. now rewrite Ht.
  - eexists. split; reflexivity.
  - unfold get_root_data.
    destruct (load_json_file_total json_loads (ROOT_JSON_FILE fs)) as [r ->].
    simpl. destruct r as [d | ]; [ destruct (truthy d) | ]; eauto.
Qed.

Lemma root_falls_back_to_default_witness :
  load_fails json_loads_nothing (ROOT_JSON_FILE empty_store) /\
  get_root_data json_loads_nothing empty_store = Ok DEFAULT_ROOT_DATA /\
  load_fails json_loads_nothing (ROOT_JSON_FILE blank_root_store) /\
  get_root_data json_loads_nothing blank_root_store = Ok DEFAULT_ROOT_DATA.
Proof.
  assert (H1 : load_fails json_loads_nothing (ROOT_JSON_FILE empty_store))
    by constructor.
  assert (H2 : load_fails json_loads_nothing (ROOT_JSON_FILE blank_root_store)).
  { simpl. constructor. intros enc _.
    apply empty_content with (raw := [32; 10]%N); reflexivity. }
  split; [ exact H1 | ].
  split; [ exact (proj1 (root_falls_back_to_default _ _) H1) | ].
  split; [ exact H2 | ].
  exact (proj1 (root_falls_back_to_default _ _) H2).
Defined.

(** C9 fails on the code: with a good file and a file that holds a
    top-level array, the id injection raises [TypeError] on the array; the
    loader of app.py then returns the empty mapping, and the loader of
    node_details_helper.py raises, so the good file's entry is lost, while
    alone the good file gives its entry. *)
Theorem array_file_loses_the_batch (json_loads : text -> result json) :
  json_loads text_object = Ok (JObj [("a", JNum 1)]) ->
  json_loads text_array = Ok (JArr [JNum 1]) ->
  App.get_subcomponents json_loads two_files_store = Ok [] /\
  Helper.get_subcomponents json_loads two_files_store = Raise TypeError /\
  App.get_subcomponents json_loads good_file_store
    = Ok [("good", JObj [("a", JNum 1); ("id", JStr "good")])].
Proof.
  unfold text_object, text_array. intros Ho Ha.
  unfold App.get_subcomponents, Helper.get_subcomponents.
  cbv. rewrite Ho. cbv. rewrite Ha.
  repeat split.
Qed.

Lemma array_file_loses_the_batch_witness :
  json_loads_two text_object = Ok (JObj [("a", JNum 1)]) /\
  json_loads_two text_array = Ok (JArr [JNum 1]) /\
  App.get_subcomponents json_loads_two two_files_store = Ok [] /\
  Helper.get_subcomponents json_loads_two two_files_store = Raise TypeError.
Proof.
  destruct (array_file_loses_the_batch json_loads_two eq_refl eq_refl)
    as (Happ & Hhelper & _).
  repeat split; assumption.
Defined.

(** An entry of a child array that is not an object is skipped at every
    level: the state stays as it is. *)
Lemma non_object_skipped (repr_container : json -> string) (parent_id v : json)
  (st : state) (output_idx : nat) :
  is_object v = false ->
  add_capability repr_container parent_id st v = Ok st /\
  add_function repr_container parent_id st v = Ok st /\
  add_specification repr_container parent_id st v = Ok st /\
  add_integration repr_container parent_id st v = Ok st /\
  add_technique repr_container parent_id st v = Ok st /\
  add_application repr_container parent_id st v = Ok st /\
  add_input repr_container parent_id st v = Ok st /\
  add_output repr_container parent_id st (output_idx, v) = Ok st.
Proof. destruct v; try discriminate; repeat split. Qed.

(** A component document without ["name"] aborts the build. *)
Lemma build_aborts_counterexample :
  ~ build_never_aborts repr_unused DEFAULT_ROOT_DATA nameless_components [].
Proof. intros [g H]. discriminate H. Qed.

Example missing_fields_evaluated (repr_container : json -> string) :
  build_graph repr_container
    (JObj [("id", JStr "root"); ("description", JStr "no name")]) [] []
    = Raise KeyError /\
  build_graph repr_container
    (JObj [("id", JStr "root"); ("name", JStr "no description")]) [] []
    = Raise KeyError /\
  (exists g,
      build_graph repr_container DEFAULT_ROOT_DATA
        [("c1", JObj [("name", JStr "no description")])]
        [("s1", JObj [("parent", JStr "c1");
                      ("capabilities", JArr [JNum 1; JStr "x"; JNull])])]
      = Ok g /\
      map node_id (graph_nodes g) = [JStr "ai-alignment"; JStr "c1"; JStr "s1"]).
Proof.
  repeat split. eexists. split; reflexivity.
Qed.

(** * The shape of a built graph *)

Lemma emits_trans (k : nat) (a b c : state) :
  emits k a b -> emits k b c -> emits k a c.
Proof. induction 1; intros; auto. eapply emits_step; eauto. Qed.

Lemma emits_weaken (k k' : nat) (a b : state) :
  k' <= k -> emits k a b -> emits k' a b.
Proof.
  intros Hk. induction 1; [ constructor | ].
  eapply emits_step; eauto. lia.
Qed.

Lemma push_parent_at (p : json) (lvl : nat) (n : node) (l : link) (st : state) :
  parent_at p lvl st -> parent_at p lvl (push n l st).
Proof.
  intros (m & Hm & Hid & Hl). exists m. simpl. rewrite in_app_iff. auto.
Qed.

Lemma emits_parent_at (k : nat) (p : json) (lvl : nat) (a b : state) :
  emits k a b -> parent_at p lvl a -> parent_at p lvl b.
Proof. induction 1; auto using push_parent_at. Qed.

Lemma push_is_parent (n : node) (l : link) (st : state) :
  parent_at (node_id n) (node_level n) (push n l st).
Proof. exists n. simpl. rewrite in_app_iff. simpl. auto. Qed.

Lemma foreach_emits {A} (k : nat) (p : json) (lvl : nat)
  (body : state -> A -> result state) :
  (forall st x st', parent_at p lvl st -> body st x = Ok st' -> emits k st st') ->
  forall l st st', parent_at p lvl st -> foreach body l st = Ok st' -> emits k st st'.
Proof.
  intros Hbody. induction l as [ | x l IH ]; simpl; intros st st' Hp H.
  - injection H as <-. constructor.
  - ok_inv H. pose proof (Hbody _ _ _ Hp E) as R.
    eapply emits_trans; [ exact R | ].
    eapply IH; [ | exact H ]. eapply emits_parent_at; eauto.
Qed.

(** A successful [emit] is a [push]. *)
Lemma emit_push (n : node) (l : link) (st st' : state) :
  emit n l st = Ok st' -> hashable (node_id n) = true /\ st' = push n l st.
Proof. intros H. apply emit_ok in H. exact H. Qed.

Section BuilderEmits.

Variable repr_container : json -> string.

(** The facts of a node literal of the builder are read off the literal. *)
Ltac literal_facts Hh :=
  constructor; simpl; try reflexivity; try discriminate; try exact Hh;
  try (intros; split; reflexivity).

(** One [emit] whose parent is known to be one level up, then the rest. *)
Ltac emitting E Hp :=
  let Hh := fresh "Hh" in
  match type of E with
  | emit ?nd ?lk _ = Ok _ =>
      apply emit_push in E; destruct E as [Hh ->];
      apply emits_step with (n := nd) (l := lk);
      [ literal_facts Hh
      | simpl; lia
      | eexists; split; [ exact Hp | reflexivity ]
      | ]
  end.

Ltac skipping H := injection H as <-; constructor.

Lemma add_output_emits (app_id : json) (st st' : state) (entry : nat * json) :
  parent_at app_id 8 st ->
  add_output repr_container app_id st entry = Ok st' -> emits 9 st st'.
Proof.
  intros Hp H. destruct entry as [output_idx output_item].
  destruct output_item; simpl in H; try solve [ skipping H ].
  ok_inv H. destruct a; [ skipping H | ].
  emitting H Hp. constructor.
Qed.

Lemma add_input_emits (app_id : json) (st st' : state) (input_item : json) :
  parent_at app_id 8 st ->
  add_input repr_container app_id st input_item = Ok st' -> emits 9 st st'.
Proof.
  intros Hp H. destruct input_item; simpl in H; try solve [ skipping H ].
  emitting H Hp. constructor.
Qed.

Lemma add_application_emits (technique_id : json) (st st' : state) (app : json) :
  parent_at technique_id 7 st ->
  add_application repr_container technique_id st app = Ok st' -> emits 8 st st'.
Proof.
  intros Hp H. destruct app; simpl in H; try solve [ skipping H ].
  ok_inv H. rename a into input_items, E into Ei.
  ok_inv H. rename a into outputs, E into Eo.
  ok_inv H. rename a into unique, E into Eu.
  ok_inv H. rename a into st1, E into E1.
  ok_inv H. rename a into st2, E into E2.
  emitting E1 Hp.
  apply emits_weaken with (k := 9); [ lia | ].
  match type of E2 with
  | foreach _ _ (push ?nd ?lk ?s) = _ =>
      pose proof (push_is_parent nd lk s) as Hin
  end.
  cbn [node_id node_level app_node_of] in Hin.
  match type of E2 with
  | foreach _ _ ?s0 = _ => assert (R2 : emits 9 s0 st2)
  end.
  { eapply foreach_emits; [ | exact Hin | exact E2 ].
    intros; eapply add_input_emits; eauto. }
  eapply emits_trans; [ exact R2 | ].
  eapply foreach_emits; [ | | exact H ].
  - intros; eapply add_output_emits; eauto.
  - eapply emits_parent_at; eauto.
Qed.

(** The middle levels: one [emit], then the loop over the children. *)
Ltac emit_loop H Hp lvl child :=
  let st1 := fresh "st1" in
  let E1 := fresh "E1" in
  let items := fresh "items" in
  let Ei := fresh "Ei" in
  ok_inv H; rename a into st1, E into E1;
  ok_inv H; rename a into items, E into Ei;
  emitting E1 Hp;
  apply emits_weaken with (k := S lvl); [ lia | ];
  eapply foreach_emits;
  [ intros; eapply child; eauto
  | match goal with
    | |- parent_at _ _ (push ?nd ?lk ?s) => exact (push_is_parent nd lk s)
    end
  | exact H ].

Lemma add_technique_emits (integration_id : json) (st st' : state) (technique : json) :
  parent_at integration_id 6 st ->
  add_technique repr_container integration_id st technique = Ok st' -> emits 7 st st'.
Proof.
  intros Hp H. destruct technique; simpl in H; try solve [ skipping H ].
  emit_loop H Hp 7 add_application_emits.
Qed.

Lemma add_integration_emits (spec_id : json) (st st' : state) (integration : json) :
  parent_at spec_id 5 st ->
  add_integration repr_container spec_id st integration = Ok st' -> emits 6 st st'.
Proof.
  intros Hp H. destruct integration; simpl in H; try solve [ skipping H ].
  destruct fields; [ skipping H | ].
  emit_loop H Hp 6 add_technique_emits.
Qed.

Lemma add_specification_emits (function_id : json) (st st' : state) (spec : json) :
  parent_at function_id 4 st ->
  add_specification repr_container function_id st spec = Ok st' -> emits 5 st st'.
Proof.
  intros Hp H. destruct spec; simpl in H; try solve [ skipping H ].
  ok_inv H. rename a into st1, E into E1.
  emitting E1 Hp.
  apply emits_weaken with (k := 6); [ lia | ].
  eapply add_integration_emits; [ | exact H ].
  match goal with
  | |- parent_at _ _ (push ?nd ?lk ?s) => exact (push_is_parent nd lk s)
  end.
Qed.

Lemma add_function_emits (capability_id : json) (st st' : state) (function : json) :
  parent_at capability_id 3 st ->
  add_function repr_container capability_id st function = Ok st' -> emits 4 st st'.
Proof.
  intros Hp H. destruct function; simpl in H; try solve [ skipping H ].
  emit_loop H Hp 4 add_specification_emits.
Qed.

Lemma add_capability_emits (subcomp_id : json) (st st' : state) (capability : json) :
  parent_at subcomp_id 2 st ->
  add_capability repr_container subcomp_id st capability = Ok st' -> emits 3 st st'.
Proof.
  intros Hp H. destruct capability; simpl in H; try solve [ skipping H ].
  emit_loop H Hp 3 add_function_emits.
Qed.

End BuilderEmits.

(** ** What a sequence of appends keeps *)

Lemma emits_shape (k : nat) (a b : state) :
  emits k a b ->
  exists ns ls,
    nodes b = nodes a ++ ns /\ links b = links a ++ ls /\
    Forall2 node_facts ns ls /\
    Forall (fun n => k <= node_level n) ns.
Proof.
  induction 1 as [ st | st st' n l Hf Hk Hp _ (ns & ls & Hn & Hl & Hfs & Hks) ].
  - exists [], []. rewrite !app_nil_r. auto.
  - exists (n :: ns), (l :: ls). simpl in Hn, Hl.
    rewrite Hn, Hl, <- !app_assoc. auto.
Qed.

Lemma emits_parents_up (k : nat) (a b : state) :
  emits k a b -> parents_one_level_up (nodes a) -> parents_one_level_up (nodes b).
Proof.
  induction 1 as [ | st st' n l Hf Hk (lvl & (m & Hm & Hid & Hlm) & Hlvl) _ IH ]; auto.
  intros Hinv. apply IH. simpl. intros i x Hx Hi.
  apply nth_error_snoc in Hx. destruct Hx as [[Hlt Hx] | [-> ->]].
  - destruct (Hinv i x Hx Hi) as (j & y & Hj & Hy & Hp & Hl).
    exists j, y. repeat split; auto. rewrite nth_error_app1; [ exact Hy | lia ].
  - apply In_nth_error in Hm. destruct Hm as [j Hj].
    assert (j < List.length (nodes st)) by (apply nth_error_Some; congruence).
    exists j, m. repeat split; auto.
    + rewrite nth_error_app1; auto.
    + rewrite (nf_parent Hf). congruence.
    + congruence.
Qed.

Lemma type_eqb_depth (a b : node_type) :
  type_eqb a b = true -> depth_of a = depth_of b.
Proof.
  unfold type_eqb. intros H. apply andb_true_iff in H. destruct H as [H _].
  now apply Nat.eqb_eq in H.
Qed.

Lemma nodes_of_type_app (t : node_type) (a b : list node) :
  nodes_of_type t (a ++ b) = nodes_of_type t a ++ nodes_of_type t b.
Proof. unfold nodes_of_type. now rewrite filter_app. Qed.

(** Nodes of deeper levels are not of the type. *)
Lemma nodes_of_type_deeper (t : node_type) (k : nat) (ns : list node) (ls : list link) :
  Forall2 node_facts ns ls -> Forall (fun n => k <= node_level n) ns ->
  depth_of t < k -> nodes_of_type t ns = [].
Proof.
  unfold nodes_of_type. induction 1 as [ | n l ns ls Hf _ IH ]; intros Hk Ht; auto.
  inversion Hk as [ | ? ? Hn Hks ]; subst. simpl.
  destruct (type_eqb (node_type_of n) t) eqn:E; [ | now apply IH ].
  apply type_eqb_depth in E. rewrite <- (nf_level Hf) in E. lia.
Qed.

Lemma emits_nodes_of_type (t : node_type) (k : nat) (a b : state) :
  emits k a b -> depth_of t < k ->
  nodes_of_type t (nodes b) = nodes_of_type t (nodes a).
Proof.
  intros H Ht. destruct (emits_shape H) as (ns & ls & -> & _ & Hf & Hk).
  rewrite nodes_of_type_app, (nodes_of_type_deeper t Hf Hk Ht). apply app_nil_r.
Qed.

Lemma nonempty_map {A B} (f : A -> B) (l : list A) :
  nonempty (map f l) = nonempty l.
Proof. now destruct l. Qed.

Lemma Forall2_nth_error {A B} (R : A -> B -> Prop) (xs : list A) (ys : list B) :
  Forall2 R xs ys ->
  forall i x y, nth_error xs i = Some x -> nth_error ys i = Some y -> R x y.
Proof.
  induction 1 as [ | x0 y0 xs ys H0 _ IH ]; intros [ | i ] x y Hx Hy;
    simpl in *; try discriminate.
  - injection Hx as <-. injection Hy as <-. exact H0.
  - eapply IH; eauto.
Qed.

Lemma Forall2_left {A B} (R : A -> B -> Prop) (P : A -> Prop)
  (xs : list A) (ys : list B) :
  (forall x y, R x y -> P x) -> Forall2 R xs ys -> Forall P xs.
Proof. intros HR. induction 1; constructor; eauto. Qed.

Section TopLevels.

Variable repr_container : json -> string.

(** A subcomponent: its node, then nodes of level 3 and more. *)
Lemma add_subcomponent_shape (component_id : string) (st st' : state)
  (entry : string * json) :
  parent_at (JStr component_id) 1 st ->
  add_subcomponent repr_container component_id st entry = Ok st' ->
  exists n l,
    node_id n = JStr (fst entry) /\ node_type_of n = T_subcomponent /\
    node_facts n l /\ link_source l = JStr component_id /\
    emits 3 (push n l st) st'.
Proof.
  intros Hp H. destruct entry as [subcomp_id subcomp]. unfold add_subcomponent in H.
  ok_inv H. rename a into capabilities, E into Ec.
  ok_inv H. rename a into subcomp_name, E into En.
  ok_inv H. rename a into subcomp_description, E into Ed.
  ok_inv H. rename a into st1, E into E1.
  ok_inv H. rename a into caps, E into Ei.
  match type of E1 with
  | emit ?nd ?lk _ = Ok _ =>
      apply emit_push in E1; destruct E1 as [Hh ->]; exists nd, lk
  end.
  repeat split; simpl; try reflexivity; try discriminate.
  eapply foreach_emits; [ | | exact H ].
  - intros; eapply add_capability_emits; eauto.
  - match goal with
    | |- parent_at _ _ (push ?nd ?lk ?s) => exact (push_is_parent nd lk s)
    end.
Qed.

Lemma add_subcomponent_emits (component_id : string) (st st' : state)
  (entry : string * json) :
  parent_at (JStr component_id) 1 st ->
  add_subcomponent repr_container component_id st entry = Ok st' ->
  emits 2 st st'.
Proof.
  intros Hp H.
  destruct (add_subcomponent_shape _ Hp H) as (n & l & Hid & Ht & Hf & Hs & Hr).
  apply emits_step with (n := n) (l := l); auto.
  - rewrite (nf_level Hf), Ht. simpl. lia.
  - exists 1. rewrite Hs. split; [ exact Hp | ].
    rewrite (nf_level Hf), Ht. reflexivity.
  - apply emits_weaken with (k := 3); [ lia | exact Hr ].
Qed.

(** The subcomponent nodes that the loop over the attached subcomponents
    appends are those of the attached keys, in order, under the component. *)
Lemma add_subcomponents_nodes (component_id : string) (attached : dict json) :
  forall st st',
    parent_at (JStr component_id) 1 st ->
    foreach (add_subcomponent repr_container component_id) attached st = Ok st' ->
    map id_and_parent (nodes_of_type T_subcomponent (nodes st')) =
    map id_and_parent (nodes_of_type T_subcomponent (nodes st))
      ++ map (fun k => (JStr k, Some (JStr component_id))) (keys attached).
Proof.
  induction attached as [ | entry attached IH ]; simpl; intros st st' Hp H.
  - injection H as <-. now rewrite app_nil_r.
  - ok_inv H.
    pose proof (add_subcomponent_emits _ Hp E) as Hem.
    destruct (add_subcomponent_shape _ Hp E) as (n & l & Hid & Ht & Hf & Hs & Hr).
    rewrite (IH a st'); [ | eapply emits_parent_at; [ exact Hem | exact Hp ] | exact H ].
    rewrite (emits_nodes_of_type T_subcomponent Hr) by (simpl; lia).
    simpl. rewrite nodes_of_type_app, map_app, <- app_assoc. f_equal.
    unfold nodes_of_type. simpl. rewrite Ht. simpl.
    unfold id_and_parent. now rewrite Hid, (nf_parent Hf), Hs.
Qed.

(** A component: its node, then the nodes of its subcomponents. *)
Lemma add_component_shape (root_data root_id : json) (subcomponents : dict json)
  (st st' : state) (entry : string * json) :
  subscript root_data "id" = Ok root_id ->
  parent_at root_id 0 st ->
  add_component repr_container root_data subcomponents st entry = Ok st' ->
  exists attached n l,
    component_subcomponents_of (fst entry) subcomponents = Ok attached /\
    node_id n = JStr (fst entry) /\ node_type_of n = T_component /\
    node_expandable n = nonempty attached /\
    node_facts n l /\ link_source l = root_id /\
    emits 2 (push n l st) st' /\
    map id_and_parent (nodes_of_type T_subcomponent (nodes st')) =
      map id_and_parent (nodes_of_type T_subcomponent (nodes st))
        ++ map (fun k => (JStr k, Some (JStr (fst entry)))) (keys attached).
Proof.
  intros Hr Hp H. destruct entry as [component_id component].
  unfold add_component in H. rewrite Hr in H.
  ok_inv H. rename a into attached, E into Ec.
  ok_inv H. rename a into component_name, E into En.
  ok_inv H. rename a into component_description, E into Ed.
  ok_inv H. injection E as <-.
  ok_inv H. rename a into st1, E into E1.
  match type of E1 with
  | emit ?nd ?lk _ = Ok _ =>
      apply emit_push in E1; destruct E1 as [Hh ->]; exists attached, nd, lk
  end.
  assert (Hin : parent_at (JStr component_id) 1
                  (push
                     {| node_id := JStr component_id;
                        node_name := component_name;
                        node_type_of := T_component;
                        node_description := component_description;
                        node_parent := Some root_id;
                        node_level := 1;
                        node_expandable := nonempty attached;
                        node_has_children := nonempty attached |}
                     {| link_source := root_id;
                        link_target := JStr component_id;
                        link_type_of := L_contains |} st))
    by (match goal with
        | |- parent_at _ _ (push ?nd ?lk ?s) => exact (push_is_parent nd lk s)
        end).
  split; [ exact Ec | ].
  repeat split; simpl; try reflexivity; try discriminate.
  - eapply foreach_emits; [ | exact Hin | exact H ].
    intros; eapply add_subcomponent_emits; eauto.
  - rewrite (add_subcomponents_nodes _ Hin H). simpl.
    rewrite nodes_of_type_app. unfold nodes_of_type at 2. simpl.
    now rewrite app_nil_r.
Qed.

Lemma add_component_emits (root_data root_id : json) (subcomponents : dict json)
  (st st' : state) (entry : string * json) :
  subscript root_data "id" = Ok root_id ->
  parent_at root_id 0 st ->
  add_component repr_container root_data subcomponents st entry = Ok st' ->
  emits 1 st st'.
Proof.
  intros Hr Hp H.
  destruct (add_component_shape _ _ _ Hr Hp H)
    as (att & n & l & _ & Hid & Ht & _ & Hf & Hs & Hrest & _).
  apply emits_step with (n := n) (l := l); auto.
  - rewrite (nf_level Hf), Ht. simpl. lia.
  - exists 0. rewrite Hs. split; [ exact Hp | ].
    rewrite (nf_level Hf), Ht. reflexivity.
  - apply emits_weaken with (k := 2); [ lia | exact Hrest ].
Qed.

(** The component and subcomponent nodes that the loop over the components
    appends. *)
Lemma add_components_nodes (root_data root_id : json) (subcomponents : dict json)
  (components : dict json) :
  subscript root_data "id" = Ok root_id ->
  forall st st',
    parent_at root_id 0 st ->
    foreach (add_component repr_container root_data subcomponents) components st
      = Ok st' ->
    map summary (nodes_of_type T_component (nodes st')) =
      map summary (nodes_of_type T_component (nodes st))
        ++ map (component_summary root_id subcomponents) components /\
    map id_and_parent (nodes_of_type T_subcomponent (nodes st')) =
      map id_and_parent (nodes_of_type T_subcomponent (nodes st))
        ++ flat_map (subcomponent_places subcomponents) components /\
    Forall (fun e => exists attached,
                component_subcomponents_of (fst e) subcomponents = Ok attached)
      components.
Proof.
  intros Hr. induction components as [ | entry components IH ]; simpl;
    intros st st' Hp H.
  - injection H as <-. rewrite !app_nil_r. auto.
  - ok_inv H.
    pose proof (add_component_emits _ _ _ Hr Hp E) as Hem.
    destruct (add_component_shape _ _ _ Hr Hp E)
      as (att & n & l & Hatt & Hid & Ht & Hx & Hf & Hs & Hrest & Hsubs).
    destruct (IH a st') as (Hc & Hsc & Hall);
      [ eapply emits_parent_at; [ exact Hem | exact Hp ] | exact H | ].
    split; [ | split ].
    + rewrite Hc. rewrite (emits_nodes_of_type T_component Hrest) by (simpl; lia).
      simpl. rewrite nodes_of_type_app, map_app, <- app_assoc. f_equal.
      unfold nodes_of_type. simpl. rewrite Ht. simpl. f_equal.
      unfold summary, component_summary, attached_keys.
      rewrite Hid, (nf_parent Hf), Hs, Hx, Hatt. unfold keys.
      now rewrite nonempty_map.
    + rewrite Hsc, Hsubs. unfold subcomponent_places at 2, attached_keys.
      rewrite Hatt. now rewrite app_assoc.
    + constructor; eauto.
Qed.

(** A successful build: the root node, then appends of levels 1 to 9. *)
Lemma build_graph_emits (root_data : json) (components subcomponents : dict json)
  (g : graph) :
  build_graph repr_container root_data components subcomponents = Ok g ->
  exists root_id root_name root_description st,
    subscript root_data "id" = Ok root_id /\
    hashable root_id = true /\
    emits 1 (root_state (root_node_of root_id root_name root_description components)) st /\
    g = {| graph_nodes := nodes st; graph_links := links st |} /\
    map summary (nodes_of_type T_component (nodes st)) =
      map (component_summary root_id subcomponents) components /\
    map id_and_parent (nodes_of_type T_subcomponent (nodes st)) =
      flat_map (subcomponent_places subcomponents) components /\
    Forall (fun e => exists attached,
                component_subcomponents_of (fst e) subcomponents = Ok attached)
      components.
Proof.
  unfold build_graph. intros H.
  ok_inv H. rename a into root_id, E into Ei.
  ok_inv H. rename a into root_name, E into En.
  ok_inv H. rename a into root_description, E into Ed.
  ok_inv H. rename a into m, E into Em.
  ok_inv H. rename a into st, E into Es.
  injection H as <-.
  unfold node_map_set in Em. simpl in Em.
  destruct (hashable root_id) eqn:Hh; [ | discriminate ]. injection Em as <-.
  exists root_id, root_name, root_description, st.
  assert (Hp : parent_at root_id 0
                 (root_state (root_node_of root_id root_name root_description
                                components))).
  { eexists. simpl. split; [ left; reflexivity | split; reflexivity ]. }
  destruct (add_components_nodes _ _ _ Ei Hp Es) as (Hc & Hs & Hall).
  repeat split; auto.
  eapply foreach_emits; [ | exact Hp | exact Es ].
  intros; eapply add_component_emits; eauto.
Qed.

(** The ids of the component nodes are the keys of the mapping. *)
Lemma built_component_ids (root_data : json) (components subcomponents : dict json)
  (g : graph) :
  build_graph repr_container root_data components subcomponents = Ok g ->
  ids_of_type T_component (graph_nodes g) = map JStr (keys components).
Proof.
  intros H.
  destruct (build_graph_emits _ _ _ H)
    as (rid & rname & rdesc & st & _ & _ & _ & -> & Hc & _).
  simpl. unfold ids_of_type, keys.
  apply (f_equal (map (fun x => fst (fst x)))) in Hc.
  rewrite !map_map in Hc. simpl in Hc. rewrite map_map. exact Hc.
Qed.

Lemma built_parents_up (root_data : json) (components subcomponents : dict json)
  (g : graph) :
  build_graph repr_container root_data components subcomponents = Ok g ->
  parents_one_level_up (graph_nodes g).
Proof.
  intros H.
  destruct (build_graph_emits _ _ _ H)
    as (rid & rname & rdesc & st & _ & _ & Hem & -> & _).
  simpl. apply (emits_parents_up Hem). simpl.
  intros [ | [ | i ] ] n Hn Hi; simpl in Hn; try discriminate; lia.
Qed.

Lemma built_links_mirror (root_data : json) (components subcomponents : dict json)
  (g : graph) :
  build_graph repr_container root_data components subcomponents = Ok g ->
  links_mirror_nodes (graph_nodes g) (graph_links g).
Proof.
  intros H.
  destruct (build_graph_emits _ _ _ H)
    as (rid & rname & rdesc & st & _ & _ & Hem & -> & _).
  destruct (emits_shape Hem) as (ns & ls & Hn & Hl & Hf & _).
  simpl in *. rewrite Hn, Hl. split.
  - simpl. f_equal. exact (Forall2_length Hf).
  - intros k l n Hk Hnk. simpl in Hnk.
    pose proof (Forall2_nth_error Hf _ Hnk Hk) as Hx.
    split; [ exact (nf_parent Hx) | split; [ exact (nf_target Hx) | exact (nf_link Hx) ] ].
Qed.

End TopLevels.

Lemma keys_dict_set {V} (k k' : string) (v : V) (d : dict V) :
  In k' (keys (dict_set k v d)) <-> k' = k \/ In k' (keys d).
Proof.
  unfold keys. induction d as [ | [k0 v0] d IH ]; simpl.
  - intuition congruence.
  - destruct (String.eqb k k0) eqn:E; simpl.
    + apply String.eqb_eq in E. subst. intuition congruence.
    + rewrite IH. intuition congruence.
Qed.

(** Which subcomponents the comprehension selects. *)
Lemma attached_step_keys (component_id : string) (l : dict json) :
  forall acc attached,
    foreach (attached_step component_id) l acc = Ok attached ->
    forall k, In k (keys attached) <->
              In k (keys acc) \/ exists s, In (k, s) l /\ names_parent s component_id.
Proof.
  induction l as [ | [s_id s] l IH ]; simpl; intros acc attached H k.
  - injection H as <-. split; [ auto | intros [ ? | (? & [] & _) ]; auto ].
  - ok_inv H. rename a into acc', E into Es. rewrite (IH _ _ H k). clear IH H.
    unfold attached_step in Es. ok_inv Es. rename a into has, E into Eh.
    assert (Hno : forall acc0, acc' = acc0 -> ~ names_parent s component_id ->
              (In k (keys acc') \/ (exists s0, In (k, s0) l /\ names_parent s0 component_id)
               <-> In k (keys acc0) \/
                   exists s0, ((s_id, s) = (k, s0) \/ In (k, s0) l) /\
                              names_parent s0 component_id)).
    { intros acc0 -> Hn. split.
      - intros [ ? | (s0 & ? & ?) ]; eauto.
      - intros [ ? | (s0 & [ Heq | ? ] & ?) ]; eauto.
        injection Heq as <- <-. contradiction. }
    destruct has.
    + ok_inv Es. rename a into p, E into Ep.
      destruct (eq_str p component_id) eqn:Eq; injection Es as <-.
      * rewrite keys_dict_set. split.
        -- intros [ [ -> | ? ] | (s0 & ? & ?) ]; eauto.
           right. exists s. split; [ auto | ]. exists p. auto.
        -- intros [ ? | (s0 & [ Heq | ? ] & ?) ]; eauto.
           injection Heq as <- <-. auto.
      * apply Hno; [ reflexivity | ].
        intros (p' & Hp' & Hq). congruence.
    + injection Es as <-. apply Hno; [ reflexivity | ].
      intros (p' & Hp' & Hq). destruct s; simpl in Hp'; try discriminate.
      simpl in Eh. injection Eh as Eh. unfold dict_mem in Eh.
      destruct (dict_get "parent" fields); discriminate.
Qed.

Lemma attached_keys_spec (component_id : string) (subcomponents attached : dict json) :
  component_subcomponents_of component_id subcomponents = Ok attached ->
  forall k, In k (attached_keys component_id subcomponents) <->
            exists s, In (k, s) subcomponents /\ names_parent s component_id.
Proof.
  intros H k. unfold attached_keys. rewrite H.
  rewrite (attached_step_keys _ _ _ H k). simpl. intuition.
Qed.

(** X1: in a built graph the level of every node is the depth of its type
    (0 for the component group, 1 component, 2 subcomponent, 3 capability,
    4 function, 5 specification, 6 integration, 7 technique, 8 application,
    9 input and output); the first node is the only one of type
    [component_group]; a node of level 9 has both flags false. *)
Theorem levels_follow_types (repr_container : json -> string)
  (root_data : json) (components subcomponents : dict json) (g : graph) :
  build_graph repr_container root_data components subcomponents = Ok g ->
  Forall (fun n => node_level n = depth_of (node_type_of n)) (graph_nodes g) /\
  (exists root_node rest,
      graph_nodes g = root_node :: rest /\
      node_type_of root_node = T_component_group /\
      Forall (fun n => node_type_of n <> T_component_group) rest) /\
  Forall (fun n => node_level n = 9 ->
                   node_expandable n = false /\ node_has_children n = false)
    (graph_nodes g).
Proof.
  intros H.
  destruct (build_graph_emits _ _ _ _ H)
    as (rid & rname & rdesc & st & _ & _ & Hem & -> & _).
  destruct (emits_shape Hem) as (ns & ls & Hn & _ & Hf & _).
  simpl in *. rewrite Hn. split; [ | split ].
  - constructor; [ reflexivity | ].
    eapply Forall2_left; [ | exact Hf ]. intros x y Hxy. exact (nf_level Hxy).
  - eexists _, ns. split; [ reflexivity | split; [ reflexivity | ] ].
    eapply Forall2_left; [ | exact Hf ]. intros x y Hxy. exact (nf_type Hxy).
  - constructor; [ simpl; discriminate | ].
    eapply Forall2_left; [ | exact Hf ]. intros x y Hxy. exact (nf_leaf Hxy).
Qed.

Lemma levels_follow_types_witness :
  build_graph repr_unused DEFAULT_ROOT_DATA example_components
    example_subcomponents = Ok example_graph /\
  Forall (fun n => node_level n = depth_of (node_type_of n))
    (graph_nodes example_graph).
Proof.
  assert (H : build_graph repr_unused DEFAULT_ROOT_DATA example_components
                example_subcomponents = Ok example_graph) by reflexivity.
  split; [ exact H | exact (proj1 (levels_follow_types _ _ _ _ H)) ].
Defined.

(** X2: a built graph has one link less than nodes, and the k-th link is the
    edge into the (k+1)-th node: its target is that node's id, its source
    that node's parent, and its type is fixed by that node's type
    ([contains] for components and subcomponents, [has_capability] for a
    capability, and so on down to [has_input] and [has_output]). *)
Theorem links_follow_nodes (repr_container : json -> string)
  (root_data : json) (components subcomponents : dict json) (g : graph) :
  build_graph repr_container root_data components subcomponents = Ok g ->
  links_mirror_nodes (graph_nodes g) (graph_links g).
Proof. apply built_links_mirror. Qed.

Lemma links_follow_nodes_witness :
  build_graph repr_unused DEFAULT_ROOT_DATA example_components
    example_subcomponents = Ok example_graph /\
  links_mirror_nodes (graph_nodes example_graph) (graph_links example_graph).
Proof.
  assert (H : build_graph repr_unused DEFAULT_ROOT_DATA example_components
                example_subcomponents = Ok example_graph) by reflexivity.
  split; [ exact H | exact (links_follow_nodes _ _ _ _ H) ].
Defined.

(** X3: in a built graph the parent of every node but the first is the id
    of an earlier node whose level is exactly one less. *)
Theorem parent_is_one_level_up (repr_container : json -> string)
  (root_data : json) (components subcomponents : dict json) (g : graph) :
  build_graph repr_container root_data components subcomponents = Ok g ->
  parents_one_level_up (graph_nodes g).
Proof. apply built_parents_up. Qed.

Lemma parent_is_one_level_up_witness :
  build_graph repr_unused DEFAULT_ROOT_DATA example_components
    example_subcomponents = Ok example_graph /\
  parents_one_level_up (graph_nodes example_graph).
Proof.
  assert (H : build_graph repr_unused DEFAULT_ROOT_DATA example_components
                example_subcomponents = Ok example_graph) by reflexivity.
  split; [ exact H | exact (parent_is_one_level_up _ _ _ _ H) ].
Defined.

(** X4: the component nodes of a built graph are those of the keys of the
    component mapping, in the mapping's order, one node per key; each has
    the root document's id as its parent, and is expandable exactly when
    some subcomponent is attached to it. *)
Theorem component_nodes_are_the_keys (repr_container : json -> string)
  (root_data : json) (components subcomponents : dict json) (g : graph) :
  build_graph repr_container root_data components subcomponents = Ok g ->
  exists root_id,
    subscript root_data "id" = Ok root_id /\
    map summary (nodes_of_type T_component (graph_nodes g)) =
      map (component_summary root_id subcomponents) components.
Proof.
  intros H.
  destruct (build_graph_emits _ _ _ _ H)
    as (rid & rname & rdesc & st & Hr & _ & _ & -> & Hc & _).
  exists rid. split; [ exact Hr | exact Hc ].
Qed.

Lemma component_nodes_are_the_keys_witness :
  build_graph repr_unused DEFAULT_ROOT_DATA example_components
    example_subcomponents = Ok example_graph /\
  exists root_id,
    subscript DEFAULT_ROOT_DATA "id" = Ok root_id /\
    map summary (nodes_of_type T_component (graph_nodes example_graph)) =
      map (component_summary root_id example_subcomponents) example_components.
Proof.
  assert (H : build_graph repr_unused DEFAULT_ROOT_DATA example_components
                example_subcomponents = Ok example_graph) by reflexivity.
  split; [ exact H | exact (component_nodes_are_the_keys _ _ _ _ H) ].
Defined.

(** X5: the subcomponent nodes of a built graph are, component by component
    in the components' order, the subcomponents attached to it, each with
    that component's key as its parent; a subcomponent is attached to a
    component exactly when its document has a [parent] equal to the
    component's key.  A subcomponent without [parent], or whose [parent]
    is no component key, gets no node. *)
Theorem subcomponent_nodes_are_attached (repr_container : json -> string)
  (root_data : json) (components subcomponents : dict json) (g : graph) :
  build_graph repr_container root_data components subcomponents = Ok g ->
  map id_and_parent (nodes_of_type T_subcomponent (graph_nodes g)) =
    flat_map (subcomponent_places subcomponents) components /\
  forall component_id component,
    In (component_id, component) components ->
    forall k, In k (attached_keys component_id subcomponents) <->
              exists s, In (k, s) subcomponents /\ names_parent s component_id.
Proof.
  intros H.
  destruct (build_graph_emits _ _ _ _ H)
    as (rid & rname & rdesc & st & _ & _ & _ & -> & _ & Hs & Hall).
  split; [ exact Hs | ].
  intros cid c Hin k. rewrite Forall_forall in Hall.
  destruct (Hall _ Hin) as (att & Hatt). exact (attached_keys_spec _ _ Hatt k).
Qed.

Lemma subcomponent_nodes_are_attached_witness :
  build_graph repr_unused DEFAULT_ROOT_DATA example_components
    example_subcomponents = Ok example_graph /\
  map id_and_parent (nodes_of_type T_subcomponent (graph_nodes example_graph)) =
    flat_map (subcomponent_places example_subcomponents) example_components.
Proof.
  assert (H : build_graph repr_unused DEFAULT_ROOT_DATA example_components
                example_subcomponents = Ok example_graph) by reflexivity.
  split; [ exact H | exact (proj1 (subcomponent_nodes_are_attached _ _ _ _ H)) ].
Defined.

(** X6: in a built graph no link dangles: the source and the target of
    every link are ids of nodes of the graph, and the source's node comes
    before the target's. *)
Theorem links_join_graph_nodes (repr_container : json -> string)
  (root_data : json) (components subcomponents : dict json) (g : graph) :
  build_graph repr_container root_data components subcomponents = Ok g ->
  links_join_nodes (graph_nodes g) (graph_links g).
Proof.
  intros H l Hl.
  destruct (built_links_mirror _ _ _ _ H) as (Hlen & Hm).
  pose proof (built_parents_up _ _ _ _ H) as Hup.
  apply In_nth_error in Hl. destruct Hl as (k & Hk).
  assert (Hlt : S k < List.length (graph_nodes g)).
  { rewrite Hlen. apply -> Nat.succ_lt_mono. apply nth_error_Some. congruence. }
  apply nth_error_Some in Hlt.
  destruct (nth_error (graph_nodes g) (S k)) as [ n | ] eqn:Hn; [ | congruence ].
  destruct (Hm k l n Hk Hn) as (Hp & Ht & _).
  destruct (Hup (S k) n Hn ltac:(lia)) as (j & m & Hj & Hmj & Hpm & _).
  exists j, (S k), m, n. repeat split; auto. congruence.
Qed.

Lemma links_join_graph_nodes_witness :
  build_graph repr_unused DEFAULT_ROOT_DATA example_components
    example_subcomponents = Ok example_graph /\
  links_join_nodes (graph_nodes example_graph) (graph_links example_graph).
Proof.
  assert (H : build_graph repr_unused DEFAULT_ROOT_DATA example_components
                example_subcomponents = Ok example_graph) by reflexivity.
  split; [ exact H | exact (links_join_graph_nodes _ _ _ _ H) ].
Defined.

(** * The path from the root to a node *)

Lemma py_eq_hashable (a b : json) : hashable a = true -> py_eq a b = key_eq a b.
Proof. destruct a, b; simpl; intros H; try discriminate; reflexivity. Qed.

Lemma py_eq_refl (a : json) : hashable a = true -> py_eq a a = true.
Proof. intros H. rewrite (py_eq_hashable _ _ H). now apply key_eq_refl. Qed.

(** The first match of a search is at or before any match. *)
Lemma find_first {A} (f : A -> bool) (l : list A) :
  forall j x, nth_error l j = Some x -> f x = true ->
    exists j' x', j' <= j /\ nth_error l j' = Some x' /\
                  find f l = Some x' /\ f x' = true.
Proof.
  induction l as [ | y l IH ]; intros [ | j ] x Hx Hf; simpl in *; try discriminate.
  - injection Hx as ->. rewrite Hf. exists 0, x. auto.
  - destruct (f y) eqn:Ey.
    + exists 0, y. repeat split; auto. lia.
    + destruct (IH j x Hx Hf) as (j' & x' & Hj & Hn & Hfind & Hx').
      exists (S j'), x'. repeat split; auto. lia.
Qed.

(** On a node list whose parents resolve upwards the walk ends at the first
    node, within as many rounds as the position of the start. *)
Lemma walk_up_reaches_first (ns : list node) (root_node : node) (rest : list node) :
  ns = root_node :: rest ->
  node_parent root_node = None ->
  parents_one_level_up ns ->
  Forall (fun n => hashable (node_id n) = true) ns ->
  forall fuel i current below,
    nth_error ns i = Some current -> i < fuel ->
    chain (current :: below) -> incl (current :: below) ns ->
    exists up,
      walk_up fuel ns current (map item_of (current :: below)) =
        Some (map item_of (up ++ current :: below)) /\
      chain (up ++ current :: below) /\
      hd_error (up ++ current :: below) = Some root_node /\
      incl (up ++ current :: below) ns.
Proof.
  intros Hns Hroot Hup Hh.
  induction fuel as [ | fuel IH ]; intros i current below Hi Hlt Hc Hin; [ lia | ].
  destruct i as [ | i ].
  - rewrite Hns in Hi. simpl in Hi. injection Hi as <-.
    exists []. simpl. rewrite Hroot. auto.
  - destruct (Hup (S i) current Hi ltac:(lia)) as (j & m & Hj & Hm & Hp & _).
    assert (Hmh : hashable (node_id m) = true).
    { rewrite Forall_forall in Hh. apply Hh. eapply nth_error_In; eauto. }
    destruct (find_first (fun n => py_eq (node_id n) (node_id m)) ns j Hm
                (py_eq_refl _ Hmh))
      as (j' & m' & Hj' & Hm' & Hfind & Heq).
    assert (Hm'in : In m' ns) by (eapply nth_error_In; eauto).
    destruct (IH j' m' (current :: below) Hm' ltac:(lia))
      as (up & Hw & Hch & Hhd & Hincl).
    + eapply chain_cons; eauto.
    + intros x [ <- | Hx ]; auto.
    + exists (up ++ [m']). rewrite <- !app_assoc. simpl.
      simpl in Hw. rewrite Hp. unfold find_node. rewrite Hfind.
      repeat split; auto.
Qed.

(** The walk on a built graph. *)
Lemma hierarchy_path_in_built (repr_container : json -> string)
  (root_data : json) (components subcomponents : dict json) (g : graph)
  (wanted : string) (fuel : nat) :
  build_graph repr_container root_data components subcomponents = Ok g ->
  List.length (graph_nodes g) <= fuel ->
  (no_node_with wanted (graph_nodes g) /\
   hierarchy_path_in fuel g wanted = Some Node_not_found) \/
  (exists target_node root_node rest cs,
      find_node (JStr wanted) (graph_nodes g) = Some target_node /\
      graph_nodes g = root_node :: rest /\
      hierarchy_path_in fuel g wanted = Some (Path (map item_of cs)) /\
      hd_error cs = Some root_node /\
      List.last cs root_node = target_node /\
      chain cs /\ incl cs (graph_nodes g)).
Proof.
  intros H Hfuel.
  destruct (build_graph_emits _ _ _ _ H)
    as (rid & rname & rdesc & st & _ & Hrh & Hem & Hg & _).
  pose proof (built_parents_up _ _ _ _ H) as Hup.
  destruct (emits_shape Hem) as (ns & ls & Hn & _ & Hf & _).
  assert (Hnodes : graph_nodes g = root_node_of rid rname rdesc components :: ns)
    by (rewrite Hg; exact Hn).
  assert (Hh : Forall (fun n => hashable (node_id n) = true) (graph_nodes g)).
  { rewrite Hnodes. constructor; [ exact Hrh | ].
    eapply Forall2_left; [ | exact Hf ]. intros x y Hxy. exact (nf_hashable Hxy). }
  unfold hierarchy_path_in, find_node.
  destruct (find (fun n => py_eq (node_id n) (JStr wanted)) (graph_nodes g))
    as [ target | ] eqn:Ef.
  - right. destruct (find_some _ _ Ef) as [Hin Hid].
    apply In_nth_error in Hin. destruct Hin as [i Hi].
    assert (Hlt : i < fuel).
    { assert (i < List.length (graph_nodes g)) by (apply nth_error_Some; congruence).
      lia. }
    assert (Hin : incl [target] (graph_nodes g)).
    { intros x [ <- | [] ]. eapply nth_error_In; eauto. }
    destruct (@walk_up_reaches_first _ _ _ Hnodes eq_refl Hup Hh fuel i target []
                Hi Hlt (chain_one target) Hin)
      as (up & Hw & Hch & Hhd & Hincl).
    exists target, (root_node_of rid rname rdesc components), ns, (up ++ [target]).
    simpl in Hw. rewrite Hw. repeat split; auto.
    apply last_last.
  - left. split; [ | reflexivity ].
    intros n Hin. exact (find_none _ _ Ef n Hin).
Qed.

(** X7: on a built graph the walk of [hierarchy_path] ends within as many
    rounds as the graph has nodes.  The answer is "not found" when no node
    has the requested id; otherwise it is a path whose entries are those of
    a chain of nodes of the graph, each the parent of the next, from the
    root node to the first node with the requested id. *)
Theorem hierarchy_path_reaches_root (json_loads : text -> result json)
  (repr_container : json -> string) (fs : filesystem) (g : graph)
  (wanted : string) (fuel : nat) :
  App.build_graph_data json_loads repr_container fs = Ok g ->
  List.length (graph_nodes g) <= fuel ->
  (no_node_with wanted (graph_nodes g) /\
   Routes.hierarchy_path json_loads repr_container fuel fs wanted
     = Ok (Some Node_not_found)) \/
  (exists target_node root_node rest cs,
      find_node (JStr wanted) (graph_nodes g) = Some target_node /\
      graph_nodes g = root_node :: rest /\
      Routes.hierarchy_path json_loads repr_container fuel fs wanted
        = Ok (Some (Path (map item_of cs))) /\
      hd_error cs = Some root_node /\
      List.last cs root_node = target_node /\
      chain cs /\ incl cs (graph_nodes g)).
Proof.
  intros H Hfuel. unfold Routes.hierarchy_path. rewrite H. simpl.
  destruct (build_graph_data_loaded _ _ _ H) as (r & c & s & _ & _ & _ & Hb).
  destruct (@hierarchy_path_in_built _ _ _ _ _ wanted _ Hb Hfuel)
    as [ (Hno & ->) | (t & rn & rest & cs & Hf & Hg & -> & Hrest) ].
  - left. auto.
  - right. exists t, rn, rest, cs. auto.
Qed.

Lemma hierarchy_path_reaches_root_witness :
  App.build_graph_data json_loads_nothing repr_unused empty_store
    = Ok (graph_of (App.build_graph_data json_loads_nothing repr_unused
                      empty_store)) /\
  Routes.hierarchy_path json_loads_nothing repr_unused 5 empty_store
    "value-learning" <> Ok (Some Node_not_found).
Proof.
  assert (H : App.build_graph_data json_loads_nothing repr_unused empty_store
              = Ok (graph_of (App.build_graph_data json_loads_nothing
                                repr_unused empty_store)))
    by (vm_compute; reflexivity).
  assert (Hfuel : List.length
                    (graph_nodes
                       (graph_of (App.build_graph_data json_loads_nothing
                                    repr_unused empty_store))) <= 5)
    by (vm_compute; lia).
  split; [ exact H | ].
  destruct (@hierarchy_path_reaches_root _ _ _ _ "value-learning" _ H Hfuel)
    as [ (Hno & _) | (t & r & rest & cs & _ & _ & Hp & _) ].
  - exfalso.
    assert (Hin : exists n,
               In n (graph_nodes
                       (graph_of (App.build_graph_data json_loads_nothing
                                    repr_unused empty_store))) /\
               py_eq (node_id n) (JStr "value-learning") = true).
    { vm_compute. eexists. split; [ right; right; left; reflexivity | reflexivity ]. }
    destruct Hin as (n & Hin & Hid). rewrite (Hno n Hin) in Hid. discriminate.
  - rewrite Hp. discriminate.
Defined.

(** * The resolver *)

Lemma first_match_found {A} (body : A -> result (option json)) (l : list A)
  (v : json) :
  first_match body l = Ok (Some v) -> exists x, In x l /\ body x = Ok (Some v).
Proof.
  induction l as [ | x l IH ]; simpl; intros H; [ discriminate | ].
  ok_inv H. destruct a as [ w | ].
  - injection H as ->. eauto.
  - destruct (IH H) as (y & Hy & Hb). eauto.
Qed.

Lemma chars_strings (s : string) (x : json) :
  In x (chars s) -> exists c, x = JStr c.
Proof.
  induction s as [ | c s IH ]; simpl; [ contradiction | ].
  intros [ <- | H ]; eauto.
Qed.

(** Only a list yields objects when iterated: a dict yields its keys, a
    string its characters. *)
Lemma iterate_object (v : json) (l : list json) (d : dict json) :
  iterate v = Ok l -> In (JObj d) l -> v = JArr l.
Proof.
  destruct v as [ | b | z | s | xs | fields ]; simpl; intros H Hin;
    try discriminate; injection H as <-.
  - apply chars_strings in Hin. destruct Hin as (c & Hc). discriminate.
  - reflexivity.
  - apply in_map_iff in Hin. destruct Hin as (kv & Hkv & _). discriminate.
Qed.

(** An object found among the items of [d.get(k, [])] is inside [d]. *)
Lemma part_of_get (f : json) (d x : dict json) (k : string) (l : list json) :
  iterate (get d k (JArr [])) = Ok l -> In (JObj x) l -> part_of f (JObj x) ->
  part_of f (JObj d).
Proof.
  intros Hi Hin Hp. pose proof (iterate_object _ _ Hi Hin) as Hv.
  unfold get in Hv. destruct (dict_get k d) as [ v | ] eqn:E.
  - subst v. eapply part_field; [ exact E | ]. eapply part_item; eauto.
  - injection Hv as <-. contradiction.
Qed.

Section Found.

Variable wanted : string.

Lemma found_here (d : dict json) :
  id_is d wanted = true -> found_in wanted (JObj d) (JObj d).
Proof. intros H. split; [ exists d; auto | constructor ]. Qed.

Lemma find_in_io_list_found (io_list f : json) :
  find_in_io_list wanted io_list = Ok (Some f) ->
  has_id wanted f /\ exists l, io_list = JArr l /\ In f l.
Proof.
  unfold find_in_io_list. intros H. ok_inv H. rename a into items.
  apply first_match_found in H. destruct H as (x & Hx & Hb).
  destruct x as [ | | | | | d ]; try discriminate.
  destruct (id_is d wanted) eqn:Ei; [ | discriminate ]. injection Hb as <-.
  split; [ exists d; auto | ].
  exists items. split; [ exact (iterate_object _ _ E Hx) | exact Hx ].
Qed.

Lemma find_in_app_found (app f : json) :
  find_in_app wanted app = Ok (Some f) -> found_in wanted f app.
Proof.
  destruct app as [ | | | | | a ]; unfold find_in_app; try discriminate.
  destruct (id_is a wanted) eqn:Ei.
  - intros H. injection H as <-. now apply found_here.
  - intros H. apply first_match_found in H. destruct H as (io & Hio & Hb).
    apply find_in_io_list_found in Hb. destruct Hb as (Hid & l & Hl & Hin).
    split; [ exact Hid | ].
    assert (Hget : forall k, io = get a k (JArr []) -> part_of f (JObj a)).
    { intros k Hk. unfold get in Hk. destruct (dict_get k a) as [ v | ] eqn:E.
      - eapply part_field; [ exact E | ]. subst v. rewrite Hl.
        eapply part_item; [ exact Hin | constructor ].
      - rewrite Hl in Hk. injection Hk as ->. contradiction. }
    destruct Hio as [ <- | [ <- | [] ] ]; eapply Hget; reflexivity.
Qed.

(** A level that looks at the object itself, then at the objects of one of
    its lists. *)
Lemma find_in_items_found (d : dict json) (k : string) (f : json)
  (body : json -> result (option json)) :
  (forall x, body x = Ok (Some f) -> found_in wanted f x /\ exists o, x = JObj o) ->
  (items <- iterate (get d k (JArr [])) ;; first_match body items) = Ok (Some f) ->
  found_in wanted f (JObj d).
Proof.
  intros Hbody H. ok_inv H. rename a into items.
  apply first_match_found in H. destruct H as (x & Hx & Hb).
  destruct (Hbody x Hb) as ((Hid & Hp) & o & ->).
  split; [ exact Hid | ]. eapply part_of_get; eauto.
Qed.

Lemma find_in_app_object (app f : json) :
  find_in_app wanted app = Ok (Some f) -> exists o, app = JObj o.
Proof. destruct app; simpl; try discriminate; eauto. Qed.

Lemma find_in_technique_found (technique f : json) :
  find_in_technique wanted technique = Ok (Some f) ->
  found_in wanted f technique /\ exists o, technique = JObj o.
Proof.
  destruct technique as [ | | | | | t ]; unfold find_in_technique; try discriminate.
  intros H. split; [ | eauto ].
  destruct (id_is t wanted) eqn:Ei.
  - injection H as <-. now apply found_here.
  - eapply find_in_items_found; [ | exact H ].
    intros x Hx. split; [ now apply find_in_app_found | ].
    now apply find_in_app_object in Hx.
Qed.

Lemma find_in_spec_found (spec f : json) :
  find_in_spec wanted spec = Ok (Some f) ->
  found_in wanted f spec /\ exists o, spec = JObj o.
Proof.
  destruct spec as [ | | | | | s ]; unfold find_in_spec; try discriminate.
  intros H. split; [ | eauto ].
  destruct (id_is s wanted) eqn:Ei.
  - injection H as <-. now apply found_here.
  - cbv zeta in H.
    destruct (get s "integration" JNull) as [ | | | | | i ] eqn:Eg';
      try discriminate.
    assert (Eg : dict_get "integration" s = Some (JObj i)).
    { unfold get in Eg'. destruct (dict_get "integration" s); congruence. }
    destruct (truthy (JObj i)); [ | discriminate ].
    assert (Hin : forall g, found_in wanted g (JObj i) -> found_in wanted g (JObj s)).
    { intros g (Hid & Hp). split; [ exact Hid | ].
      eapply part_field; [ exact Eg | exact Hp ]. }
    apply Hin. destruct (id_is i wanted) eqn:Ej.
    + injection H as <-. now apply found_here.
    + eapply find_in_items_found; [ | exact H ].
      intros x Hx. now apply find_in_technique_found.
Qed.

Lemma find_in_function_found (function f : json) :
  find_in_function wanted function = Ok (Some f) ->
  found_in wanted f function /\ exists o, function = JObj o.
Proof.
  destruct function as [ | | | | | fn ]; unfold find_in_function; try discriminate.
  intros H. split; [ | eauto ].
  destruct (id_is fn wanted) eqn:Ei.
  - injection H as <-. now apply found_here.
  - eapply find_in_items_found; [ | exact H ].
    intros x Hx. now apply find_in_spec_found.
Qed.

Lemma find_in_capability_found (capability f : json) :
  find_in_capability wanted capability = Ok (Some f) ->
  found_in wanted f capability /\ exists o, capability = JObj o.
Proof.
  destruct capability as [ | | | | | c ]; unfold find_in_capability; try discriminate.
  intros H. split; [ | eauto ].
  destruct (id_is c wanted) eqn:Ei.
  - injection H as <-. now apply found_here.
  - eapply find_in_items_found; [ | exact H ].
    intros x Hx. now apply find_in_function_found.
Qed.

Lemma find_in_subcomponent_found (entry : string * json) (f : json) :
  find_in_subcomponent wanted entry = Ok (Some f) -> found_in wanted f (snd entry).
Proof.
  unfold find_in_subcomponent. destruct (snd entry) as [ | | | | | sc ];
    try discriminate.
  destruct (dict_mem "capabilities" sc); [ | discriminate ].
  cbv zeta. remember (get sc "capabilities" (JArr [])) as v eqn:Ev.
  unfold get in Ev.
  destruct (dict_get "capabilities" sc) as [ v' | ] eqn:Ec;
    [ subst v' | subst v; simpl; discriminate ].
  assert (Hcaps : forall caps, part_of (JArr caps) v ->
            first_match (find_in_capability wanted) caps = Ok (Some f) ->
            found_in wanted f (JObj sc)).
  { intros caps Hv Hm. apply first_match_found in Hm.
    destruct Hm as (x & Hx & Hb).
    destruct (find_in_capability_found _ Hb) as ((Hid & Hp) & _).
    split; [ exact Hid | ].
    eapply part_field; [ exact Ec | ].
    assert (Hl : part_of f (JArr caps)) by (eapply part_item; eauto).
    clear - Hv Hl. induction Hv.
    - exact Hl.
    - eapply part_item; eauto.
    - eapply part_field; eauto. }
  destruct v as [ | | | | caps | c ]; try discriminate.
  - apply Hcaps. constructor.
  - unfold get. destruct (dict_get "items" c) as [ items | ] eqn:Ei;
      [ | simpl; discriminate ].
    destruct items as [ | | | | caps | ]; try discriminate.
    apply Hcaps. eapply part_field; [ exact Ei | constructor ].
Qed.

Lemma find_nested_node_found (subcomponents : dict json) (f : json) :
  find_nested_node wanted subcomponents = Ok (Some f) ->
  has_id wanted f /\
  exists subcomp_id subcomp,
    In (subcomp_id, subcomp) subcomponents /\ part_of f subcomp.
Proof.
  unfold find_nested_node. intros H. apply first_match_found in H.
  destruct H as ([k sc] & Hin & Hb).
  destruct (find_in_subcomponent_found _ Hb) as (Hid & Hp). eauto.
Qed.

End Found.

Lemma has_id_truthy (wanted : string) (f : json) : has_id wanted f -> truthy f = true.
Proof.
  intros (d & -> & H). destruct d as [ | kv d ]; [ | reflexivity ].
  discriminate H.
Qed.

(** X8: a fragment that [find_nested_node] returns is an object whose [id]
    is the requested id, and it occurs, as it is, inside one of the
    subcomponent documents; being a non-empty object it is never taken
    for "not found" by the caller. *)
Theorem find_nested_node_sound (wanted : string) (subcomponents : dict json)
  (f : json) :
  find_nested_node wanted subcomponents = Ok (Some f) ->
  has_id wanted f /\ truthy f = true /\
  exists subcomp_id subcomp,
    In (subcomp_id, subcomp) subcomponents /\ part_of f subcomp.
Proof.
  intros H. destruct (find_nested_node_found _ _ H) as (Hid & Hp).
  split; [ exact Hid | split; [ exact (has_id_truthy Hid) | exact Hp ] ].
Qed.

Lemma find_nested_node_sound_witness :
  find_nested_node "sub" shadowing_subcomponents
    = Ok (Some (JObj [("id", JStr "sub"); ("name", JStr "deeper")])) /\
  has_id "sub" (JObj [("id", JStr "sub"); ("name", JStr "deeper")]).
Proof.
  assert (H : find_nested_node "sub" shadowing_subcomponents
              = Ok (Some (JObj [("id", JStr "sub"); ("name", JStr "deeper")])))
    by reflexivity.
  split; [ exact H | exact (proj1 (find_nested_node_sound _ _ H)) ].
Defined.

(** The answers of [get_node_details], by status. *)
Lemma node_details_cases (root_data : json)
  (components subcomponents : dict json) (wanted : string)
  (body : json) (status_code : nat) :
  truthy root_data = true ->
  node_details root_data components subcomponents wanted = Ok (body, status_code) ->
  (status_code = 200 /\
   (body = root_data \/
    dict_get wanted components = Some body \/
    (dict_get wanted subcomponents = Some body /\ is_object body = true) \/
    (has_id wanted body /\
     find_nested_node wanted subcomponents = Ok (Some body)))) \/
  (status_code = 500 /\
   dict_get wanted components = None /\
   exists subcomp_data,
     dict_get wanted subcomponents = Some subcomp_data /\
     is_object subcomp_data = false) \/
  (status_code = 404 /\ body = not_found_body wanted /\
   dict_get wanted components = None /\
   dict_get wanted subcomponents = None /\
   find_nested_node wanted subcomponents = Ok None).
Proof.
  intros Ht H. unfold node_details, node_details_with in H. rewrite Ht in H.
  simpl negb in H. cbv iota in H. ok_inv H. rename a into is_root.
  destruct is_root.
  - injection H as <- <-. left. auto.
  - destruct (dict_get wanted components) as [ component | ] eqn:Ec.
    + injection H as <- <-. left. auto.
    + destruct (dict_get wanted subcomponents) as [ subcomp_data | ] eqn:Es.
      * destruct subcomp_data; injection H as <- <-;
          try (right; left; split; [ reflexivity | split; [ reflexivity | ] ];
               eexists; split; reflexivity).
        left. split; [ reflexivity | ]. right. right. left. auto.
      * ok_inv H. rename a into nested_node, E0 into En.
        destruct nested_node as [ found | ].
        -- destruct (find_nested_node_found _ _ En) as (Hid & _).
           rewrite (has_id_truthy Hid) in H. injection H as <- <-.
           left. split; [ reflexivity | ]. right. right. right. auto.
        -- injection H as <- <-. right. right. repeat split; auto.
Qed.

(** X9: what [get_node_details] answers once the documents are loaded and
    the root document is not empty.  Status 200 comes with the root
    document, with the component or the subcomponent document stored under
    the requested key, or with a nested object whose [id] is the requested
    id; status 500 only for a subcomponent key whose document is not an
    object; status 404 only when the id is no key of either mapping and the
    nested search finds nothing.  There is no other status. *)
Theorem node_details_answers (root_data : json)
  (components subcomponents : dict json) (wanted : string)
  (body : json) (status_code : nat) :
  truthy root_data = true ->
  node_details root_data components subcomponents wanted = Ok (body, status_code) ->
  (status_code = 200 /\
   (body = root_data \/
    dict_get wanted components = Some body \/
    (dict_get wanted subcomponents = Some body /\ is_object body = true) \/
    (has_id wanted body /\
     find_nested_node wanted subcomponents = Ok (Some body)))) \/
  (status_code = 500 /\
   dict_get wanted components = None /\
   exists subcomp_data,
     dict_get wanted subcomponents = Some subcomp_data /\
     is_object subcomp_data = false) \/
  (status_code = 404 /\ body = not_found_body wanted /\
   dict_get wanted components = None /\
   dict_get wanted subcomponents = None /\
   find_nested_node wanted subcomponents = Ok None).
Proof. apply node_details_cases. Qed.

Lemma node_details_answers_witness :
  truthy DEFAULT_ROOT_DATA = true /\
  node_details DEFAULT_ROOT_DATA example_components example_subcomponents "o2"
    = Ok (not_found_body "o2", 404) /\
  find_nested_node "o2" example_subcomponents = Ok None.
Proof.
  assert (Ht : truthy DEFAULT_ROOT_DATA = true) by reflexivity.
  assert (H : node_details DEFAULT_ROOT_DATA example_components
                example_subcomponents "o2" = Ok (not_found_body "o2", 404))
    by (vm_compute; reflexivity).
  split; [ exact Ht | split; [ exact H | ] ].
  destruct (node_details_answers _ _ _ _ Ht H)
    as [ (Hs & _) | [ (Hs & _) | (_ & _ & _ & _ & Hn) ] ];
    [ discriminate Hs | discriminate Hs | exact Hn ].
Defined.

(** * The loaders *)

Lemma dict_get_dict_set {V} (k k' : string) (v : V) (d : dict V) :
  dict_get k (dict_set k' v d) = if String.eqb k k' then Some v else dict_get k d.
Proof.
  induction d as [ | [k0 v0] d IH ]; simpl.
  - reflexivity.
  - destruct (String.eqb k' k0) eqn:E0; simpl.
    + apply String.eqb_eq in E0. subst k0.
      destruct (String.eqb k k'); reflexivity.
    + rewrite IH. destruct (String.eqb k k') eqn:E1; [ | reflexivity ].
      apply String.eqb_eq in E1. subst k'. now rewrite E0.
Qed.

Lemma Forall_dict_set {V} (Q : V -> Prop) (k : string) (v : V) (d : dict V) :
  Forall (fun kv => Q (snd kv)) d -> Q v ->
  Forall (fun kv => Q (snd kv)) (dict_set k v d).
Proof.
  intros Hall Hv. induction Hall as [ | [k0 v0] rest H0 Hrest IH ]; simpl.
  - constructor; simpl; auto.
  - destruct (String.eqb k k0); constructor; simpl; auto.
Qed.

Section LoaderFacts.

Variable json_loads : text -> result json.

Lemma get_root_data_truthy (fs : filesystem) :
  exists root_data,
    get_root_data json_loads fs = Ok root_data /\ truthy root_data = true /\
    (root_data = DEFAULT_ROOT_DATA \/
     load_json_file json_loads (ROOT_JSON_FILE fs) = Ok (Some root_data)).
Proof.
  unfold get_root_data.
  destruct (load_json_file_total json_loads (ROOT_JSON_FILE fs)) as (r & ->).
  simpl. destruct r as [ d | ].
  - destruct (truthy d) eqn:Et; eauto 6.
  - eauto 6.
Qed.

(** One file of the components directory, by what it contributes. *)
Lemma load_component_step (components : dict json) (entry : string * path_entry) :
  load_component json_loads components entry =
  Ok (match file_document json_loads entry with
      | Some d => dict_set (id_of_file (fst entry)) d components
      | None => components
      end).
Proof.
  unfold load_component, file_document.
  destruct (load_json_file_total json_loads (snd entry)) as (r & ->). simpl.
  destruct r as [ d | ]; [ | reflexivity ]. now destruct (truthy d).
Qed.

Lemma load_components_lookup (files : list (string * path_entry)) :
  forall components,
  exists loaded_components,
    foreach (load_component json_loads) files components = Ok loaded_components /\
    forall k, dict_get k loaded_components =
              fold_left
                (fun acc entry =>
                   if String.eqb k (id_of_file (fst entry)) then
                     match file_document json_loads entry with
                     | Some d => Some d
                     | None => acc
                     end
                   else acc)
                files (dict_get k components).
Proof.
  induction files as [ | entry files IH ]; intros components; simpl.
  - eauto.
  - rewrite load_component_step. simpl.
    destruct (IH (match file_document json_loads entry with
                  | Some d => dict_set (id_of_file (fst entry)) d components
                  | None => components
                  end)) as (lc & Hlc & Hget).
    exists lc. split; [ exact Hlc | ]. intros k. rewrite Hget. f_equal.
    destruct (file_document json_loads entry) as [ d | ].
    + rewrite dict_get_dict_set. reflexivity.
    + now destruct (String.eqb k (id_of_file (fst entry))).
Qed.

Lemma helper_get_components_total (fs : filesystem) :
  exists components, Helper.get_components json_loads fs = Ok components.
Proof.
  unfold Helper.get_components. destruct (COMPONENTS_DIR fs) as [ files | ].
  - destruct (load_components_lookup files []) as (lc & Hlc & _). eauto.
  - eauto.
Qed.

Lemma default_components_loaded :
  (defaults <- subscript DEFAULT_ROOT_DATA "components" ;;
   defaults <- iterate defaults ;;
   foreach App.default_component defaults []) = Ok default_components.
Proof. reflexivity. Qed.

Lemma app_get_components_eq (fs : filesystem) :
  App.get_components json_loads fs =
  match COMPONENTS_DIR fs with
  | Some _ => Helper.get_components json_loads fs
  | None => Ok default_components
  end.
Proof.
  unfold App.get_components.
  destruct (COMPONENTS_DIR fs) as [ files | ] eqn:Ed.
  - destruct (helper_get_components_total fs) as (c & Hc). rewrite Hc.
    unfold Helper.get_components in Hc. rewrite Ed in Hc. now rewrite Hc.
  - now rewrite default_components_loaded.
Qed.

(** Every document that the subcomponent loop stores has an [id]. *)
Lemma load_subcomponent_ids (entry : string * path_entry)
  (subcomponents loaded_subcomponents : dict json) :
  Forall (fun kv => py_in "id" (snd kv) = Ok true) subcomponents ->
  load_subcomponent json_loads subcomponents entry = Ok loaded_subcomponents ->
  Forall (fun kv => py_in "id" (snd kv) = Ok true) loaded_subcomponents.
Proof.
  intros Hall H. unfold load_subcomponent in H. ok_inv H. rename a into data.
  destruct data as [ d | ]; [ | now injection H as <- ].
  destruct (truthy d); [ | now injection H as <- ].
  ok_inv H. rename a into has_id, E0 into Eh.
  ok_inv H. rename a into d', E0 into Ed. injection H as <-.
  assert (Hd : py_in "id" d' = Ok true).
  { destruct has_id.
    - injection Ed as <-. exact Eh.
    - destruct d; try discriminate. injection Ed as <-. simpl.
      unfold dict_mem. rewrite dict_get_dict_set. reflexivity. }
  apply (Forall_dict_set (fun v => py_in "id" v = Ok true)); assumption.
Qed.

Lemma load_subcomponents_ids (files : list (string * path_entry)) :
  forall subcomponents loaded_subcomponents,
    Forall (fun kv => py_in "id" (snd kv) = Ok true) subcomponents ->
    foreach (load_subcomponent json_loads) files subcomponents
      = Ok loaded_subcomponents ->
    Forall (fun kv => py_in "id" (snd kv) = Ok true) loaded_subcomponents.
Proof.
  induction files as [ | entry files IH ]; simpl; intros s s' Hall H.
  - now injection H as <-.
  - ok_inv H. eapply IH; [ | exact H ]. eapply load_subcomponent_ids; eauto.
Qed.

Lemma loaders_eq_subcomponents (fs : filesystem) :
  App.get_subcomponents json_loads fs = Helper.get_subcomponents json_loads fs \/
  App.get_subcomponents json_loads fs = Ok [].
Proof.
  unfold App.get_subcomponents, Helper.get_subcomponents.
  destruct (SUBCOMPONENTS_DIR fs) as [ files | ]; [ | now left ].
  destruct (foreach (load_subcomponent json_loads) files []); simpl; auto.
Qed.

End LoaderFacts.

(** The body of a status 500 of [get_node_details]. *)
Lemma node_details_500_body (root_data : json)
  (components subcomponents : dict json) (wanted : string) (body : json) :
  truthy root_data = true ->
  node_details root_data components subcomponents wanted = Ok (body, 500) ->
  exists subcomp_data,
    dict_get wanted subcomponents = Some subcomp_data /\
    is_object subcomp_data = false /\
    body = subcomponent_error_body wanted subcomp_data.
Proof.
  intros Ht H. unfold node_details, node_details_with in H. rewrite Ht in H.
  simpl negb in H. cbv iota in H. ok_inv H. rename a into is_root.
  destruct is_root; [ injection H as _ Hs; discriminate Hs | ].
  destruct (dict_get wanted components) as [ component | ];
    [ injection H as _ Hs; discriminate Hs | ].
  destruct (dict_get wanted subcomponents) as [ subcomp_data | ].
  - exists subcomp_data. split; [ reflexivity | ].
    destruct subcomp_data; try (injection H as _ Hs; discriminate Hs);
      injection H as <-; split; reflexivity.
  - ok_inv H. destruct a as [ found | ].
    + destruct (truthy found); injection H as _ Hs; discriminate Hs.
    + injection H as _ Hs. discriminate Hs.
Qed.

Lemma subcomponent_error_is_not_root_error (wanted : string) (v : json) :
  subcomponent_error_body wanted v <> root_not_loaded_body wanted.
Proof.
  unfold subcomponent_error_body, root_not_loaded_body, error_body.
  intros H. injection H as _ _ Hname _. discriminate Hname.
Qed.

(** X10: whatever the store holds, [get_root_data] returns a non-empty
    document (the file's, or the built-in one), and [get_components] of the
    helper module never raises; so [get_node_details] never answers status
    500 with its "Could not load root data" body: a status 500 it returns
    always comes with the body of a subcomponent key whose document is not
    an object. *)
Theorem get_node_details_500_is_subcomponent (json_loads : text -> result json)
  (fs : filesystem) (wanted : string) :
  (exists root_data,
      get_root_data json_loads fs = Ok root_data /\ truthy root_data = true) /\
  (exists components, Helper.get_components json_loads fs = Ok components) /\
  (forall body,
      Helper.get_node_details json_loads fs wanted = Ok (body, 500) ->
      body <> root_not_loaded_body wanted /\
      exists subcomponents subcomp_data,
        Helper.get_subcomponents json_loads fs = Ok subcomponents /\
        dict_get wanted subcomponents = Some subcomp_data /\
        is_object subcomp_data = false /\
        body = subcomponent_error_body wanted subcomp_data).
Proof.
  destruct (get_root_data_truthy json_loads fs) as (root & Hr & Ht & _).
  split; [ eauto | ].
  split; [ apply helper_get_components_total | ].
  intros body H. unfold Helper.get_node_details in H.
  rewrite Hr in H. simpl in H. ok_inv H. rename a into components.
  ok_inv H. rename a into subcomponents.
  destruct (@node_details_500_body _ _ _ _ _ Ht H) as (v & Hv & Ho & ->).
  split; [ apply subcomponent_error_is_not_root_error | eauto 6 ].
Qed.

Lemma get_node_details_500_is_subcomponent_witness :
  Helper.get_node_details json_loads_id_array id_array_store "list"
    = Ok (subcomponent_error_body "list" (JArr [JStr "id"]), 500) /\
  subcomponent_error_body "list" (JArr [JStr "id"])
    <> root_not_loaded_body "list".
Proof.
  assert (H : Helper.get_node_details json_loads_id_array id_array_store "list"
              = Ok (subcomponent_error_body "list" (JArr [JStr "id"]), 500))
    by (vm_compute; reflexivity).
  split; [ exact H | ].
  exact (proj1 (proj2 (proj2 (get_node_details_500_is_subcomponent
                                json_loads_id_array id_array_store "list"))
                  _ H)).
Defined.

(** X11: each module has its own store.  When the two components
    directories list the same files, the two modules load the same
    components if the directory exists (the loader of app.py catches
    nothing then, the one of the helper never raises); without the
    directory the loader of app.py returns the four built-in components
    keyed by their ids, the one of the helper the empty mapping.  When the
    two subcomponents directories list the same files, the subcomponent
    loader of app.py returns what the helper's returns, or the empty
    mapping when that one raises. *)
Theorem loaders_of_the_two_modules (json_loads : text -> result json)
  (app_store helper_store : filesystem) :
  COMPONENTS_DIR app_store = COMPONENTS_DIR helper_store ->
  SUBCOMPONENTS_DIR app_store = SUBCOMPONENTS_DIR helper_store ->
  match COMPONENTS_DIR helper_store with
  | Some _ =>
      App.get_components json_loads app_store
        = Helper.get_components json_loads helper_store /\
      exists components,
        Helper.get_components json_loads helper_store = Ok components
  | None =>
      App.get_components json_loads app_store = Ok default_components /\
      Helper.get_components json_loads helper_store = Ok []
  end /\
  App.get_subcomponents json_loads app_store =
    match Helper.get_subcomponents json_loads helper_store with
    | Ok subcomponents => Ok subcomponents
    | Raise _ => Ok []
    end.
Proof.
  intros Hc Hs. split.
  - pose proof (app_get_components_eq json_loads app_store) as Ha.
    pose proof (helper_get_components_total json_loads helper_store) as Hh.
    rewrite Hc in Ha.
    destruct (COMPONENTS_DIR helper_store) as [ files | ] eqn:Ed; split; auto.
    + rewrite Ha. unfold Helper.get_components. now rewrite Hc, Ed.
    + unfold Helper.get_components. now rewrite Ed.
  - unfold App.get_subcomponents, Helper.get_subcomponents. rewrite Hs.
    destruct (SUBCOMPONENTS_DIR helper_store) as [ files | ]; [ | reflexivity ].
    now destruct (foreach (load_subcomponent json_loads) files []).
Qed.

Lemma loaders_of_the_two_modules_witness :
  COMPONENTS_DIR small_store = COMPONENTS_DIR small_store_of_helper /\
  SUBCOMPONENTS_DIR small_store = SUBCOMPONENTS_DIR small_store_of_helper /\
  App.get_components json_loads_small small_store
    = Helper.get_components json_loads_small small_store_of_helper.
Proof.
  assert (Hc : COMPONENTS_DIR small_store = COMPONENTS_DIR small_store_of_helper)
    by reflexivity.
  assert (Hs : SUBCOMPONENTS_DIR small_store
               = SUBCOMPONENTS_DIR small_store_of_helper) by reflexivity.
  split; [ exact Hc | split; [ exact Hs | ] ].
  exact (proj1 (proj1 (loaders_of_the_two_modules json_loads_small
                         small_store small_store_of_helper Hc Hs))).
Defined.

(** X12: the component mapping holds, under each key, the document of the
    last listed file with that id that loaded a non-empty document (a later
    file of the same id replaces an earlier one), and no other key. *)
Theorem last_file_of_an_id_wins (json_loads : text -> result json)
  (fs : filesystem) (files : list (string * path_entry)) :
  COMPONENTS_DIR fs = Some files ->
  exists components,
    Helper.get_components json_loads fs = Ok components /\
    App.get_components json_loads fs = Ok components /\
    forall k, dict_get k components = last_document json_loads k files.
Proof.
  intros Hd.
  destruct (load_components_lookup json_loads files []) as (c & Hc & Hget).
  exists c.
  assert (Hh : Helper.get_components json_loads fs = Ok c)
    by (unfold Helper.get_components; now rewrite Hd).
  split; [ exact Hh | split ].
  - rewrite app_get_components_eq, Hd. exact Hh.
  - intros k. rewrite Hget. reflexivity.
Qed.

Lemma last_file_of_an_id_wins_witness :
  COMPONENTS_DIR same_id_store
    = Some [("c.json", Some (fun _ => Ok text_object));
            ("c.json.json", Some (fun _ => Ok text_array))] /\
  exists components,
    Helper.get_components json_loads_two same_id_store = Ok components /\
    dict_get "c" components = Some (JArr [JNum 1]).
Proof.
  assert (Hd : COMPONENTS_DIR same_id_store
               = Some [("c.json", Some (fun _ => Ok text_object));
                       ("c.json.json", Some (fun _ => Ok text_array))])
    by reflexivity.
  split; [ exact Hd | ].
  destruct (last_file_of_an_id_wins json_loads_two _ Hd) as (c & Hh & _ & Hget).
  exists c. split; [ exact Hh | ]. rewrite Hget. reflexivity.
Defined.

(** X13: every document of the subcomponent mapping that a loader returns,
    of either module, contains [id]: a document loaded without one got the
    id of its file before it was stored. *)
Theorem loaded_subcomponents_have_id (json_loads : text -> result json)
  (fs : filesystem) (subcomponents : dict json) :
  Helper.get_subcomponents json_loads fs = Ok subcomponents \/
  App.get_subcomponents json_loads fs = Ok subcomponents ->
  Forall (fun kv => py_in "id" (snd kv) = Ok true) subcomponents.
Proof.
  assert (Hh : forall s, Helper.get_subcomponents json_loads fs = Ok s ->
                         Forall (fun kv => py_in "id" (snd kv) = Ok true) s).
  { intros s H. unfold Helper.get_subcomponents in H.
    destruct (SUBCOMPONENTS_DIR fs) as [ files | ].
    - eapply load_subcomponents_ids; [ | exact H ]. constructor.
    - injection H as <-. constructor. }
  intros [ H | H ]; [ now apply Hh | ].
  destruct (loaders_eq_subcomponents json_loads fs) as [ Heq | Heq ].
  - apply Hh. now rewrite <- Heq.
  - rewrite Heq in H. injection H as <-. constructor.
Qed.

Lemma loaded_subcomponents_have_id_witness :
  App.get_subcomponents json_loads_two good_file_store
    = Ok [("good", JObj [("a", JNum 1); ("id", JStr "good")])] /\
  Forall (fun kv => py_in "id" (snd kv) = Ok true)
    [("good", JObj [("a", JNum 1); ("id", JStr "good")])].
Proof.
  assert (H : App.get_subcomponents json_loads_two good_file_store
              = Ok [("good", JObj [("a", JNum 1); ("id", JStr "good")])])
    by reflexivity.
  split; [ exact H | ].
  exact (loaded_subcomponents_have_id _ _ (or_intror H)).
Defined.

(** X14: without a components directory the graph of [build_graph_data],
    when it is built, has exactly the four built-in components as its
    component nodes, in their order. *)
Theorem default_components_without_directory (json_loads : text -> result json)
  (repr_container : json -> string) (fs : filesystem) (g : graph) :
  COMPONENTS_DIR fs = None ->
  App.build_graph_data json_loads repr_container fs = Ok g ->
  ids_of_type T_component (graph_nodes g) =
    map JStr ["technical-safeguards"; "value-learning";
              "interpretability-tools"; "oversight-mechanisms"].
Proof.
  intros Hd H.
  destruct (build_graph_data_loaded _ _ _ H) as (r & c & s & _ & Hc & _ & Hb).
  rewrite app_get_components_eq, Hd in Hc. injection Hc as <-.
  exact (built_component_ids _ _ _ _ Hb).
Qed.

Lemma default_components_without_directory_witness :
  COMPONENTS_DIR empty_store = None /\
  ids_of_type T_component
    (graph_nodes
       (graph_of (App.build_graph_data json_loads_nothing repr_unused
                    empty_store))) =
    map JStr ["technical-safeguards"; "value-learning";
              "interpretability-tools"; "oversight-mechanisms"].
Proof.
  assert (Hd : COMPONENTS_DIR empty_store = None) by reflexivity.
  assert (H : App.build_graph_data json_loads_nothing repr_unused empty_store
              = Ok (graph_of (App.build_graph_data json_loads_nothing
                                repr_unused empty_store)))
    by (vm_compute; reflexivity).
  split; [ exact Hd | exact (default_components_without_directory _ _ _ Hd H) ].
Defined.

(** * [load_json_file], encoding by encoding *)

Section LoadFacts.

Variable json_loads : text -> result json.

Lemma nonempty_nil {A} (l : list A) : nonempty l = false <-> l = [].
Proof. destruct l; simpl; split; congruence. Qed.

Lemma try_encoding_yields (f : file) (enc : encoding) (d : json) :
  encoding_yields json_loads f enc d ->
  try_encoding json_loads f enc = Ok (Some d).
Proof.
  intros (raw & Hr & He & Hs & Hj). unfold try_encoding. rewrite Hr. simpl.
  destruct (nonempty (strip raw)) eqn:En;
    [ | apply nonempty_nil in En; contradiction ].
  simpl. fold (cleaned raw). rewrite Hj.
  apply orb_true_iff in Hs.
  destruct (starts_with LBRACE (cleaned raw)),
           (starts_with LBRACKET (cleaned raw));
    simpl; try reflexivity.
  destruct Hs; discriminate.
Qed.

(** An encoding fails or yields. *)
Lemma try_encoding_cases (f : file) (enc : encoding) :
  encoding_fails json_loads f enc \/
  exists d, encoding_yields json_loads f enc d.
Proof.
  destruct (f enc) as [ raw | e ] eqn:Hr; [ | left; eapply unreadable; eauto ].
  destruct (nonempty (strip raw)) eqn:En;
    [ | apply nonempty_nil in En; left; eapply empty_content; eauto ].
  destruct (starts_with LBRACE (cleaned raw) || starts_with LBRACKET (cleaned raw))
    eqn:Es.
  - destruct (json_loads (cleaned raw)) as [ d | e ] eqn:Hj.
    + right. exists d, raw. repeat split; auto.
      intros Hnil. rewrite Hnil in En. discriminate.
    + left. eapply invalid_json; eauto.
  - apply orb_false_iff in Es. destruct Es. left. eapply not_json; eauto.
Qed.

Lemma try_encodings_some (f : file) (encs : list encoding) (d : json) :
  try_encodings json_loads f encs = Ok (Some d) <-> first_yield json_loads f encs d.
Proof.
  unfold first_yield. induction encs as [ | enc encs IH ]; simpl.
  - split; [ discriminate | ].
    intros (earlier & e & later & Heq & _). destruct earlier; discriminate.
  - destruct (try_encoding_cases f enc) as [ Hf | (d' & Hy) ].
    + rewrite (try_encoding_fails Hf). simpl. rewrite IH. split.
      * intros (earlier & e & later & -> & Hall & Hy).
        exists (enc :: earlier), e, later. repeat split; auto.
        intros x [ <- | Hx ]; auto.
      * intros (earlier & e & later & Heq & Hall & Hy).
        destruct earlier as [ | e0 earlier ]; simpl in Heq;
          injection Heq as <- ->.
        -- apply try_encoding_yields in Hy. rewrite (try_encoding_fails Hf) in Hy.
           discriminate.
        -- exists earlier, e, later. repeat split; auto.
           intros x Hx. apply Hall. now right.
    + rewrite (try_encoding_yields Hy). simpl. split.
      * intros H. injection H as <-. exists [], enc, encs. repeat split; auto.
        intros e [].
      * intros (earlier & e & later & Heq & Hall & Hy').
        destruct earlier as [ | e0 earlier ]; simpl in Heq;
          injection Heq as <- ->.
        -- apply try_encoding_yields in Hy'. rewrite (try_encoding_yields Hy) in Hy'.
           congruence.
        -- specialize (Hall enc (or_introl eq_refl)).
           apply try_encoding_yields in Hy. rewrite (try_encoding_fails Hall) in Hy.
           discriminate.
Qed.

Lemma try_encodings_none (f : file) (encs : list encoding) :
  try_encodings json_loads f encs = Ok None <->
  forall enc, In enc encs -> encoding_fails json_loads f enc.
Proof.
  split; [ | apply try_encodings_fail ].
  induction encs as [ | enc encs IH ]; simpl; intros H e He; [ contradiction | ].
  destruct (try_encoding_cases f enc) as [ Hf | (d' & Hy) ].
  - rewrite (try_encoding_fails Hf) in H. simpl in H.
    destruct He as [ <- | He ]; auto.
  - rewrite (try_encoding_yields Hy) in H. discriminate.
Qed.

Lemma try_encodings_total (f : file) (encs : list encoding) :
  exists r, try_encodings json_loads f encs = Ok r.
Proof.
  induction encs as [ | enc encs IH ]; simpl; eauto.
  destruct (try_encoding_total json_loads f enc) as (r & ->). simpl.
  destruct r; eauto.
Qed.

Lemma load_json_file_file (f : file) :
  load_json_file json_loads (Some f) = try_encodings json_loads f encodings.
Proof.
  unfold load_json_file.
  destruct (try_encodings_total f encodings) as (r & ->). reflexivity.
Qed.

End LoadFacts.

(** X15: [load_json_file] returns the document of the first encoding, in
    the order utf-8-sig, utf-8, latin1, cp1252, with which the file decodes
    to a text that is not blank, starts with a brace or a bracket once the
    byte order mark and the blanks around are removed, and parses; an
    encoding that fails in any way, a parse error included, only passes
    the turn to the next one.  It returns [None] exactly when the file is
    missing or every encoding fails, and it never raises. *)
Theorem first_encoding_decides (json_loads : text -> result json)
  (p : path_entry) :
  (forall d,
      load_json_file json_loads p = Ok (Some d) <->
      exists f, p = Some f /\ first_yield json_loads f encodings d) /\
  (load_json_file json_loads p = Ok None <-> load_fails json_loads p) /\
  exists r, load_json_file json_loads p = Ok r.
Proof.
  split; [ | split ].
  - intros d. destruct p as [ f | ].
    + rewrite load_json_file_file, try_encodings_some. split.
      * intros H. eauto.
      * intros (f' & Hf & H). injection Hf as <-. exact H.
    + split; [ discriminate | ]. intros (f & Hf & _). discriminate.
  - destruct p as [ f | ].
    + rewrite load_json_file_file, try_encodings_none. split.
      * intros H. now constructor.
      * intros H. inversion H. assumption.
    + split; [ constructor | reflexivity ].
  - apply load_json_file_total.
Qed.

Lemma first_encoding_decides_witness :
  load_json_file json_loads_two (Some second_encoding_file)
    = Ok (Some (JObj [("a", JNum 1)])) /\
  exists f, Some second_encoding_file = Some f /\
            first_yield json_loads_two f encodings (JObj [("a", JNum 1)]).
Proof.
  assert (H : load_json_file json_loads_two (Some second_encoding_file)
              = Ok (Some (JObj [("a", JNum 1)]))) by reflexivity.
  split; [ exact H | ].
  exact (proj1 (proj1 (first_encoding_decides json_loads_two
                         (Some second_encoding_file)) _) H).
Defined.

(** * The id of a file *)

Lemma prefix_cons (a b : ascii) (p t : string) :
  String.prefix (String a p) (String b t) =
  if ascii_dec a b then String.prefix p t else false.
Proof. reflexivity. Qed.

Lemma is_substring_cons (k : string) (c : ascii) (s : string) :
  is_substring k (String c s) =
  if String.prefix k (String c s) then true else is_substring k s.
Proof. reflexivity. Qed.

(** A prefix that does not contain the first character of what is appended
    does not appear by appending. *)
Lemma prefix_app_false (c : ascii) (u : string) (p : string) :
  avoids c p = true ->
  forall t, String.prefix p t = false ->
            String.prefix p (t ++ String c u) = false.
Proof.
  induction p as [ | a p IH ]; intros Ha t Ht.
  - destruct t; discriminate.
  - cbn [avoids] in Ha. apply andb_true_iff in Ha. destruct Ha as [Hac Ha].
    destruct t as [ | b t ].
    + change (EmptyString ++ String c u)%string with (String c u).
      rewrite prefix_cons. destruct (ascii_dec a c) as [ -> | ]; [ | reflexivity ].
      rewrite Ascii.eqb_refl in Hac. discriminate.
    + change (String b t ++ String c u)%string with (String b (t ++ String c u)).
      rewrite prefix_cons in *.
      destruct (ascii_dec a b); [ now apply IH | reflexivity ].
Qed.

Lemma remove_json_cons (c : ascii) (s : string) :
  remove_json 0 (String c s) =
  if String.prefix ".json" (String c s) then remove_json 4 s
  else String c (remove_json 0 s).
Proof. reflexivity. Qed.

Lemma remove_json_stem (stem : string) :
  is_substring ".json" stem = false ->
  remove_json 0 (stem ++ ".json") = stem.
Proof.
  induction stem as [ | c stem IH ]; intros H.
  - reflexivity.
  - rewrite is_substring_cons in H.
    destruct (String.prefix ".json" (String c stem)) eqn:Hp; [ discriminate | ].
    change (String c stem ++ ".json")%string with (String c (stem ++ ".json")).
    rewrite remove_json_cons.
    assert (Hq : String.prefix ".json" (String c (stem ++ ".json")) = false).
    { rewrite prefix_cons in *. destruct (ascii_dec "." c); [ | reflexivity ].
      apply (prefix_app_false "." "json" "json" eq_refl). exact Hp. }
    rewrite Hq. now rewrite IH.
Qed.

(** X16: the id of a file named [stem.json], where [stem] does not contain
    [.json], is [stem]: this is the key of its document in the component
    and subcomponent mappings, hence the id of its node. *)
Theorem file_id_is_the_stem (stem : string) :
  is_substring ".json" stem = false ->
  id_of_file (stem ++ ".json") = stem.
Proof. apply remove_json_stem. Qed.

Lemma file_id_is_the_stem_witness :
  is_substring ".json" "value-learning" = false /\
  id_of_file ("value-learning" ++ ".json") = "value-learning"%string.
Proof.
  assert (H : is_substring ".json" "value-learning" = false) by reflexivity.
  split; [ exact H | exact (file_id_is_the_stem _ H) ].
Defined.

(** * The routes *)

Section RouteFacts.

Variable json_loads : text -> result json.

Lemma check_file_step (failed : string -> health_error)
  (raised : string -> exn -> health_error)
  (reports : list file_report) (errors : list health_error)
  (entry : string * path_entry) :
  Routes.check_file json_loads failed raised (reports, errors) entry =
  (reports ++ [report_of json_loads entry],
   errors ++ file_errors json_loads failed [entry]).
Proof.
  unfold Routes.check_file, report_of, file_errors, file_document. simpl.
  destruct (load_json_file_total json_loads (snd entry)) as (r & ->).
  destruct r as [ d | ]; simpl.
  - destruct (truthy d); simpl; now rewrite ?app_nil_r.
  - reflexivity.
Qed.

Lemma check_files (failed : string -> health_error)
  (raised : string -> exn -> health_error) (files : list (string * path_entry)) :
  forall reports errors,
    fold_left (Routes.check_file json_loads failed raised) files (reports, errors) =
    (reports ++ map (report_of json_loads) files,
     errors ++ file_errors json_loads failed files).
Proof.
  induction files as [ | entry files IH ]; intros reports errors;
    cbn [fold_left].
  - simpl. now rewrite !app_nil_r.
  - rewrite check_file_step, IH, <- !app_assoc.
    unfold file_errors. simpl. now rewrite app_nil_r.
Qed.

Lemma file_errors_nil (failed : string -> health_error)
  (files : list (string * path_entry)) :
  file_errors json_loads failed files = [] <-> all_load json_loads files.
Proof.
  unfold all_load. induction files as [ | entry files IH ]; simpl.
  - split; [ intros _ e [] | reflexivity ].
  - destruct (file_document json_loads entry) as [ d | ] eqn:E; simpl.
    + rewrite IH. split.
      * intros H e [ <- | He ]; [ congruence | auto ].
      * intros H e He. apply H. now right.
    + split; [ discriminate | ].
      intros H. exfalso. apply (H entry); auto.
Qed.

Lemma file_errors_kind (failed : string -> health_error)
  (files : list (string * path_entry)) (e : health_error) :
  In e (file_errors json_loads failed files) -> exists file_path, e = failed file_path.
Proof.
  unfold file_errors. intros H. apply in_flat_map in H.
  destruct H as (entry & _ & He).
  destruct (file_document json_loads entry); [ contradiction | ].
  destruct He as [ <- | [] ]. eauto.
Qed.

Lemma health_check_eq (fs : filesystem) :
  let c := directory_check json_loads (COMPONENTS_DIR fs) Components_dir_missing
             Component_failed in
  let s := directory_check json_loads (SUBCOMPONENTS_DIR fs)
             Subcomponents_dir_missing Subcomponent_failed in
  Routes.health_check json_loads fs =
  Health {| health_state := if nonempty (snd c ++ snd s) then "error" else "ok";
            health_root_data := true;
            health_components := fst c;
            health_subcomponents := fst s;
            health_errors := snd c ++ snd s |}
    (if nonempty (snd c ++ snd s) then 500 else 200).
Proof.
  unfold Routes.health_check, directory_check.
  destruct (get_root_data_truthy json_loads fs) as (root & -> & -> & _).
  destruct (COMPONENTS_DIR fs) as [ cf | ];
    destruct (SUBCOMPONENTS_DIR fs) as [ sf | ];
    rewrite ?check_files; simpl;
    try match goal with
        | |- context [ nonempty ?l ] => destruct (nonempty l)
        end; reflexivity.
Qed.

End RouteFacts.

(** X17: whatever the store holds, [health_check] answers with its status
    document, never with the body of its outer handler; [root_data] is
    always true and the message of a root document that failed to load is
    never among the errors (a root file that does not load is replaced by
    the built-in document before the check looks at it); no file is
    reported with the status [error], since [load_json_file] raises
    nothing. *)
Theorem health_check_never_blames_root (json_loads : text -> result json)
  (fs : filesystem) :
  exists h status_code,
    Routes.health_check json_loads fs = Health h status_code /\
    health_root_data h = true /\
    ~ In Root_failed (health_errors h) /\
    forall r, In r (health_components h ++ health_subcomponents h) ->
              report_status r = status_loaded \/ report_status r = status_failed.
Proof.
  pose proof (health_check_eq json_loads fs) as H. cbv zeta in H.
  eexists _, _. split; [ exact H | ]. simpl. split; [ reflexivity | ]. split.
  - intros Hin. apply in_app_iff in Hin.
    destruct (COMPONENTS_DIR fs), (SUBCOMPONENTS_DIR fs); simpl in Hin;
      destruct Hin as [ Hin | Hin ];
      try (apply file_errors_kind in Hin; destruct Hin as (p & Hp));
      try destruct Hin as [ Hin | [] ]; discriminate.
  - intros r Hr. apply in_app_iff in Hr.
    assert (Hrep : forall files,
               In r (map (report_of json_loads) files) ->
               report_status r = status_loaded \/ report_status r = status_failed).
    { intros files Hin. apply in_map_iff in Hin. destruct Hin as (e & <- & _).
      simpl. destruct (file_document json_loads e); auto. }
    destruct (COMPONENTS_DIR fs), (SUBCOMPONENTS_DIR fs); simpl in Hr;
      destruct Hr as [ Hr | Hr ]; eauto; contradiction.
Qed.

(** X18: [health_check] answers 200 with status ["ok"] and no error exactly
    when both directories exist and every file they list loads a non-empty
    document; otherwise it answers 500 with status ["error"] and at least
    one message.  Each directory is reported file by file, in the order of
    the listing, under the id of the file. *)
Theorem health_check_ok_iff_all_load (json_loads : text -> result json)
  (fs : filesystem) :
  exists h status_code,
    Routes.health_check json_loads fs = Health h status_code /\
    (status_code = 200 /\ health_state h = "ok" /\ health_errors h = [] \/
     status_code = 500 /\ health_state h = "error" /\ health_errors h <> []) /\
    (status_code = 200 <->
     exists component_files subcomponent_files,
       COMPONENTS_DIR fs = Some component_files /\
       SUBCOMPONENTS_DIR fs = Some subcomponent_files /\
       all_load json_loads component_files /\
       all_load json_loads subcomponent_files) /\
    (forall component_files, COMPONENTS_DIR fs = Some component_files ->
       map report_file (health_components h) = map fst component_files /\
       map report_id (health_components h)
         = map (fun entry => id_of_file (fst entry)) component_files).
Proof.
  pose proof (health_check_eq json_loads fs) as H. cbv zeta in H.
  eexists _, _. split; [ exact H | ]. simpl.
  set (c := directory_check json_loads (COMPONENTS_DIR fs) Components_dir_missing
              Component_failed) in *.
  set (s := directory_check json_loads (SUBCOMPONENTS_DIR fs)
              Subcomponents_dir_missing Subcomponent_failed) in *.
  assert (Hnil : snd c ++ snd s = [] <->
                 exists cf sf,
                   COMPONENTS_DIR fs = Some cf /\ SUBCOMPONENTS_DIR fs = Some sf /\
                   all_load json_loads cf /\ all_load json_loads sf).
  { subst c s. unfold directory_check.
    destruct (COMPONENTS_DIR fs) as [ cf | ];
      destruct (SUBCOMPONENTS_DIR fs) as [ sf | ]; simpl.
    - split.
      + intros Happ. apply app_eq_nil in Happ. destruct Happ as [Hc Hs].
        apply file_errors_nil in Hc. apply file_errors_nil in Hs. eauto 6.
      + intros (cf' & sf' & Ec & Es & Hc & Hs).
        injection Ec as <-. injection Es as <-.
        apply (file_errors_nil json_loads Component_failed) in Hc.
        apply (file_errors_nil json_loads Subcomponent_failed) in Hs.
        now rewrite Hc, Hs.
    - split.
      + intros Happ. apply app_eq_nil in Happ. destruct Happ as [_ Hs].
        discriminate.
      + intros (cf' & sf' & _ & Es & _). discriminate.
    - split; [ discriminate | ].
      intros (cf' & sf' & Ec & _). discriminate.
    - split; [ discriminate | ].
      intros (cf' & sf' & Ec & _). discriminate. }
  split; [ | split ].
  - destruct (snd c ++ snd s); simpl; [ left | right ]; repeat split; discriminate.
  - rewrite <- Hnil. destruct (snd c ++ snd s); simpl; split;
      try reflexivity; discriminate.
  - intros cf Hc. subst c. rewrite Hc. simpl. rewrite !map_map. simpl. auto.
Qed.

(** X19: [root_details] answers with the root document (the file's when it
    loads a non-empty document, the built-in one otherwise) and status 200,
    unless the subcomponent loader of the helper raises: the documents are
    all loaded before the id is looked at, so a subcomponent file that
    makes the loader raise turns the answer into the 500 body of the
    route's handler.  The detail route answers the same for the id
    ["ai-alignment"], with its own 500 body. *)
Theorem root_details_answer (json_loads : text -> result json)
  (str_exn : exn -> string) (fs : filesystem) :
  exists root_data,
    get_root_data json_loads fs = Ok root_data /\
    truthy root_data = true /\
    Routes.root_details json_loads str_exn fs =
      match Helper.get_subcomponents json_loads fs with
      | Ok _ => (root_data, 200)
      | Raise e => (root_error_body (str_exn e), 500)
      end /\
    Routes.node_details json_loads str_exn fs "ai-alignment" =
      match Helper.get_subcomponents json_loads fs with
      | Ok _ => (root_data, 200)
      | Raise e =>
          (error_body
             ("Error getting node details for ai-alignment: " ++ str_exn e)
             "ai-alignment" "Error Loading Node" "Could not load node details"
             "error", 500)
      end.
Proof.
  destruct (get_root_data_truthy json_loads fs) as (root & Hr & Ht & _).
  destruct (helper_get_components_total json_loads fs) as (c & Hc).
  exists root. split; [ exact Hr | split; [ exact Ht | ] ].
  unfold Routes.root_details, Routes.node_details, Helper.get_node_details.
  rewrite Hr, Hc. simpl.
  destruct (Helper.get_subcomponents json_loads fs) as [ s | e ]; simpl.
  - unfold node_details, node_details_with. rewrite Ht. simpl. auto.
  - auto.
Qed.

(** * The graph and the details of its nodes *)

Lemma dict_set_nodup {V} (k : string) (v : V) (d : dict V) :
  NoDup (keys d) -> NoDup (keys (dict_set k v d)).
Proof.
  unfold keys. induction d as [ | [k0 v0] d IH ]; simpl; intros H.
  - constructor; [ intros [] | constructor ].
  - inversion H as [ | ? ? Hnin Hd ]; subst.
    destruct (String.eqb k k0) eqn:E; simpl.
    + constructor; assumption.
    + constructor; [ | now apply IH ].
      intros Hin. apply (keys_dict_set k k0 v d) in Hin.
      destruct Hin as [ -> | Hin ]; [ | contradiction ].
      rewrite String.eqb_refl in E. discriminate.
Qed.

Lemma dict_get_in {V} (k : string) (v : V) (d : dict V) :
  NoDup (keys d) -> In (k, v) d -> dict_get k d = Some v.
Proof.
  unfold keys. induction d as [ | [k0 v0] d IH ]; simpl; intros H Hin;
    [ contradiction | ].
  inversion H as [ | ? ? Hnin Hd ]; subst.
  destruct Hin as [ Heq | Hin ].
  - injection Heq as -> ->. now rewrite String.eqb_refl.
  - destruct (String.eqb k k0) eqn:E; [ | now apply IH ].
    apply String.eqb_eq in E. subst k0. exfalso. apply Hnin.
    apply in_map_iff. exists (k, v). auto.
Qed.

Lemma dict_get_key {V} (k : string) (d : dict V) :
  In k (keys d) -> exists v, dict_get k d = Some v.
Proof.
  unfold keys. induction d as [ | [k0 v0] d IH ]; simpl; intros Hin;
    [ contradiction | ].
  destruct (String.eqb k k0) eqn:E; [ eauto | ].
  destruct Hin as [ -> | Hin ]; [ | auto ].
  rewrite String.eqb_refl in E. discriminate.
Qed.

Section Consistency.

Variable json_loads : text -> result json.

Lemma load_subcomponents_nodup (files : list (string * path_entry)) :
  forall subcomponents loaded_subcomponents,
    NoDup (keys subcomponents) ->
    foreach (load_subcomponent json_loads) files subcomponents
      = Ok loaded_subcomponents ->
    NoDup (keys loaded_subcomponents).
Proof.
  induction files as [ | entry files IH ]; simpl; intros s s' Hs H.
  - now injection H as <-.
  - ok_inv H. eapply IH; [ | exact H ]. clear IH H.
    unfold load_subcomponent in E. ok_inv E. rename a0 into data.
    destruct data as [ d | ]; [ | now injection E as <- ].
    destruct (truthy d); [ | now injection E as <- ].
    ok_inv E. ok_inv E. injection E as <-. now apply dict_set_nodup.
Qed.

Lemma helper_subcomponents_nodup (fs : filesystem) (subcomponents : dict json) :
  Helper.get_subcomponents json_loads fs = Ok subcomponents ->
  NoDup (keys subcomponents).
Proof.
  unfold Helper.get_subcomponents. destruct (SUBCOMPONENTS_DIR fs) as [ files | ].
  - apply load_subcomponents_nodup. constructor.
  - intros H. injection H as <-. constructor.
Qed.

(** What the resolver answers for a key of one of the two mappings. *)
Lemma node_details_of_a_key (root_data root_id : json)
  (components subcomponents : dict json) (k : string) :
  truthy root_data = true ->
  subscript root_data "id" = Ok root_id ->
  (exists c, dict_get k components = Some c) \/
  (exists fields, dict_get k subcomponents = Some (JObj fields)) ->
  exists body, node_details root_data components subcomponents k = Ok (body, 200).
Proof.
  intros Ht Hr Hk. unfold node_details, node_details_with. rewrite Ht, Hr. simpl.
  destruct (String.eqb k "ai-alignment"); simpl; [ eauto | ].
  destruct (eq_str root_id k); [ eauto | ].
  destruct (dict_get k components) as [ c | ]; [ eauto | ].
  destruct Hk as [ (c & Hc) | (fields & ->) ]; [ discriminate | eauto ].
Qed.

(** The details of the keys, through the loaders of the helper. *)
Lemma get_node_details_of_a_key (fs : filesystem) (root_data root_id : json)
  (components subcomponents : dict json) (k : string) :
  get_root_data json_loads fs = Ok root_data ->
  Helper.get_components json_loads fs = Ok components ->
  Helper.get_subcomponents json_loads fs = Ok subcomponents ->
  subscript root_data "id" = Ok root_id ->
  (exists c, dict_get k components = Some c) \/
  (exists fields, dict_get k subcomponents = Some (JObj fields)) ->
  exists body, Helper.get_node_details json_loads fs k = Ok (body, 200).
Proof.
  intros Hr Hc Hs Hid Hk.
  destruct (get_root_data_truthy json_loads fs) as (r' & Hr' & Ht & _).
  rewrite Hr in Hr'. injection Hr' as <-.
  unfold Helper.get_node_details. rewrite Hr, Hc, Hs. simpl.
  eapply node_details_of_a_key; eauto.
Qed.

End Consistency.

(** X20: each module has its own store.  When the store of the helper
    lists in its two directories the files that the store of app.py lists,
    the components directory exists, the root document of the helper has an
    id and the subcomponent loader of the helper does not raise, every
    component node and every subcomponent node of the graph of
    [build_graph_data] has details: [get_node_details] answers its id with
    status 200. *)
Theorem graph_nodes_have_details (json_loads : text -> result json)
  (repr_container : json -> string) (app_store helper_store : filesystem)
  (files : list (string * path_entry)) (root_data root_id : json)
  (subcomponents : dict json) (g : graph) (n : node) :
  COMPONENTS_DIR app_store = Some files ->
  COMPONENTS_DIR helper_store = Some files ->
  SUBCOMPONENTS_DIR helper_store = SUBCOMPONENTS_DIR app_store ->
  get_root_data json_loads helper_store = Ok root_data ->
  subscript root_data "id" = Ok root_id ->
  Helper.get_subcomponents json_loads helper_store = Ok subcomponents ->
  App.build_graph_data json_loads repr_container app_store = Ok g ->
  In n (graph_nodes g) ->
  node_type_of n = T_component \/ node_type_of n = T_subcomponent ->
  exists k body,
    node_id n = JStr k /\
    Helper.get_node_details json_loads helper_store k = Ok (body, 200).
Proof.
  intros Hda Hdh Hsd Hrh Hidh Hs H Hin Ht.
  destruct (build_graph_data_loaded _ _ _ H) as (r & c & s & Hr & Hc & Hs' & Hb).
  rewrite app_get_components_eq, Hda in Hc.
  assert (Hch : Helper.get_components json_loads helper_store = Ok c).
  { unfold Helper.get_components in *. rewrite Hda in Hc. now rewrite Hdh. }
  assert (Heq : s = subcomponents \/ s = []).
  { assert (Hsame : Helper.get_subcomponents json_loads app_store
                    = Helper.get_subcomponents json_loads helper_store)
      by (unfold Helper.get_subcomponents; now rewrite Hsd).
    destruct (loaders_eq_subcomponents json_loads app_store) as [ Heq | Heq ];
      rewrite Heq in Hs'.
    - left. congruence.
    - right. congruence. }
  destruct (build_graph_emits _ _ _ _ Hb)
    as (rid & rname & rdesc & st & _ & _ & _ & Hg & Hcs & Hss & Hall).
  assert (Hnodes : graph_nodes g = nodes st) by (now rewrite Hg).
  rewrite Hnodes in Hin. destruct Ht as [ Ht | Ht ].
  - assert (Hn : In (summary n) (map summary (nodes_of_type T_component (nodes st)))).
    { apply in_map. apply filter_In. split; [ exact Hin | ]. now rewrite Ht. }
    rewrite Hcs in Hn. apply in_map_iff in Hn.
    destruct Hn as ([k c0] & Hsum & Hk). injection Hsum as Hid _ _.
    simpl in Hid.
    destruct (@get_node_details_of_a_key json_loads helper_store _ _ _ _ k
                Hrh Hch Hs Hidh) as (body & Hbody).
    + left. apply dict_get_key. apply in_map_iff. exists (k, c0). auto.
    + exists k, body. auto.
  - assert (Hn : In (id_and_parent n)
                   (map id_and_parent (nodes_of_type T_subcomponent (nodes st)))).
    { apply in_map. apply filter_In. split; [ exact Hin | ]. now rewrite Ht. }
    rewrite Hss in Hn. apply in_flat_map in Hn.
    destruct Hn as ([cid c0] & Hcin & Hn). unfold subcomponent_places in Hn.
    apply in_map_iff in Hn. destruct Hn as (k & Hpl & Hk).
    injection Hpl as Hid _. simpl in Hk.
    destruct Heq as [ -> | -> ]; [ | contradiction ].
    rewrite Forall_forall in Hall. destruct (Hall _ Hcin) as (att & Hatt).
    apply (attached_keys_spec _ _ Hatt) in Hk.
    destruct Hk as (sdoc & Hsin & (p & Hp & _)).
    destruct sdoc as [ | | | | | fields ]; try discriminate.
    destruct (@get_node_details_of_a_key json_loads helper_store _ _ _ _ k
                Hrh Hch Hs Hidh) as (body & Hbody).
    + right. exists fields. apply dict_get_in; [ | exact Hsin ].
      eapply helper_subcomponents_nodup; eauto.
    + exists k, body. auto.
Qed.

Lemma graph_nodes_have_details_witness :
  App.build_graph_data json_loads_small repr_unused small_store = Ok small_graph /\
  exists k body,
    JStr "sub" = JStr k /\
    Helper.get_node_details json_loads_small small_store_of_helper k
      = Ok (body, 200).
Proof.
  assert (Hda : COMPONENTS_DIR small_store
                = Some [("comp.json", Some (fun _ => Ok text_component))])
    by reflexivity.
  assert (Hdh : COMPONENTS_DIR small_store_of_helper
                = Some [("comp.json", Some (fun _ => Ok text_component))])
    by reflexivity.
  assert (Hsd : SUBCOMPONENTS_DIR small_store_of_helper
                = SUBCOMPONENTS_DIR small_store) by reflexivity.
  assert (Hrh : get_root_data json_loads_small small_store_of_helper
                = Ok DEFAULT_ROOT_DATA) by reflexivity.
  assert (Hidh : subscript DEFAULT_ROOT_DATA "id" = Ok (JStr "ai-alignment"))
    by reflexivity.
  assert (Hs : Helper.get_subcomponents json_loads_small small_store_of_helper
               = Ok [("sub", JObj [("name", JStr "S"); ("parent", JStr "comp");
                                   ("id", JStr "sub")])])
    by reflexivity.
  assert (H : App.build_graph_data json_loads_small repr_unused small_store
              = Ok small_graph) by reflexivity.
  split; [ exact H | ].
  assert (Hin : In {| node_id := JStr "sub";
                      node_name := JStr "S";
                      node_type_of := T_subcomponent;
                      node_description := JStr "";
                      node_parent := Some (JStr "comp");
                      node_level := 2;
                      node_expandable := false;
                      node_has_children := false |}
                   (graph_nodes small_graph))
    by (right; right; left; reflexivity).
  exact (@graph_nodes_have_details json_loads_small repr_unused small_store
           small_store_of_helper _ _ _ _ small_graph _
           Hda Hdh Hsd Hrh Hidh Hs H Hin (or_intror eq_refl)).
Defined.

(** X21: without the two directories the graph of [build_graph_data] shows
    the four built-in components, but the helper knows no component:
    [get_node_details] answers the id of any of them with the "not found"
    body and status 404, unless it is the id of the root document. *)
Theorem default_components_have_no_details (json_loads : text -> result json)
  (repr_container : json -> string) (fs : filesystem) (g : graph)
  (root_data root_id : json) (k : string) :
  COMPONENTS_DIR fs = None ->
  SUBCOMPONENTS_DIR fs = None ->
  App.build_graph_data json_loads repr_container fs = Ok g ->
  get_root_data json_loads fs = Ok root_data ->
  subscript root_data "id" = Ok root_id ->
  eq_str root_id k = false ->
  In k ["technical-safeguards"; "value-learning";
        "interpretability-tools"; "oversight-mechanisms"] ->
  In (JStr k) (ids_of_type T_component (graph_nodes g)) /\
  Helper.get_node_details json_loads fs k = Ok (not_found_body k, 404).
Proof.
  intros Hd Hs H Hr Hid Hne Hk. split.
  - destruct (build_graph_data_loaded _ _ _ H) as (r & c & s & _ & Hc & _ & Hb).
    rewrite app_get_components_eq, Hd in Hc. injection Hc as <-.
    rewrite (built_component_ids _ _ _ _ Hb). now apply in_map.
  - destruct (get_root_data_truthy json_loads fs) as (r' & Hr' & Ht & _).
    rewrite Hr in Hr'. injection Hr' as <-.
    unfold Helper.get_node_details, Helper.get_components,
      Helper.get_subcomponents.
    rewrite Hr, Hd, Hs. simpl.
    unfold node_details, node_details_with. rewrite Ht, Hid. simpl. rewrite Hne.
    assert (Hai : String.eqb k "ai-alignment" = false).
    { simpl in Hk. destruct Hk as [ <- | [ <- | [ <- | [ <- | [] ] ] ] ];
        reflexivity. }
    rewrite Hai. reflexivity.
Qed.

Lemma default_components_have_no_details_witness :
  App.build_graph_data json_loads_nothing repr_unused empty_store
    = Ok default_graph /\
  In (JStr "value-learning") (ids_of_type T_component (graph_nodes default_graph)) /\
  Helper.get_node_details json_loads_nothing empty_store "value-learning"
    = Ok (not_found_body "value-learning", 404).
Proof.
  assert (Hd : COMPONENTS_DIR empty_store = None) by reflexivity.
  assert (Hs : SUBCOMPONENTS_DIR empty_store = None) by reflexivity.
  assert (H : App.build_graph_data json_loads_nothing repr_unused empty_store
              = Ok default_graph) by reflexivity.
  assert (Hr : get_root_data json_loads_nothing empty_store = Ok DEFAULT_ROOT_DATA)
    by reflexivity.
  assert (Hid : subscript DEFAULT_ROOT_DATA "id" = Ok (JStr "ai-alignment"))
    by reflexivity.
  assert (Hne : eq_str (JStr "ai-alignment") "value-learning" = false)
    by reflexivity.
  assert (Hk : In "value-learning"
                 ["technical-safeguards"; "value-learning";
                  "interpretability-tools"; "oversight-mechanisms"])
    by (right; left; reflexivity).
  split; [ exact H | ].
  exact (@default_components_have_no_details json_loads_nothing repr_unused
           empty_store default_graph _ _ _ Hd Hs H Hr Hid Hne Hk).
Defined.

(** * The build on any documents, and its route *)

Lemma foreach_app {A S} (body : S -> A -> result S) (l1 l2 : list A) (s : S) :
  foreach body (l1 ++ l2) s = (s1 <- foreach body l1 s ;; foreach body l2 s1).
Proof.
  revert s. induction l1 as [ | x l1 IH ]; intros s; simpl; [ reflexivity | ].
  destruct (body s x) as [ s1 | e ]; simpl; auto.
Qed.

Section AnyDocuments.

Variable repr_container : json -> string.

(** A component document without ["name"] is where the loop stops. *)
Lemma add_component_nameless (root_data : json) (subcomponents : dict json)
  (st : state) (component_id : string) (c : dict json) :
  dict_get "name" c = None ->
  (forall st', add_component repr_container root_data subcomponents st
                 (component_id, JObj c) <> Ok st') /\
  (forallb (fun entry => subcomponent_ok (snd entry)) subcomponents = true ->
   add_component repr_container root_data subcomponents st (component_id, JObj c)
     = Raise KeyError).
Proof.
  intros Hname. unfold add_component. split.
  - intros st' H. ok_inv H. ok_inv H. simpl in E0. rewrite Hname in E0.
    discriminate.
  - intros Hs.
    destruct (component_subcomponents_total component_id _ Hs)
      as (attached & -> & _).
    cbn [bind subscript]. now rewrite Hname.
Qed.

Lemma build_graph_nameless (root_data : json)
  (before rest : dict json) (subcomponents : dict json)
  (component_id : string) (c : dict json) :
  dict_get "name" c = None ->
  (forall g, build_graph repr_container root_data
               (before ++ (component_id, JObj c) :: rest) subcomponents <> Ok g) /\
  (documents_ok root_data before subcomponents = true ->
   build_graph repr_container root_data
     (before ++ (component_id, JObj c) :: rest) subcomponents = Raise KeyError).
Proof.
  intros Hname. split.
  - intros g H. unfold build_graph in H.
    ok_inv H. ok_inv H. ok_inv H. ok_inv H. ok_inv H.
    rewrite foreach_app in E3. ok_inv E3. cbn [foreach] in E3. ok_inv E3.
    exact (proj1 (@add_component_nameless root_data subcomponents a4
                    component_id c Hname) _ E5).
  - intros Hok. unfold documents_ok in Hok.
    apply andb_true_iff in Hok. destruct Hok as [Hok Hsubs].
    apply andb_true_iff in Hok. destruct Hok as [Hroot Hcomps].
    assert (Hr := Hroot).
    destruct root_data as [ | | | | | r ]; try discriminate. simpl in Hroot.
    unfold dict_mem, id_ok in Hroot.
    unfold build_graph. cbn [subscript].
    destruct (dict_get "id" r) as [ root_id | ]; [ | discriminate ].
    destruct (dict_get "name" r) as [ root_name | ];
      [ | rewrite !andb_false_r in Hroot; discriminate ].
    destruct (dict_get "description" r) as [ root_description | ];
      [ | rewrite !andb_false_r in Hroot; discriminate ].
    simpl in Hroot. rewrite !andb_true_r in Hroot.
    cbn [bind]. unfold node_map_set. cbn [node_id root_node_of].
    rewrite Hroot. cbn [bind]. rewrite foreach_app.
    match goal with
    | |- bind (bind (foreach ?body before ?init) _) _ = _ =>
        destruct (foreach_total body before) with (s := init) as [ st1 -> ]
    end.
    + intros x Hx s. apply add_component_total; auto.
      rewrite forallb_forall in Hcomps. now apply Hcomps.
    + cbn [bind foreach].
      rewrite (proj2 (@add_component_nameless (JObj r) subcomponents st1
                        component_id c Hname) Hsubs).
      reflexivity.
Qed.

(** A root object that lacks one of its three fields stops the build at
    once. *)
Lemma build_graph_root_fields (r : dict json) (components subcomponents : dict json) :
  dict_get "id" r = None \/ dict_get "name" r = None
  \/ dict_get "description" r = None ->
  build_graph repr_container (JObj r) components subcomponents = Raise KeyError.
Proof.
  intros H. unfold build_graph. cbn [subscript].
  destruct (dict_get "id" r) as [ root_id | ]; [ | reflexivity ]. cbn [bind].
  destruct (dict_get "name" r) as [ root_name | ]; [ | reflexivity ]. cbn [bind].
  destruct (dict_get "description" r) as [ root_description | ];
    [ | reflexivity ].
  destruct H as [ H | [ H | H ] ]; discriminate.
Qed.

End AnyDocuments.

(** The loaders of app.py raise nothing, so [graph] answers what the build
    on the loaded documents gives. *)
Lemma graph_route_answer (json_loads : text -> result json)
  (repr_container : json -> string) (str_exn : exn -> string) (fs : filesystem) :
  exists root_data components subcomponents,
    get_root_data json_loads fs = Ok root_data /\
    App.get_components json_loads fs = Ok components /\
    App.get_subcomponents json_loads fs = Ok subcomponents /\
    Routes.graph json_loads repr_container str_exn fs =
      graph_answer_of str_exn
        (build_graph repr_container root_data components subcomponents).
Proof.
  destruct (get_root_data_truthy json_loads fs) as (root & Hr & _).
  assert (Hc : exists c, App.get_components json_loads fs = Ok c).
  { rewrite app_get_components_eq. destruct (COMPONENTS_DIR fs); eauto.
    apply helper_get_components_total. }
  destruct Hc as (c & Hc).
  assert (Hs : exists s, App.get_subcomponents json_loads fs = Ok s).
  { destruct (loaders_eq_subcomponents json_loads fs) as [ Heq | Heq ];
      [ | eauto ].
    unfold App.get_subcomponents.
    destruct (SUBCOMPONENTS_DIR fs) as [ files | ]; [ | simpl; eauto ].
    destruct (foreach (load_subcomponent json_loads) files []); simpl; eauto. }
  destruct Hs as (sc & Hs).
  exists root, c, sc. repeat split; auto.
  unfold Routes.graph, App.build_graph_data. rewrite Hr, Hc, Hs. simpl.
  destruct (build_graph repr_container root c sc); reflexivity.
Qed.

(** C6, amended: on documents with the required fields (a root object with
    id, name and description, component objects with a name, subcomponent
    objects) and with well-shaped nested fragments (ids that can be dict
    keys, child collections that can be iterated, [outputs] an array),
    [build_graph_data] returns a node and edge list; an entry of a child
    array that is not an object is skipped.  A root object without ["id"],
    ["name"] or ["description"] aborts the build with [KeyError]; a
    component object without ["name"], wherever it stands in the mapping,
    makes the build return no graph, and abort with [KeyError] when the
    documents before it are well-formed.  The route [graph] answers the
    graph with status 200, and any exception of the build by its message
    with empty node and link lists and status 500. *)
Theorem build_completes_on_well_formed (repr_container : json -> string) :
  (forall root_data components subcomponents,
      documents_ok root_data components subcomponents = true ->
      exists g,
        build_graph repr_container root_data components subcomponents = Ok g) /\
  (forall parent_id v st output_idx,
      is_object v = false ->
      add_capability repr_container parent_id st v = Ok st /\
      add_function repr_container parent_id st v = Ok st /\
      add_specification repr_container parent_id st v = Ok st /\
      add_integration repr_container parent_id st v = Ok st /\
      add_technique repr_container parent_id st v = Ok st /\
      add_application repr_container parent_id st v = Ok st /\
      add_input repr_container parent_id st v = Ok st /\
      add_output repr_container parent_id st (output_idx, v) = Ok st) /\
  (forall r components subcomponents,
      dict_get "id" r = None \/ dict_get "name" r = None
      \/ dict_get "description" r = None ->
      build_graph repr_container (JObj r) components subcomponents
        = Raise KeyError) /\
  (forall root_data before component_id c rest subcomponents,
      dict_get "name" c = None ->
      (forall g,
          build_graph repr_container root_data
            (before ++ (component_id, JObj c) :: rest) subcomponents <> Ok g) /\
      (documents_ok root_data before subcomponents = true ->
       build_graph repr_container root_data
         (before ++ (component_id, JObj c) :: rest) subcomponents
         = Raise KeyError)) /\
  (forall json_loads str_exn fs,
      exists root_data components subcomponents,
        get_root_data json_loads fs = Ok root_data /\
        App.get_components json_loads fs = Ok components /\
        App.get_subcomponents json_loads fs = Ok subcomponents /\
        Routes.graph json_loads repr_container str_exn fs =
          graph_answer_of str_exn
            (build_graph repr_container root_data components subcomponents)).
Proof.
  split; [ intros; now apply build_graph_total | ].
  split; [ intros; now apply non_object_skipped | ].
  split; [ intros; now apply build_graph_root_fields | ].
  split; [ intros; now apply build_graph_nameless | ].
  intros. apply graph_route_answer.
Qed.

Lemma build_completes_on_well_formed_witness :
  documents_ok DEFAULT_ROOT_DATA example_components example_subcomponents = true /\
  (exists g,
      build_graph repr_unused DEFAULT_ROOT_DATA example_components
        example_subcomponents = Ok g) /\
  build_graph repr_unused DEFAULT_ROOT_DATA
    (example_components ++ ("c1", JObj [("description", JStr "no name")]) :: [])
    example_subcomponents = Raise KeyError.
Proof.
  assert (H : documents_ok DEFAULT_ROOT_DATA example_components
                example_subcomponents = true) by reflexivity.
  destruct (build_completes_on_well_formed repr_unused)
    as (Hg & _ & _ & Hname & _).
  split; [ exact H | ].
  split; [ exact (Hg _ _ _ H) | ].
  exact (proj2 (Hname DEFAULT_ROOT_DATA example_components "c1"
                  [("description", JStr "no name")] [] example_subcomponents
                  eq_refl) H).
Defined.
